(** * Trust-gated execution core: payment engine, verification authority,
      relying party and step-binding resolver

    A shallow embedding of

    - [ap2/payment_mock.py]   (class [AP2PaymentMock]),
    - [a2a_kyc_enhanced.py]   (classes [KycAgent], [CompanyAgent]),
    - [agents/nav.py]         (method [AgentNav._resolve_parameters]).

    Python objects become records, instance dictionaries become [gmap]s
    and every method becomes a function from the receiver's state (and the
    values it draws from [uuid.uuid4()] and the clock, passed explicitly)
    to the new state and the returned value.  Amounts and risk scores are
    exact rationals. *)

From Stdlib Require Import Ascii String QArith Qminmax Lqa.
From stdpp Require Import gmap strings list fin_maps pretty.

Local Open Scope string_scope.
Set Warnings "-register-all".

(** ** Python values *)

(** The values that travel in untyped dictionaries ([Dict[str, Any]]). *)
Inductive pyval : Type :=
| PNone
| PBool (b : bool)
| PInt (z : Z)
| PFloat (q : Q)
| PStr (s : string)
| PList (l : list pyval)
| PDict (d : gmap string pyval).

(** ** The staged authorization engine ([ap2/payment_mock.py]) *)

Module AP2.

Inductive PaymentStatus : Type :=
| INTENT_CREATED
| PENDING_AUTHORIZATION
| AUTHORIZED
| PROCESSING
| COMPLETED
| FAILED
| CANCELLED.

#[export] Instance PaymentStatus_eq_dec : EqDecision PaymentStatus.
Proof. solve_decision. Defined.

(** [PaymentStatus.<member>.value] *)
Definition status_value (s : PaymentStatus) : string :=
  match s with
  | INTENT_CREATED => "intent_created"
  | PENDING_AUTHORIZATION => "pending_authorization"
  | AUTHORIZED => "authorized"
  | PROCESSING => "processing"
  | COMPLETED => "completed"
  | FAILED => "failed"
  | CANCELLED => "cancelled"
  end.

Record PaymentIntent : Type := mkIntent {
  payment_id : string;
  amount : Q;
  currency : string;
  purpose : string;
  status : PaymentStatus;
  created_at : string;
  metadata : gmap string pyval
}.

Record PaymentAuthorization : Type := mkAuthorization {
  auth_id : string;
  auth_payment_id : string;
  authorized_by : string;
  authorized_at : string;
  auth_method : string;
  risk_score : Q
}.

Record PaymentReceipt : Type := mkReceipt {
  receipt_id : string;
  rcp_payment_id : string;
  transaction_id : string;
  rcp_amount : Q;
  rcp_currency : string;
  rcp_status : string;
  completed_at : string;
  confirmation_code : string
}.

(** The three instance dictionaries of [AP2PaymentMock]. *)
Record AP2PaymentMock : Type := mkAP2 {
  payment_intents : gmap string PaymentIntent;
  authorizations : gmap string PaymentAuthorization;
  receipts : gmap string PaymentReceipt
}.

(** [AP2PaymentMock.__init__] *)
Definition init : AP2PaymentMock :=
  {| payment_intents := ∅; authorizations := ∅; receipts := ∅ |}.

(** [intent.status = s]: the intent object is shared with the dictionary,
    so the assignment is an update of the stored record. *)
Definition set_status (s : PaymentStatus) (i : PaymentIntent) : PaymentIntent :=
  {| payment_id := payment_id i; amount := amount i; currency := currency i;
     purpose := purpose i; status := s; created_at := created_at i;
     metadata := metadata i |}.

Definition update_intent (pid : string) (i : PaymentIntent) (st : AP2PaymentMock)
  : AP2PaymentMock :=
  {| payment_intents := <[pid := i]> (payment_intents st);
     authorizations := authorizations st;
     receipts := receipts st |}.

(** *** [create_payment_intent] *)

(** The dictionary returned by [create_payment_intent]. *)
Record IntentResult : Type := mkIntentResult {
  ir_payment_id : string;
  ir_amount : Q;
  ir_currency : string;
  ir_purpose : string;
  ir_status : string;
  ir_created_at : string;
  ir_next_step : string
}.

(** [uuid] is the text of [uuid.uuid4()], [now] the text of
    [datetime.utcnow().isoformat()]; [metadata = None] is Python's default
    argument, and [metadata or {}] turns it into the empty dictionary. *)
Definition create_payment_intent (st : AP2PaymentMock)
    (amt : Q) (purp : string) (cur : string) (meta : option (gmap string pyval))
    (uuid now : string) : AP2PaymentMock * IntentResult :=
  let pid := "PAY-" +:+ uuid in
  let intent :=
    {| payment_id := pid; amount := amt; currency := cur; purpose := purp;
       status := INTENT_CREATED; created_at := now;
       metadata := default ∅ meta |} in
  (update_intent pid intent st,
   {| ir_payment_id := pid; ir_amount := amt; ir_currency := cur;
      ir_purpose := purp; ir_status := status_value INTENT_CREATED;
      ir_created_at := now; ir_next_step := "authorize_payment" |}).

(** *** [_calculate_risk_score] *)

(** Python's [min(a, b)]: the first argument unless the second is smaller. *)
Definition py_min (a b : Q) : Q :=
  match Qcompare b a with Lt => b | _ => a end.

Definition _calculate_risk_score (intent : PaymentIntent) : Q :=
  let base_risk := (1 # 10)%Q in
  let amount_risk := py_min (amount intent / 1000)%Q (3 # 10)%Q in
  (base_risk + amount_risk)%Q.

(** [a > b] on scores *)
Definition Qgtb (a b : Q) : bool :=
  match Qcompare a b with Gt => true | _ => false end.

(** *** [authorize_payment] *)

(** The three dictionaries [authorize_payment] can return. *)
Inductive AuthResult : Type :=
| AuthNotFound (error : string)
| AuthHighRisk (pid : string) (error : string) (risk : Q)
| AuthSuccess (pid aid at_ : string) (risk : Q) (st_value next_step : string).

Definition auth_success (r : AuthResult) : bool :=
  match r with AuthSuccess _ _ _ _ _ _ => true | _ => false end.

(** The method body, with the call [self._calculate_risk_score(intent)]
    left open as [score] (the call is dispatched on [self]). *)
Definition authorize_payment_with (score : PaymentIntent -> Q)
    (st : AP2PaymentMock) (pid who method : string) (uuid now : string)
  : AP2PaymentMock * AuthResult :=
  match payment_intents st !! pid with
  | None => (st, AuthNotFound ("Payment intent not found: " +:+ pid))
  | Some intent =>
      let risk := score intent in
      if Qgtb risk (8 # 10)%Q then
        (update_intent pid (set_status FAILED intent) st,
         AuthHighRisk pid "Payment blocked due to high risk score" risk)
      else
        let aid := "AUTH-" +:+ uuid in
        let authorization :=
          {| auth_id := aid; auth_payment_id := pid; authorized_by := who;
             authorized_at := now; auth_method := method; risk_score := risk |} in
        ({| payment_intents := <[pid := set_status AUTHORIZED intent]> (payment_intents st);
            authorizations := <[aid := authorization]> (authorizations st);
            receipts := receipts st |},
         AuthSuccess pid aid now risk (status_value AUTHORIZED) "confirm_payment")
  end.

Definition authorize_payment := authorize_payment_with _calculate_risk_score.

(** *** [confirm_payment] *)

(** The dictionaries [confirm_payment] can return; the receipt dictionary
    carries the receipt's fields and the intent's purpose. *)
Inductive ConfirmResult : Type :=
| ConfirmNotFound (error : string)
| ConfirmNotAuthorized (pid : string) (error : string)
| ConfirmReceipt (r : PaymentReceipt) (purp : string).

Definition confirm_success (r : ConfirmResult) : bool :=
  match r with ConfirmReceipt _ _ => true | _ => false end.

(** The three UUIDs are those drawn for the receipt id, the transaction
    id and the confirmation code, in that order; [code] is the already
    truncated and upper-cased text [str(uuid.uuid4())[:8].upper()]. *)
Definition confirm_payment (st : AP2PaymentMock) (pid : string)
    (u_rcp u_txn code now : string) : AP2PaymentMock * ConfirmResult :=
  match payment_intents st !! pid with
  | None => (st, ConfirmNotFound ("Payment intent not found: " +:+ pid))
  | Some intent =>
      if decide (status intent = AUTHORIZED) then
        let processing := set_status PROCESSING intent in
        let rid := "RCP-" +:+ u_rcp in
        let receipt :=
          {| receipt_id := rid; rcp_payment_id := pid;
             transaction_id := "TXN-" +:+ u_txn;
             rcp_amount := amount processing; rcp_currency := currency processing;
             rcp_status := "completed"; completed_at := now;
             confirmation_code := code |} in
        ({| payment_intents := <[pid := set_status COMPLETED processing]> (payment_intents st);
            authorizations := authorizations st;
            receipts := <[rid := receipt]> (receipts st) |},
         ConfirmReceipt receipt (purpose processing))
      else
        (st, ConfirmNotAuthorized pid
               ("Payment not authorized. Current status: " +:+ status_value (status intent)))
  end.

(** [get_payment_status], reduced to the status it reports. *)
Definition get_payment_status (st : AP2PaymentMock) (pid : string) : option PaymentStatus :=
  status <$> payment_intents st !! pid.

(** *** Call sequences *)

(** One call of the engine's interface, with the values it draws from the
    UUID generator and the clock. *)
Inductive call : Type :=
| CreateIntent (amt : Q) (purp cur : string) (meta : option (gmap string pyval))
    (uuid now : string)
| Authorize (pid who method : string) (uuid now : string)
| Confirm (pid : string) (u_rcp u_txn code now : string).

Definition exec (st : AP2PaymentMock) (c : call) : AP2PaymentMock :=
  match c with
  | CreateIntent amt purp cur meta uuid now =>
      fst (create_payment_intent st amt purp cur meta uuid now)
  | Authorize pid who method uuid now =>
      fst (authorize_payment st pid who method uuid now)
  | Confirm pid u_rcp u_txn code now =>
      fst (confirm_payment st pid u_rcp u_txn code now)
  end.

(** The engine after a sequence of calls on a fresh instance. *)
Definition run (cs : list call) : AP2PaymentMock := foldl exec init cs.

(** The usual flow of the module's own test: create, authorize, confirm. *)
Definition booking : list call :=
  [ CreateIntent 50 "Premium workspace booking" "USD" None "u1" "t0";
    Authorize "PAY-u1" "agent_nav" "agent_signature" "u2" "t1";
    Confirm "PAY-u1" "u3" "u4" "C0DE0001" "t2" ].

(** Every key of [payment_intents] was made by [create_payment_intent]. *)
Definition pay_keys (st : AP2PaymentMock) : Prop :=
  forall pid i, payment_intents st !! pid = Some i -> exists u, pid = "PAY-" +:+ u.

(** The receipts issued so far for one payment id. *)
Definition receipts_for (st : AP2PaymentMock) (pid : string) : list PaymentReceipt :=
  filter (fun r => rcp_payment_id r = pid) (snd <$> map_to_list (receipts st)).

(** A status from which the lifecycle allows no further move. *)
Definition terminal (s : PaymentStatus) : bool :=
  match s with COMPLETED | FAILED | CANCELLED => true | _ => false end.

End AP2.

(** ** The risk score on every float

    The engine above carries amounts and scores as rationals.  A Python
    float can also be one of the two infinities or NaN; this is
    [_calculate_risk_score] and the threshold test of [authorize_payment]
    on all of them. *)

Module AP2Float.

Inductive pyfloat : Type :=
| Finite (q : Q)
| PosInf
| NegInf
| NaN.

(** [a < b]: false whenever NaN takes part *)
Definition float_lt (a b : pyfloat) : bool :=
  match a, b with
  | NaN, _ | _, NaN => false
  | Finite x, Finite y => match Qcompare x y with Lt => true | _ => false end
  | _, NegInf => false
  | NegInf, _ => true
  | PosInf, _ => false
  | Finite _, PosInf => true
  end.

(** [a <= b] *)
Definition float_le (a b : pyfloat) : bool :=
  match a, b with
  | NaN, _ | _, NaN => false
  | Finite x, Finite y => match Qcompare x y with Gt => false | _ => true end
  | NegInf, _ => true
  | _, PosInf => true
  | PosInf, _ => false
  | Finite _, NegInf => false
  end.

(** [a > b] *)
Definition float_gt (a b : pyfloat) : bool := float_lt b a.

(** [a / 1000.0] *)
Definition float_div_1000 (a : pyfloat) : pyfloat :=
  match a with
  | Finite q => Finite (q / 1000)%Q
  | other => other
  end.

(** [a + b] *)
Definition float_add (a b : pyfloat) : pyfloat :=
  match a, b with
  | NaN, _ | _, NaN => NaN
  | Finite x, Finite y => Finite (x + y)%Q
  | PosInf, NegInf | NegInf, PosInf => NaN
  | PosInf, _ | _, PosInf => PosInf
  | NegInf, _ | _, NegInf => NegInf
  end.

(** Python's [min(a, b)]: the first argument unless the second is smaller. *)
Definition float_min (a b : pyfloat) : pyfloat :=
  if float_lt b a then b else a.

(** [_calculate_risk_score], on the intent's amount *)
Definition _calculate_risk_score (amount : pyfloat) : pyfloat :=
  let base_risk := Finite (1 # 10)%Q in
  let amount_risk := float_min (float_div_1000 amount) (Finite (3 # 10)%Q) in
  float_add base_risk amount_risk.

End AP2Float.

(** ** Python's [in] and subscripting for a string on the left *)

Module Py.

(** [needle in s] for two strings: substring test. *)
Fixpoint str_contains (needle s : string) : bool :=
  String.prefix needle s
  || match s with
     | EmptyString => false
     | String _ s' => str_contains needle s'
     end.

(** [key in v] with [key] a string.  [None] stands for the [TypeError]
    that Python raises when [v] is not a container. *)
Definition contains_str (key : string) (v : pyval) : option bool :=
  match v with
  | PDict d => Some (bool_decide (is_Some (d !! key)))
  | PList l =>
      Some (existsb (fun x => match x with PStr s => String.eqb s key | _ => false end) l)
  | PStr s => Some (str_contains key s)
  | PNone | PBool _ | PInt _ | PFloat _ => None
  end.

(** [v[key]] with [key] a string.  [None] stands for the [KeyError] or
    [TypeError] that Python raises. *)
Definition getitem_str (v : pyval) (key : string) : option pyval :=
  match v with
  | PDict d => d !! key
  | _ => None
  end.

(** [v == s] with [s] a string. *)
Definition eq_str (v : pyval) (s : string) : bool :=
  match v with PStr t => String.eqb t s | _ => false end.

(** [s[:n]] *)
Fixpoint str_take (n : nat) (s : string) : string :=
  match n, s with
  | S n', String c s' => String c (str_take n' s')
  | _, _ => EmptyString
  end.

Definition ascii_upper (c : ascii) : ascii :=
  let n := nat_of_ascii c in
  if (97 <=? n)%nat && (n <=? 122)%nat then ascii_of_nat (n - 32) else c.

(** [s.upper()] on ASCII text *)
Fixpoint str_upper (s : string) : string :=
  match s with
  | EmptyString => EmptyString
  | String c s' => String (ascii_upper c) (str_upper s')
  end.

End Py.

(** ** The verification authority and the relying party
       ([a2a_kyc_enhanced.py]) *)

(** The two library functions the authority calls:
    [hashlib.sha256(s.encode()).hexdigest()] and [json.dumps]. *)
Class Hashlib : Type := {
  sha256_hexdigest : string -> string;
  json_dumps : pyval -> string
}.

Module KYC.

Inductive KycStatus : Type := NOT_VERIFIED | PENDING | VERIFIED | REJECTED.

#[export] Instance KycStatus_eq_dec : EqDecision KycStatus.
Proof. solve_decision. Defined.

Definition KycStatus_value (s : KycStatus) : string :=
  match s with
  | NOT_VERIFIED => "not_verified"
  | PENDING => "pending"
  | VERIFIED => "verified"
  | REJECTED => "rejected"
  end.

Inductive Permission : Type := NONE | INVEST | TRADE | WITHDRAW | TRANSFER | BORROW.

#[export] Instance Permission_eq_dec : EqDecision Permission.
Proof. solve_decision. Defined.

Definition Permission_value (p : Permission) : string :=
  match p with
  | NONE => "none"
  | INVEST => "invest"
  | TRADE => "trade"
  | WITHDRAW => "withdraw"
  | TRANSFER => "transfer"
  | BORROW => "borrow"
  end.

(** [Optional[str]] as a Python value *)
Definition opt_str (o : option string) : pyval :=
  match o with Some s => PStr s | None => PNone end.

Record VerificationState : Type := mkVerificationState {
  investor_id : string;
  kyc_status : KycStatus;
  verification_id : option string;
  verified_at : option string;
  permissions : list Permission;
  risk_level : string;
  compliance_flags : list string
}.

(** [VerificationState.to_dict] *)
Definition to_dict (s : VerificationState) : gmap string pyval :=
  <["investor_id" := PStr (investor_id s)]>
  (<["kyc_status" := PStr (KycStatus_value (kyc_status s))]>
  (<["verification_id" := opt_str (verification_id s)]>
  (<["verified_at" := opt_str (verified_at s)]>
  (<["permissions" := PList ((fun p => PStr (Permission_value p)) <$> permissions s)]>
  (<["risk_level" := PStr (risk_level s)]>
  (<["compliance_flags" := PList (PStr <$> compliance_flags s)]> ∅)))))).

(** [VerificationState.has_permission] *)
Definition has_permission (s : VerificationState) (p : Permission) : bool :=
  bool_decide (p ∈ permissions s).

Inductive MessageType : Type :=
| KYC_SUBMISSION
| KYC_VERIFICATION_RESPONSE
| VERIFICATION_STATE_REQUEST
| VERIFICATION_STATE_RESPONSE
| INVESTMENT_REQUEST
| INVESTMENT_RESPONSE.

Record A2AMessage : Type := mkMessage {
  message_id : string;
  message_type : MessageType;
  sender_agent : string;
  recipient_agent : string;
  timestamp : string;
  payload : gmap string pyval
}.

(** An entry of the private [_identity_store]. *)
Record IdentityEntry : Type := mkIdentityEntry {
  identity_hash : string;
  id_verified_at : string
}.

Record KycAgent : Type := mkKycAgent {
  _identity_store : gmap string IdentityEntry;
  _verification_states : gmap string VerificationState
}.

Definition kyc_agent_id : string := "KycAgent-TrustedAuthority".

(** [KycAgent.__init__] *)
Definition kyc_init : KycAgent :=
  {| _identity_store := ∅; _verification_states := ∅ |}.

Definition required_fields : list string :=
  ["name"; "date_of_birth"; "national_id"; "address"].

(** [all(field in identity_data for field in fields)]: stops at the first
    [False]; [None] when a membership test raises. *)
Fixpoint all_in (identity_data : pyval) (fields : list string) : option bool :=
  match fields with
  | [] => Some true
  | f :: fs =>
      match Py.contains_str f identity_data with
      | None => None
      | Some false => Some false
      | Some true => all_in identity_data fs
      end
  end.

Definition _verify_identity (identity_data : pyval) : option bool :=
  all_in identity_data required_fields.

(** The default state built on the spot: [VerificationState(investor_id,
    status, permissions=[])] with the dataclass defaults. *)
Definition blank_state (inv : string) (st : KycStatus) : VerificationState :=
  {| investor_id := inv; kyc_status := st; verification_id := None;
     verified_at := None; permissions := []; risk_level := "medium";
     compliance_flags := [] |}.

Section Authority.
Context `{Hashlib}.

(** [f"KYC-{hashlib.sha256(investor_id.encode()).hexdigest()[:12].upper()}"] *)
Definition make_verification_id (inv : string) : string :=
  "KYC-" +:+ Py.str_upper (Py.str_take 12 (sha256_hexdigest inv)).

(** [_handle_kyc_submission].  [uuid] is the response's message id,
    [now_verified] the clock read for [verified_at] and [now_sent] the
    clock read for the response's timestamp.  The investor id is a string
    (the dataclass says [investor_id: str]); [None] stands for an
    exception: a missing payload key, an investor id that is not a string,
    or identity data on which [in] raises. *)
Definition _handle_kyc_submission (st : KycAgent) (message : A2AMessage)
    (uuid now_verified now_sent : string) : option (KycAgent * A2AMessage) :=
  match payload message !! "investor_id", payload message !! "identity_data" with
  | Some (PStr inv), Some identity_data =>
      match _verify_identity identity_data with
      | None => None
      | Some true =>
          let vid := make_verification_id inv in
          let vstate :=
            {| investor_id := inv; kyc_status := VERIFIED;
               verification_id := Some vid; verified_at := Some now_verified;
               permissions := [INVEST; TRADE; WITHDRAW; TRANSFER];
               risk_level := "low";
               compliance_flags := ["accredited_investor"; "aml_cleared"] |} in
          Some
            ({| _identity_store :=
                  <[inv := {| identity_hash := sha256_hexdigest (json_dumps identity_data);
                              id_verified_at := now_verified |}]> (_identity_store st);
                _verification_states := <[inv := vstate]> (_verification_states st) |},
             {| message_id := uuid; message_type := KYC_VERIFICATION_RESPONSE;
                sender_agent := kyc_agent_id; recipient_agent := sender_agent message;
                timestamp := now_sent;
                payload :=
                  <["verification_status" := PStr "verified"]>
                  (<["verification_id" := PStr vid]>
                  (<["verified_at" := PStr now_verified]> ∅)) |})
      | Some false =>
          Some
            ({| _identity_store := _identity_store st;
                _verification_states :=
                  <[inv := blank_state inv REJECTED]> (_verification_states st) |},
             {| message_id := uuid; message_type := KYC_VERIFICATION_RESPONSE;
                sender_agent := kyc_agent_id; recipient_agent := sender_agent message;
                timestamp := now_sent;
                payload :=
                  <["verification_status" := PStr "rejected"]>
                  (<["reason" := PStr "Identity verification failed"]> ∅) |})
      end
  | _, _ => None
  end.

(** [_handle_verification_state_request]: reads the agent, changes nothing. *)
Definition _handle_verification_state_request (st : KycAgent) (message : A2AMessage)
    (uuid now : string) : option A2AMessage :=
  match payload message !! "investor_id" with
  | Some (PStr inv) =>
      let state :=
        match _verification_states st !! inv with
        | Some s => s
        | None => blank_state inv NOT_VERIFIED
        end in
      Some {| message_id := uuid; message_type := VERIFICATION_STATE_RESPONSE;
              sender_agent := kyc_agent_id; recipient_agent := sender_agent message;
              timestamp := now;
              payload := <["verification_state" := PDict (to_dict state)]> ∅ |}
  | _ => None
  end.

(** [KycAgent.receive_message]: dispatch on the message type; any other
    type raises [ValueError]. *)
Definition receive_message (st : KycAgent) (message : A2AMessage)
    (uuid now_verified now_sent : string) : option (KycAgent * A2AMessage) :=
  match message_type message with
  | KYC_SUBMISSION => _handle_kyc_submission st message uuid now_verified now_sent
  | VERIFICATION_STATE_REQUEST =>
      match _handle_verification_state_request st message uuid now_sent with
      | Some r => Some (st, r)
      | None => None
      end
  | _ => None
  end.

End Authority.

(** The message [InvestorAgent.submit_kyc] sends. *)
Definition submission_message (inv : string) (identity_data : gmap string string)
    (uuid now : string) : A2AMessage :=
  {| message_id := uuid; message_type := KYC_SUBMISSION;
     sender_agent := "InvestorAgent-" +:+ inv; recipient_agent := kyc_agent_id;
     timestamp := now;
     payload := <["investor_id" := PStr inv]>
                (<["identity_data" := PDict (PStr <$> identity_data)]> ∅) |}.

(** The message a relying party sends to ask for a principal's state. *)
Definition state_request_message (sender inv : string) (uuid now : string) : A2AMessage :=
  {| message_id := uuid; message_type := VERIFICATION_STATE_REQUEST;
     sender_agent := sender; recipient_agent := kyc_agent_id;
     timestamp := now;
     payload := <["investor_id" := PStr inv]> ∅ |}.

(** *** The relying party ([CompanyAgent]) *)

Inductive TransactionStatus : Type :=
| TXN_BLOCKED
| TXN_PENDING_VERIFICATION
| TXN_VERIFIED
| TXN_COMPLETED
| TXN_FAILED.

Definition TransactionStatus_value (s : TransactionStatus) : string :=
  match s with
  | TXN_BLOCKED => "blocked"
  | TXN_PENDING_VERIFICATION => "pending_verification"
  | TXN_VERIFIED => "verified"
  | TXN_COMPLETED => "completed"
  | TXN_FAILED => "failed"
  end.

Record TransactionState : Type := mkTransaction {
  transaction_id : string;
  txn_investor_id : string;
  txn_company_id : string;
  txn_amount : pyval;
  txn_status : TransactionStatus;
  txn_reason : option string;
  txn_timestamp : string
}.

(** A [CompanyAgent] without its reference to the shared [KycAgent], which
    the handler receives next to it. *)
Record CompanyAgent : Type := mkCompanyAgent {
  company_id : string;
  company_name : string;
  transactions : gmap string TransactionState
}.

(** [self.agent_id = f"CompanyAgent-{company_id}"] *)
Definition agent_id (c : CompanyAgent) : string := "CompanyAgent-" +:+ company_id c.

(** The values one investment request draws from [uuid.uuid4()] and the
    clock, in the order of the calls: for the transaction, for the state
    request, inside the authority for its answer, and for the response. *)
Record InvestmentDraws : Type := mkDraws {
  txn_uuid : string; txn_now : string;
  req_uuid : string; req_now : string;
  kyc_uuid : string; kyc_now : string;
  resp_uuid : string; resp_now : string
}.

(** First part of [_handle_investment_request]: the transaction is built
    and entered in the ledger before anything is asked of the authority. *)
Definition open_transaction (c : CompanyAgent) (inv : string) (amt : pyval)
    (d : InvestmentDraws) : CompanyAgent * TransactionState :=
  let transaction :=
    {| transaction_id := txn_uuid d; txn_investor_id := inv;
       txn_company_id := company_id c; txn_amount := amt;
       txn_status := TXN_PENDING_VERIFICATION; txn_reason := None;
       txn_timestamp := txn_now d |} in
  ({| company_id := company_id c; company_name := company_name c;
      transactions := <[txn_uuid d := transaction]> (transactions c) |},
   transaction).

(** [kyc_status == KycStatus.VERIFIED.value and 'invest' in permissions]
    on the received dictionary; [and] does not evaluate its right side
    when the left side is false. *)
Definition approves (verification_state_dict : pyval) : option bool :=
  match Py.getitem_str verification_state_dict "kyc_status",
        Py.getitem_str verification_state_dict "permissions" with
  | Some status, Some perms =>
      if Py.eq_str status (KycStatus_value VERIFIED)
      then Py.contains_str "invest" perms
      else Some false
  | _, _ => None
  end.

(** [transaction.status = s; transaction.reason = r] on the object that
    the ledger holds. *)
Definition close_transaction (c : CompanyAgent) (t : TransactionState)
    (s : TransactionStatus) (r : option string) : CompanyAgent * TransactionState :=
  let t' :=
    {| transaction_id := transaction_id t; txn_investor_id := txn_investor_id t;
       txn_company_id := txn_company_id t; txn_amount := txn_amount t;
       txn_status := s; txn_reason := r; txn_timestamp := txn_timestamp t |} in
  ({| company_id := company_id c; company_name := company_name c;
      transactions := <[transaction_id t := t']> (transactions c) |}, t').

Definition is_number (v : pyval) : bool :=
  match v with PInt _ | PFloat _ => true | _ => false end.

Definition blocked_reason : string :=
  "KYC verification required or insufficient permissions".

Section RelyingParty.
Context `{Hashlib}.

(** [_handle_investment_request].  [kyc] is the authority the company was
    constructed with; the handler only reads it.  [None] stands for an
    exception (a payload without a string investor id or a numeric amount,
    which the log lines format as a number). *)
Definition _handle_investment_request (kyc : KycAgent) (c : CompanyAgent)
    (message : A2AMessage) (d : InvestmentDraws) : option (CompanyAgent * A2AMessage) :=
  match payload message !! "investor_id", payload message !! "amount" with
  | Some (PStr inv), Some amt =>
      if is_number amt then
        let opened := open_transaction c inv amt d in
        let state_request :=
          state_request_message (agent_id c) inv (req_uuid d) (req_now d) in
        match receive_message kyc state_request (kyc_uuid d) (kyc_now d) (kyc_now d) with
        | None => None
        | Some (_, state_response) =>
            match payload state_response !! "verification_state" with
            | None => None
            | Some verification_state_dict =>
                match approves verification_state_dict with
                | None => None
                | Some true =>
                    let closed :=
                      close_transaction (fst opened) (snd opened) TXN_COMPLETED None in
                    Some (fst closed,
                      {| message_id := resp_uuid d; message_type := INVESTMENT_RESPONSE;
                         sender_agent := agent_id c;
                         recipient_agent := sender_agent message;
                         timestamp := resp_now d;
                         payload :=
                           <["transaction_id" := PStr (transaction_id (snd closed))]>
                           (<["status" := PStr (TransactionStatus_value (txn_status (snd closed)))]>
                           (<["amount" := amt]> ∅)) |})
                | Some false =>
                    let closed :=
                      close_transaction (fst opened) (snd opened) TXN_BLOCKED
                        (Some blocked_reason) in
                    Some (fst closed,
                      {| message_id := resp_uuid d; message_type := INVESTMENT_RESPONSE;
                         sender_agent := agent_id c;
                         recipient_agent := sender_agent message;
                         timestamp := resp_now d;
                         payload :=
                           <["transaction_id" := PStr (transaction_id (snd closed))]>
                           (<["status" := PStr (TransactionStatus_value (txn_status (snd closed)))]>
                           (<["reason" := opt_str (txn_reason (snd closed))]> ∅)) |})
                end
            end
        end
      else None
  | _, _ => None
  end.

End RelyingParty.

(** The message [InvestorAgent.request_investment] sends. *)
Definition investment_message (inv : string) (amt : Q) (vid : option string)
    (recipient : string) (uuid now : string) : A2AMessage :=
  {| message_id := uuid; message_type := INVESTMENT_REQUEST;
     sender_agent := "InvestorAgent-" +:+ inv; recipient_agent := recipient;
     timestamp := now;
     payload := <["investor_id" := PStr inv]>
                (<["amount" := PFloat amt]>
                (<["verification_id" := opt_str vid]> ∅)) |}.

(** *** Sequences of submissions *)

(** One KYC submission as the authority receives it: the message and the
    values drawn while handling it. *)
Record submission : Type := mkSubmission {
  sub_message : A2AMessage;
  sub_uuid : string;
  sub_now_verified : string;
  sub_now_sent : string
}.

Section Submissions.
Context `{Hashlib}.

(** The authority after handling one submission; a submission that raises
    does so before any assignment and leaves the authority as it was. *)
Definition submit (st : KycAgent) (s : submission) : KycAgent :=
  match _handle_kyc_submission st (sub_message s)
          (sub_uuid s) (sub_now_verified s) (sub_now_sent s) with
  | Some (st', _) => st'
  | None => st
  end.

Definition after_submissions (subs : list submission) : KycAgent :=
  foldl submit kyc_init subs.

End Submissions.

(** What of a submission is not identity data: the principal's id, the
    outcome of the required-fields check and, for an accepted submission,
    the time of verification.  The identity fields themselves, their
    names beyond the four required ones and their values are left out. *)
Definition public_part (s : submission) : option (string * option string) :=
  match payload (sub_message s) !! "investor_id",
        payload (sub_message s) !! "identity_data" with
  | Some (PStr inv), Some identity_data =>
      match _verify_identity identity_data with
      | Some true => Some (inv, Some (sub_now_verified s))
      | Some false => Some (inv, None)
      | None => None
      end
  | _, _ => None
  end.

(** The keys of [VerificationState.to_dict]. *)
Definition state_fields : list string :=
  ["investor_id"; "kyc_status"; "verification_id"; "verified_at";
   "permissions"; "risk_level"; "compliance_flags"].

(** The identity data of the module's own demonstration, and a second
    set for the same person with other values and one more field. *)
Definition demo_identity : gmap string string :=
  list_to_map
    [("name", "Vansh Ranawat"); ("date_of_birth", "1990-05-15");
     ("national_id", "US-123456789");
     ("address", "123 Main St, San Francisco, CA 94102");
     ("email", "vansh.ranawat@email.com")].

Definition other_identity : gmap string string :=
  list_to_map
    [("name", "V. Ranawat"); ("date_of_birth", "1991-01-01");
     ("national_id", "IN-987654321"); ("address", "Elsewhere");
     ("phone", "555-0100")].

(** A stand-in for the two library functions, good enough to run the
    handlers on concrete data: the text itself for its digest, and a fixed
    text for every serialization. *)
Definition plain_hashlib : Hashlib :=
  {| sha256_hexdigest := fun s => s; json_dumps := fun _ => "{}" |}.

(** The state the authority holds for a principal, as the state request
    reads it. *)
Definition current_state (kyc : KycAgent) (inv : string) : VerificationState :=
  match _verification_states kyc !! inv with
  | Some s => s
  | None => blank_state inv NOT_VERIFIED
  end.

End KYC.

(** ** The step-binding resolver ([agents/nav.py]) *)

Module Nav.

(** [s.endswith(suffix)] *)
Fixpoint str_endswith (suffix s : string) : bool :=
  String.eqb s suffix
  || match s with
     | EmptyString => false
     | String _ s' => str_endswith suffix s'
     end.

(** [s[n:]] *)
Fixpoint str_drop (n : nat) (s : string) : string :=
  match n, s with
  | S n', String _ s' => str_drop n' s'
  | _, _ => s
  end.

(** [s[:-1]] *)
Fixpoint str_drop_last (s : string) : string :=
  match s with
  | EmptyString => EmptyString
  | String c s' =>
      match s' with
      | EmptyString => EmptyString
      | String _ _ => String c (str_drop_last s')
      end
  end.

(** [s.split(sep)] for a one-character separator: one part more than
    there are separators, empty parts included. *)
Fixpoint str_split (sep : ascii) (s : string) : list string :=
  match s with
  | EmptyString => [EmptyString]
  | String c s' =>
      if Ascii.eqb c sep then EmptyString :: str_split sep s'
      else
        match str_split sep s' with
        | part :: parts => String c part :: parts
        | [] => [String c EmptyString]
        end
  end.

Definition dot : ascii := "."%char.

(** The body of the loop of [_resolve_parameters] for one value, given
    [self.execution_context].  [None] stands for an exception raised by
    [in] or by a subscript. *)
Definition resolve_value (execution_context : gmap string pyval) (value : pyval)
  : option pyval :=
  match value with
  | PStr text =>
      if String.prefix "${" text && str_endswith "}" text then
        let ref := str_drop_last (str_drop 2 text) in
        match str_split dot ref with
        | [step_ref; field] =>
            match execution_context !! step_ref with
            | Some step_result =>
                match Py.contains_str "data" step_result with
                | None => None
                | Some has_data =>
                    match
                      (if has_data
                       then match Py.getitem_str step_result "data" with
                            | Some data => Py.contains_str field data
                            | None => None
                            end
                       else Some false)
                    with
                    | None => None
                    | Some true =>
                        match Py.getitem_str step_result "data" with
                        | Some data => Py.getitem_str data field
                        | None => None
                        end
                    | Some false =>
                        match Py.contains_str field step_result with
                        | None => None
                        | Some true => Py.getitem_str step_result field
                        | Some false => Some value
                        end
                    end
                end
            | None => Some value
            end
        | _ => Some value
        end
      else Some value
  | _ => Some value
  end.

(** [_resolve_parameters]: [resolved = {}], then one assignment
    [resolved[key] = ...] per item of [parameters]. *)
Definition _resolve_parameters (execution_context : gmap string pyval)
    (parameters : gmap string pyval) : option (gmap string pyval) :=
  map_fold
    (fun key value acc =>
       match acc with
       | None => None
       | Some resolved =>
           match resolve_value execution_context value with
           | None => None
           | Some v => Some (<[key := v]> resolved)
           end
       end)
    (Some ∅) parameters.

(** The reference text [${step.field}]. *)
Definition placeholder (step field : string) : string :=
  "${" +:+ step +:+ "." +:+ field +:+ "}".

Fixpoint has_char (c : ascii) (s : string) : bool :=
  match s with
  | EmptyString => false
  | String c' s' => Ascii.eqb c' c || has_char c s'
  end.

(** A value that is not of the reference shape at all: not a string, or a
    string that does not both start with ["${"] and end with ["}"]. *)
Definition plain (value : pyval) : bool :=
  match value with
  | PStr text => negb (String.prefix "${" text && str_endswith "}" text)
  | _ => true
  end.

(** What a step has produced for a field, in the words of the design: the
    field of the nested data envelope when the result carries one that
    has the field, else the field of the result itself. *)
Definition bound_value (execution_context : gmap string pyval) (step field : string)
  : option pyval :=
  match execution_context !! step with
  | Some (PDict result) =>
      match result !! "data" with
      | Some (PDict envelope) =>
          match envelope !! field with
          | Some v => Some v
          | None => result !! field
          end
      | _ => result !! field
      end
  | _ => None
  end.

(** The contexts the executor builds: every stored step result is a
    dictionary, and its ["data"] entry, when there is one, is a dictionary
    too ([ActionResult.data: Dict[str, Any]]). *)
Definition results_are_dicts (execution_context : gmap string pyval) : Prop :=
  forall step result, execution_context !! step = Some result ->
    exists d, result = PDict d
      /\ forall e, d !! "data" = Some e -> exists envelope, e = PDict envelope.

(** The two contexts and parameter maps of the design's examples. *)
Definition ws_context : gmap string pyval :=
  {[ "step1" := PDict {[ "data" := PDict {[ "workspace_id" := PStr "WS-9" ]} ]} ]}.

Definition ws_parameters : gmap string pyval :=
  {[ "workspace_id" := PStr "${step1.workspace_id}" ]}.

Definition dangling_parameters : gmap string pyval :=
  {[ "x" := PStr "${step5.x}" ]}.

End Nav.

(** ** Invariants of the engine's three stores *)

Module AP2Inv.
Import AP2.

Definition live_status (s : PaymentStatus) : Prop :=
  s = INTENT_CREATED \/ s = AUTHORIZED \/ s = COMPLETED.

(** What every reachable engine satisfies, store by store. *)
Definition intents_ok (st : AP2PaymentMock) : Prop :=
  map_Forall (fun pid i => payment_id i = pid /\ live_status (status i)) (payment_intents st).

Definition authorizations_ok (st : AP2PaymentMock) : Prop :=
  map_Forall (fun aid a => auth_id a = aid
                           /\ is_Some (payment_intents st !! auth_payment_id a))
             (authorizations st).

Definition receipts_ok (st : AP2PaymentMock) : Prop :=
  map_Forall (fun rid r => receipt_id r = rid
                           /\ is_Some (payment_intents st !! rcp_payment_id r)
                           /\ rcp_status r = "completed")
             (receipts st).

Definition is_create (c : call) : bool :=
  match c with CreateIntent _ _ _ _ _ _ => true | _ => false end.

End AP2Inv.

(** ** The investor and the message dispatch of the relying party
       ([a2a_kyc_enhanced.py]) *)

Module KYCAgents.
Import KYC.

Record InvestorState : Type := mkInvestorState {
  inv_investor_id : string;
  inv_name : string;
  inv_kyc_status : KycStatus;
  inv_verification_id : option string
}.

(** [InvestorAgent.__init__] *)
Definition investor_init (inv name : string) : InvestorState :=
  {| inv_investor_id := inv; inv_name := name;
     inv_kyc_status := NOT_VERIFIED; inv_verification_id := None |}.

(** [response.payload.get("verification_id")] kept in a field declared
    [Optional[str]]. *)
Definition payload_opt_str (o : option pyval) : option string :=
  match o with Some (PStr s) => Some s | _ => None end.

(** The values drawn during [InvestorAgent.submit_kyc]: for the
    submission message, and inside the authority for its answer. *)
Record SubmitDraws : Type := mkSubmitDraws {
  sd_msg_uuid : string; sd_msg_now : string;
  sd_kyc_uuid : string; sd_verified_now : string; sd_sent_now : string
}.

Section Agents.
Context `{Hashlib}.

(** [InvestorAgent.submit_kyc]: the investor's status goes to [PENDING],
    the submission is handed to the authority, and the status is then set
    from the answer.  [None] stands for an exception raised by the
    authority. *)
Definition submit_kyc (investor : InvestorState) (kyc : KycAgent)
    (identity_data : gmap string string) (d : SubmitDraws)
  : option (InvestorState * KycAgent * A2AMessage) :=
  let message :=
    submission_message (inv_investor_id investor) identity_data
      (sd_msg_uuid d) (sd_msg_now d) in
  match receive_message kyc message (sd_kyc_uuid d) (sd_verified_now d) (sd_sent_now d) with
  | None => None
  | Some (kyc', response) =>
      match payload response !! "verification_status" with
      | Some status =>
          if Py.eq_str status "verified" then
            Some ({| inv_investor_id := inv_investor_id investor;
                     inv_name := inv_name investor;
                     inv_kyc_status := VERIFIED;
                     inv_verification_id :=
                       payload_opt_str (payload response !! "verification_id") |},
                  kyc', response)
          else
            Some ({| inv_investor_id := inv_investor_id investor;
                     inv_name := inv_name investor;
                     inv_kyc_status := REJECTED;
                     inv_verification_id := inv_verification_id investor |},
                  kyc', response)
      | None =>
          Some ({| inv_investor_id := inv_investor_id investor;
                   inv_name := inv_name investor;
                   inv_kyc_status := REJECTED;
                   inv_verification_id := inv_verification_id investor |},
                kyc', response)
      end
  end.

(** [CompanyAgent.receive_message]: only investment requests are handled;
    any other message type raises [ValueError]. *)
Definition company_receive_message (kyc : KycAgent) (c : CompanyAgent)
    (message : A2AMessage) (d : InvestmentDraws) : option (CompanyAgent * A2AMessage) :=
  match message_type message with
  | INVESTMENT_REQUEST => _handle_investment_request kyc c message d
  | _ => None
  end.

(** [InvestorAgent.request_investment]: the request carries the
    investor's id, the amount and the verification id the investor holds. *)
Definition request_investment (investor : InvestorState) (kyc : KycAgent)
    (c : CompanyAgent) (amt : Q) (uuid now : string) (d : InvestmentDraws)
  : option (CompanyAgent * A2AMessage) :=
  company_receive_message kyc c
    (investment_message (inv_investor_id investor) amt (inv_verification_id investor)
       (agent_id c) uuid now)
    d.

End Agents.

(** What the investor sees of a served and of a refused request. *)
Definition served (r : option (CompanyAgent * A2AMessage)) (d : InvestmentDraws) : Prop :=
  exists c' resp,
    r = Some (c', resp)
    /\ payload resp !! "status" = Some (PStr "completed")
    /\ txn_status <$> transactions c' !! txn_uuid d = Some TXN_COMPLETED.

Definition refused (r : option (CompanyAgent * A2AMessage)) (d : InvestmentDraws) : Prop :=
  exists c' resp,
    r = Some (c', resp)
    /\ payload resp !! "status" = Some (PStr "blocked")
    /\ payload resp !! "reason" = Some (PStr blocked_reason)
    /\ txn_status <$> transactions c' !! txn_uuid d = Some TXN_BLOCKED.

(** The principal a submission is about, when its payload names one. *)
Definition submitter (s : submission) : option string :=
  match payload (sub_message s) !! "investor_id" with
  | Some (PStr inv) => Some inv
  | _ => None
  end.

(** The shape of every state the authority stores under [inv]. *)
Definition stored_state_ok `{Hashlib} (st : KycAgent) (inv : string)
    (s : VerificationState) : Prop :=
  investor_id s = inv
  /\ risk_level s = (if decide (kyc_status s = VERIFIED) then "low" else "medium")
  /\ ((kyc_status s = VERIFIED
       /\ verification_id s = Some (make_verification_id inv)
       /\ permissions s = [INVEST; TRADE; WITHDRAW; TRANSFER]
       /\ exists t h, verified_at s = Some t
                      /\ _identity_store st !! inv = Some (mkIdentityEntry h t))
      \/ (kyc_status s = REJECTED
          /\ verification_id s = None /\ verified_at s = None /\ permissions s = [])).

End KYCAgents.

(** ** Exceptions, truth values and text of Python values *)

Module PyRun.

(** The exceptions the modelled code raises or meets, with their text. *)
Inductive pyexn : Type :=
| KeyError (key : string)
| ValueError (msg : string)
| TypeError (msg : string)
| OverflowError (msg : string)
| PyException (msg : string).

(** [str(e)]; the text of a [KeyError] is the [repr] of the key. *)
Definition exn_text (e : pyexn) : string :=
  match e with
  | KeyError key => "'" +:+ key +:+ "'"
  | ValueError msg | TypeError msg | OverflowError msg | PyException msg => msg
  end.

(** A call either returns or raises. *)
Inductive outcome (A : Type) : Type :=
| Returned (a : A)
| Raised (e : pyexn).
Arguments Returned {A} a.
Arguments Raised {A} e.

(** [bool(v)] *)
Definition truthy (v : pyval) : bool :=
  match v with
  | PNone => false
  | PBool b => b
  | PInt z => negb (Z.eqb z 0)
  | PFloat q => negb (Qeq_bool q 0)
  | PStr s => negb (String.eqb s "")
  | PList l => match l with [] => false | _ => true end
  | PDict d => negb (Nat.eqb (size d) 0)
  end.

(** [str(v)] as an f-string renders it, for the values whose rendering is
    modelled: [None], booleans, integers and strings.  [None] of the
    option stands for "not modelled" (floats and containers). *)
Definition format (v : pyval) : option string :=
  match v with
  | PNone => Some "None"
  | PBool true => Some "True"
  | PBool false => Some "False"
  | PInt z => Some (pretty z)
  | PStr s => Some s
  | PFloat _ | PList _ | PDict _ => None
  end.

(** The text of floats, lists and dictionaries is a parameter of the
    development, as the digest is: [str(x)] for a float [x], and the
    [repr] of containers. *)
Class PyText : Type := {
  float_text : Q -> string;
  list_text : list pyval -> string;
  dict_text : gmap string pyval -> string
}.

(** [str(v)] as an f-string renders it, for every value.  Integers are
    rendered in full (the limit that recent versions of Python put on
    the number of digits is not modelled). *)
Definition py_str `{PyText} (v : pyval) : string :=
  match v with
  | PNone => "None"
  | PBool true => "True"
  | PBool false => "False"
  | PInt z => pretty z
  | PStr s => s
  | PFloat q => float_text q
  | PList l => list_text l
  | PDict d => dict_text d
  end.

(** [float(n)] for an integer: the nearest number with 53 significant
    bits, ties to the even one.  Up to [2^53] in absolute value every
    integer is its own float. *)
Definition round53 (n : Z) : Z :=
  let a := Z.abs n in
  if (a <? 2 ^ 53)%Z then n
  else
    let e := (Z.log2 a - 52)%Z in
    let q := Z.shiftr a e in
    let r := Z.land a (Z.ones e) in
    let half := Z.shiftl 1 (e - 1) in
    let q' := if (half <? r)%Z || ((r =? half)%Z && Z.odd q) then (q + 1)%Z else q in
    (Z.sgn n * Z.shiftl q' e)%Z.

(** The first power of two that is no float: a number that rounds to it
    or beyond is out of range. *)
Definition float_overflow : Z := Eval vm_compute in (2 ^ 1024)%Z.

(** [25.0 * v].  An integer is first converted to a float, which raises
    when it is out of range, and the product is rounded again.  Floats
    are carried as rationals: a product of an integer that is out of
    range (infinite in Python) is not modelled, which is the [None] of
    the option, and the rounding of a product of two floats is left
    aside. *)
Definition times_25 (v : pyval) : option (outcome pyval) :=
  match v with
  | PInt z =>
      let f := round53 z in
      if (float_overflow <=? Z.abs f)%Z
      then Some (Raised (OverflowError "int too large to convert to float"))
      else
        let product := round53 (25 * f) in
        if (float_overflow <=? Z.abs product)%Z then None
        else Some (Returned (PFloat (inject_Z product)))
  | PFloat q => Some (Returned (PFloat (25 * q)))
  | PBool b => Some (Returned (PFloat (25 * (if b then 1 else 0))))
  | PStr _ | PList _ =>
      Some (Raised (TypeError "can't multiply sequence by non-int of type 'float'"))
  | PNone =>
      Some (Raised (TypeError "unsupported operand type(s) for *: 'float' and 'NoneType'"))
  | PDict _ =>
      Some (Raised (TypeError "unsupported operand type(s) for *: 'float' and 'dict'"))
  end.

(** [d.get(key, default)] *)
Definition get (d : gmap string pyval) (key : string) (dflt : pyval) : pyval :=
  default dflt (d !! key).

Definition ascii_lower (c : ascii) : ascii :=
  let n := nat_of_ascii c in
  if (65 <=? n)%nat && (n <=? 90)%nat then ascii_of_nat (n + 32) else c.

(** [s.lower()] on ASCII text *)
Fixpoint str_lower (s : string) : string :=
  match s with
  | EmptyString => EmptyString
  | String c s' => String (ascii_lower c) (str_lower s')
  end.

End PyRun.

(** ** The tool server ([mcp_server/server.py]) *)

Module MCP.
Import PyRun.

Inductive TaskStatus : Type := TASK_PENDING | TASK_IN_PROGRESS | TASK_COMPLETED | TASK_FAILED.

Definition TaskStatus_value (s : TaskStatus) : string :=
  match s with
  | TASK_PENDING => "pending"
  | TASK_IN_PROGRESS => "in_progress"
  | TASK_COMPLETED => "completed"
  | TASK_FAILED => "failed"
  end.

Record Task : Type := mkTask {
  task_id : string;
  task_name : pyval;
  task_metadata : pyval;
  task_status : TaskStatus;
  task_created_at : string;
  task_updated_at : string;
  task_result : pyval
}.

(** The [tasks] dictionary of [MCPServer]; the table of action handlers is
    fixed at construction and appears in [execute_action] below. *)
Record MCPServer : Type := mkMCP { tasks : gmap string Task }.

Definition mcp_init : MCPServer := {| tasks := ∅ |}.

(** [create_task] *)
Definition create_task (st : MCPServer) (name metadata : pyval) (uuid now : string)
  : MCPServer * gmap string pyval :=
  let task :=
    {| task_id := uuid; task_name := name; task_metadata := metadata;
       task_status := TASK_PENDING; task_created_at := now; task_updated_at := now;
       task_result := PNone |} in
  ({| tasks := <[uuid := task]> (tasks st) |},
   <["success" := PBool true]>
   (<["task_id" := PStr uuid]>
   (<["task_name" := name]>
   (<["status" := PStr (TaskStatus_value (task_status task))]>
   (<["created_at" := PStr now]> ∅))))).

(** [get_task_status]; [None] is Python's [None]. *)
Definition get_task_status (st : MCPServer) (id : string) : option (gmap string pyval) :=
  match tasks st !! id with
  | None => None
  | Some task =>
      Some (<["task_id" := PStr (task_id task)]>
           (<["task_name" := task_name task]>
           (<["status" := PStr (TaskStatus_value (task_status task))]>
           (<["created_at" := PStr (task_created_at task)]>
           (<["updated_at" := PStr (task_updated_at task)]>
           (<["result" := task_result task]> ∅))))))
  end.

(** [update_task_status]: nothing happens for an unknown id; the result is
    replaced only by a result that is true as a condition. *)
Definition update_task_status (st : MCPServer) (id : string) (status : TaskStatus)
    (result : pyval) (now : string) : MCPServer :=
  match tasks st !! id with
  | None => st
  | Some task =>
      {| tasks :=
           <[id := {| task_id := task_id task; task_name := task_name task;
                      task_metadata := task_metadata task;
                      task_status := status;
                      task_created_at := task_created_at task;
                      task_updated_at := now;
                      task_result := if truthy result then result else task_result task |}]>
             (tasks st) |}
  end.

(** The values one [execute_action] draws: two UUIDs and a clock value
    for the handler, and the clock value of the answer. *)
Record ActionDraws : Type := mkActionDraws {
  ad_uuid : string; ad_uuid2 : string; ad_handler_now : string; ad_now : string
}.

(** [_find_workspace]; [None] where the total price is not modelled. *)
Definition _find_workspace (parameters : gmap string pyval) (d : ActionDraws)
  : option (outcome (gmap string pyval)) :=
  let duration := get parameters "duration_hours" (PInt 1) in
  let workspace_type := get parameters "type" (PStr "premium") in
  match times_25 duration with
  | None => None
  | Some (Raised e) => Some (Raised e)
  | Some (Returned total) =>
      Some (Returned
        (<["workspace_id" := PStr ("WS-" +:+ Py.str_take 8 (ad_uuid d))]>
        (<["type" := workspace_type]>
        (<["duration_hours" := duration]>
        (<["price_per_hour" := PFloat 25]>
        (<["total_price" := total]>
        (<["location" := PStr "Downtown Tech Hub"]>
        (<["amenities" :=
             PList [PStr "High-speed WiFi"; PStr "Standing desk"; PStr "Coffee bar"]]>
           ∅))))))))
  end.

(** [_confirm_booking] *)
Definition _confirm_booking (parameters : gmap string pyval) (d : ActionDraws)
  : option (outcome (gmap string pyval)) :=
  Some (Returned
    (<["booking_id" := PStr ("BK-" +:+ Py.str_take 8 (ad_uuid d))]>
    (<["workspace_id" := get parameters "workspace_id" PNone]>
    (<["payment_id" := get parameters "payment_id" PNone]>
    (<["status" := PStr "confirmed"]>
    (<["confirmation_code" := PStr (Py.str_upper (Py.str_take 6 (ad_uuid2 d)))]>
    (<["check_in_time" := PStr "2025-12-22T18:00:00Z"]> ∅))))))).

(** [_send_notification] *)
Definition _send_notification (parameters : gmap string pyval) (d : ActionDraws)
  : option (outcome (gmap string pyval)) :=
  Some (Returned
    (<["notification_id" := PStr ("NT-" +:+ Py.str_take 8 (ad_uuid d))]>
    (<["recipient" := get parameters "recipient" (PStr "user@example.com")]>
    (<["message" := get parameters "message" (PStr "")]>
    (<["sent_at" := PStr (ad_handler_now d)]>
    (<["delivery_status" := PStr "sent"]> ∅)))))).

(** [self.action_handlers] *)
Definition action_handler (action_name : string)
  : option (gmap string pyval -> ActionDraws -> option (outcome (gmap string pyval))) :=
  if String.eqb action_name "find_workspace" then Some _find_workspace
  else if String.eqb action_name "confirm_booking" then Some _confirm_booking
  else if String.eqb action_name "send_notification" then Some _send_notification
  else None.

(** The dictionary returned when an action is unknown or its handler
    raised. *)
Definition action_failure (action_name error now : string) : gmap string pyval :=
  <["success" := PBool false]>
  (<["action_name" := PStr action_name]>
  (<["error" := PStr error]>
  (<["timestamp" := PStr now]> ∅))).

(** [execute_action]: the handler's exceptions are caught and reported;
    the server itself is not changed.  [None] where the handler's result
    is not modelled. *)
Definition execute_action (action_name : string) (parameters : gmap string pyval)
    (d : ActionDraws) : option (gmap string pyval) :=
  match action_handler action_name with
  | None => Some (action_failure action_name ("Unknown action: " +:+ action_name) (ad_now d))
  | Some handler =>
      match handler parameters d with
      | Some (Returned result_data) =>
          Some (<["action_name" := PStr action_name]>
               (<["success" := PBool true]>
               (<["data" := PDict result_data]>
               (<["timestamp" := PStr (ad_now d)]>
               (<["error" := PNone]> ∅)))))
      | Some (Raised e) => Some (action_failure action_name (exn_text e) (ad_now d))
      | None => None
      end
  end.

End MCP.

(** ** The executor ([agents/nav.py]) *)

Module Executor.
Import PyRun MCP.

(** [agents/messages.py]: [A2AMessage] *)
Record AgentMessage : Type := mkAgentMessage {
  am_message_id : string;
  am_from_agent : string;
  am_to_agent : string;
  am_message_type : string;
  am_payload : gmap string pyval;
  am_timestamp : string
}.

Record TaskExecution : Type := mkExecution {
  execution_id : string;
  ex_plan_id : pyval;
  ex_step_number : pyval;
  ex_action : pyval;
  ex_status : string;
  ex_started_at : string;
  ex_completed_at : option string;
  ex_result : option (gmap string pyval);
  ex_error : option string
}.

(** [AgentNav], with the tool server and the payment engine it obtained
    from [get_mcp_server()] and [get_ap2_instance()] held inside. *)
Record AgentNav : Type := mkNav {
  nav_agent_id : string;
  executions : gmap string TaskExecution;
  message_history : list AgentMessage;
  mcp_server : MCPServer;
  ap2 : AP2.AP2PaymentMock;
  execution_context : gmap string pyval
}.

(** [AgentNav.__init__] on a fresh server and a fresh engine *)
Definition nav_init (agent_id : string) : AgentNav :=
  {| nav_agent_id := agent_id; executions := ∅; message_history := [];
     mcp_server := mcp_init; ap2 := AP2.init; execution_context := ∅ |}.

(** The values one delegation draws, in the order of the calls: for the
    execution record, for a tool call, for the three stages of a
    payment, and the clock at completion. *)
Record NavDraws : Type := mkNavDraws {
  nd_exec_uuid : string; nd_started : string;
  nd_task_uuid : string; nd_task_now : string;
  nd_action : ActionDraws;
  nd_intent_uuid : string; nd_intent_now : string;
  nd_auth_uuid : string; nd_auth_now : string;
  nd_rcp_uuid : string; nd_txn_uuid : string; nd_code_uuid : string;
  nd_confirm_now : string;
  nd_completed : string
}.

(** The dictionary [confirm_payment] returns on success. *)
Definition receipt_dict (r : AP2.PaymentReceipt) (purp : string) : gmap string pyval :=
  <["success" := PBool true]>
  (<["receipt_id" := PStr (AP2.receipt_id r)]>
  (<["payment_id" := PStr (AP2.rcp_payment_id r)]>
  (<["transaction_id" := PStr (AP2.transaction_id r)]>
  (<["amount" := PFloat (AP2.rcp_amount r)]>
  (<["currency" := PStr (AP2.rcp_currency r)]>
  (<["status" := PStr (AP2.rcp_status r)]>
  (<["completed_at" := PStr (AP2.completed_at r)]>
  (<["confirmation_code" := PStr (AP2.confirmation_code r)]>
  (<["purpose" := PStr purp]> ∅))))))))).

(** What formatting [amount] with [:.2f] raises for a value that is not
    a number. *)
Definition format_2f_error (v : pyval) : pyexn :=
  match v with
  | PStr _ => ValueError "Unknown format code 'f' for object of type 'str'"
  | PNone => TypeError "unsupported format string passed to NoneType.__format__"
  | PList _ => TypeError "unsupported format string passed to list.__format__"
  | _ => TypeError "unsupported format string passed to dict.__format__"
  end.

(** [result.get('error')] of a failed authorization or confirmation *)
Definition auth_error (r : AP2.AuthResult) : string :=
  match r with
  | AP2.AuthNotFound e => e
  | AP2.AuthHighRisk _ e _ => e
  | AP2.AuthSuccess _ _ _ _ _ _ => "None"
  end.

Definition confirm_error (r : AP2.ConfirmResult) : string :=
  match r with
  | AP2.ConfirmNotFound e => e
  | AP2.ConfirmNotAuthorized _ e => e
  | AP2.ConfirmReceipt _ _ => "None"
  end.

(** [_handle_payment_flow].  The amount is a float and the purpose a
    string, as the engine declares them; the outer [None] stands for "not
    modelled" (an integer or boolean amount, which the engine would keep
    as such, or a purpose that is not a string).  A value that [:.2f]
    cannot format raises before the engine is touched. *)
Definition _handle_payment_flow (engine : AP2.AP2PaymentMock) (agent_id : string)
    (parameters : gmap string pyval) (d : NavDraws)
  : option (AP2.AP2PaymentMock * outcome (gmap string pyval)) :=
  let amount := get parameters "amount" (PFloat 0) in
  let purpose := get parameters "purpose" (PStr "Payment") in
  match amount, purpose with
  | PBool _, _ => None
  | PInt _, _ => None
  | (PStr _ | PNone | PList _ | PDict _), _ => Some (engine, Raised (format_2f_error amount))
  | PFloat amt, PStr purp =>
      let created :=
        AP2.create_payment_intent engine amt purp "USD" (Some parameters)
          (nd_intent_uuid d) (nd_intent_now d) in
      let payment_id := AP2.ir_payment_id (snd created) in
      let authorized :=
        AP2.authorize_payment (fst created) payment_id agent_id "agent_signature"
          (nd_auth_uuid d) (nd_auth_now d) in
      if AP2.auth_success (snd authorized) then
        let confirmed :=
          AP2.confirm_payment (fst authorized) payment_id
            (nd_rcp_uuid d) (nd_txn_uuid d)
            (Py.str_upper (Py.str_take 8 (nd_code_uuid d))) (nd_confirm_now d) in
        match snd confirmed with
        | AP2.ConfirmReceipt r purp' => Some (fst confirmed, Returned (receipt_dict r purp'))
        | failure =>
            Some (fst confirmed,
                  Raised (PyException ("Payment confirmation failed: "
                                       +:+ confirm_error failure)))
        end
      else
        Some (fst authorized,
              Raised (PyException ("Payment authorization failed: "
                                   +:+ auth_error (snd authorized))))
  | PFloat _, _ => None
  end.

(** The engine after a payment flow of amount [q], and the receipt. *)
Definition paid_receipt (q : Q) (d : NavDraws) : AP2.PaymentReceipt :=
  AP2.mkReceipt ("RCP-" +:+ nd_rcp_uuid d) ("PAY-" +:+ nd_intent_uuid d)
    ("TXN-" +:+ nd_txn_uuid d) q "USD" "completed" (nd_confirm_now d)
    (Py.str_upper (Py.str_take 8 (nd_code_uuid d))).

Definition paid_engine (engine : AP2.AP2PaymentMock) (agent_id : string) (q : Q)
    (purp : string) (parameters : gmap string pyval) (d : NavDraws) : AP2.AP2PaymentMock :=
  let pid := "PAY-" +:+ nd_intent_uuid d in
  let intent := AP2.mkIntent pid q "USD" purp AP2.INTENT_CREATED (nd_intent_now d) parameters in
  AP2.mkAP2
    (<[pid := AP2.set_status AP2.COMPLETED (AP2.set_status AP2.PROCESSING
                (AP2.set_status AP2.AUTHORIZED intent))]>
       (<[pid := AP2.set_status AP2.AUTHORIZED intent]>
          (<[pid := intent]> (AP2.payment_intents engine))))
    (<["AUTH-" +:+ nd_auth_uuid d :=
         AP2.mkAuthorization ("AUTH-" +:+ nd_auth_uuid d) pid agent_id (nd_auth_now d)
           "agent_signature" (AP2._calculate_risk_score intent)]>
       (AP2.authorizations engine))
    (<["RCP-" +:+ nd_rcp_uuid d := paid_receipt q d]> (AP2.receipts engine)).

(** [_call_mcp_create_task] *)
Definition _call_mcp_create_task (server : MCPServer) (parameters : gmap string pyval)
    (d : NavDraws) : MCPServer * gmap string pyval :=
  create_task server
    (get parameters "task_name" (PStr "Unnamed task"))
    (get parameters "metadata" (PDict ∅))
    (nd_task_uuid d) (nd_task_now d).

(** The actions [_execute_action] hands to [execute_action] of the tool
    server. *)
Definition generic_actions : list string :=
  ["find_workspace"; "confirm_booking"; "send_notification";
   "gather_information"; "analyze_data"].

(** The actions [AgentNav._execute_action] routes. *)
Definition routed_actions : list string :=
  "create_task" :: "request_payment" :: generic_actions.

(** The routing of [_execute_action], after the parameters are resolved:
    the new tool server and payment engine, and what the handler returned
    or raised.  An action that is no string is not modelled. *)
Definition route (nav : AgentNav) (action : pyval) (resolved : gmap string pyval)
    (d : NavDraws)
  : option (MCPServer * AP2.AP2PaymentMock * outcome (gmap string pyval)) :=
  match action with
  | PStr a =>
      if String.eqb a "create_task" then
        let r := _call_mcp_create_task (mcp_server nav) resolved d in
        Some (fst r, ap2 nav, Returned (snd r))
      else if String.eqb a "request_payment" then
        match _handle_payment_flow (ap2 nav) (nav_agent_id nav) resolved d with
        | Some (engine, o) => Some (mcp_server nav, engine, o)
        | None => None
        end
      else if bool_decide (a ∈ generic_actions) then
        match execute_action a resolved (nd_action d) with
        | Some result => Some (mcp_server nav, ap2 nav, Returned result)
        | None => None
        end
      else
        Some (mcp_server nav, ap2 nav, Raised (ValueError ("Unknown action: " +:+ a)))
  | _ => None
  end.

(** [_execute_action]: [step['action']], [step['parameters']], the
    resolution of the parameters, then the routing.  The parameters are a
    dictionary; a resolution that raises is not modelled further. *)
Definition _execute_action (nav : AgentNav) (step : gmap string pyval) (d : NavDraws)
  : option (MCPServer * AP2.AP2PaymentMock * outcome (gmap string pyval)) :=
  match step !! "action" with
  | None => Some (mcp_server nav, ap2 nav, Raised (KeyError "action"))
  | Some action =>
      match step !! "parameters" with
      | None => Some (mcp_server nav, ap2 nav, Raised (KeyError "parameters"))
      | Some (PDict parameters) =>
          match Nav._resolve_parameters (execution_context nav) parameters with
          | Some resolved => route nav action resolved d
          | None => None
          end
      | Some _ => None
      end
  end.

(** The answer to a delegation that was carried out, and to one that
    raised. *)
Definition delegation_success (execution_id : string) (step_number action : pyval)
    (result : gmap string pyval) : gmap string pyval :=
  <["success" := PBool true]>
  (<["execution_id" := PStr execution_id]>
  (<["step_number" := step_number]>
  (<["action" := action]>
  (<["result" := PDict result]> ∅)))).

Definition delegation_failure (execution_id : string) (step_number action : pyval)
    (error : string) : gmap string pyval :=
  <["success" := PBool false]>
  (<["execution_id" := PStr execution_id]>
  (<["step_number" := step_number]>
  (<["action" := action]>
  (<["error" := PStr error]> ∅)))).

(** [step['step_number']] on a step that is no dictionary; the texts are
    those of CPython 3.11 and later, and nothing in the code reads them.
    (On a dictionary the subscript fails for a missing key only, which
    [_handle_task_delegation] below treats itself.) *)
Definition subscript_error (step : pyval) : pyexn :=
  match step with
  | PStr _ => TypeError "string indices must be integers, not 'str'"
  | PList _ => TypeError "list indices must be integers or slices, not str"
  | PBool _ => TypeError "'bool' object is not subscriptable"
  | PInt _ => TypeError "'int' object is not subscriptable"
  | PFloat _ => TypeError "'float' object is not subscriptable"
  | PNone => TypeError "'NoneType' object is not subscriptable"
  | PDict _ => KeyError "step_number"
  end.

(** [_handle_task_delegation], on a navigator whose history already holds
    the message.  A missing step is answered with an error dictionary; a
    step without number or action, and a step that is no dictionary,
    raise out of the method (the log line before the [try] reads them);
    everything after that is caught and recorded.  The outer [None]
    stands for "not modelled": a step number whose text is not modelled,
    or an action that is not carried out in the model. *)
Definition _handle_task_delegation (nav : AgentNav) (message : AgentMessage) (d : NavDraws)
  : option (AgentNav * outcome (gmap string pyval)) :=
  let step := get (am_payload message) "step" PNone in
  let plan_id := get (am_payload message) "plan_id" (PStr "UNKNOWN") in
  if negb (truthy step) then
    Some (nav, Returned (<["error" := PStr "No step information in message"]> ∅))
  else
    match step with
    | PDict step =>
        match step !! "step_number", step !! "action" with
        | None, _ => Some (nav, Raised (KeyError "step_number"))
        | Some _, None => Some (nav, Raised (KeyError "action"))
        | Some step_number, Some action =>
            let execution_id := "EXEC-" +:+ Py.str_take 8 (nd_exec_uuid d) in
            let running :=
              {| execution_id := execution_id; ex_plan_id := plan_id;
                 ex_step_number := step_number; ex_action := action;
                 ex_status := "running"; ex_started_at := nd_started d;
                 ex_completed_at := None; ex_result := None; ex_error := None |} in
            match _execute_action nav step d, format step_number with
            | Some (server, engine, Returned result), Some number =>
                Some
                  ({| nav_agent_id := nav_agent_id nav;
                      executions :=
                        <[execution_id :=
                            {| execution_id := execution_id; ex_plan_id := plan_id;
                               ex_step_number := step_number; ex_action := action;
                               ex_status := "completed"; ex_started_at := nd_started d;
                               ex_completed_at := Some (nd_completed d);
                               ex_result := Some result; ex_error := None |}]>
                          (<[execution_id := running]> (executions nav));
                      message_history := message_history nav;
                      mcp_server := server; ap2 := engine;
                      execution_context :=
                        <["step" +:+ number := PDict result]> (execution_context nav) |},
                   Returned (delegation_success execution_id step_number action result))
            | Some (server, engine, Raised e), Some _ =>
                Some
                  ({| nav_agent_id := nav_agent_id nav;
                      executions :=
                        <[execution_id :=
                            {| execution_id := execution_id; ex_plan_id := plan_id;
                               ex_step_number := step_number; ex_action := action;
                               ex_status := "failed"; ex_started_at := nd_started d;
                               ex_completed_at := Some (nd_completed d);
                               ex_result := None; ex_error := Some (exn_text e) |}]>
                          (<[execution_id := running]> (executions nav));
                      message_history := message_history nav;
                      mcp_server := server; ap2 := engine;
                      execution_context := execution_context nav |},
                   Returned (delegation_failure execution_id step_number action (exn_text e)))
            | _, _ => None
            end
        end
    | _ => Some (nav, Raised (subscript_error step))
    end.

(** [receive_a2a_message]: the message is logged first; only task
    delegations are handled. *)
Definition receive_a2a_message (nav : AgentNav) (message : AgentMessage) (d : NavDraws)
  : option (AgentNav * outcome (gmap string pyval)) :=
  let logged :=
    {| nav_agent_id := nav_agent_id nav; executions := executions nav;
       message_history := message_history nav ++ [message];
       mcp_server := mcp_server nav; ap2 := ap2 nav;
       execution_context := execution_context nav |} in
  if String.eqb (am_message_type message) "task_delegation"
  then _handle_task_delegation logged message d
  else Some (logged,
             Returned (<["error" :=
                          PStr ("Unknown message type: " +:+ am_message_type message)]> ∅)).

(** The executor after a sequence of deliveries, each with the values it
    draws; what the deliveries answered or raised is left aside.  [None]
    when a delivery is not modelled. *)
Fixpoint deliveries (nav : AgentNav) (messages : list (AgentMessage * NavDraws))
  : option AgentNav :=
  match messages with
  | [] => Some nav
  | (message, d) :: rest =>
      match receive_a2a_message nav message d with
      | Some (nav', _) => deliveries nav' rest
      | None => None
      end
  end.

(** The message a planner sends for one step: type ["task_delegation"]
    and a payload holding the step as a dictionary. *)
Definition carries_step (message : AgentMessage) (step : gmap string pyval)
    (number : Z) (action : string) (parameters : gmap string pyval) : Prop :=
  am_message_type message = "task_delegation"
  /\ am_payload message !! "step" = Some (PDict step)
  /\ step !! "step_number" = Some (PInt number)
  /\ step !! "action" = Some (PStr action)
  /\ step !! "parameters" = Some (PDict parameters).

(** The navigator after a delegation was carried out with [result], and
    after one that raised [e]. *)
Definition after_success (nav : AgentNav) (message : AgentMessage) (number : Z)
    (action : string) (server : MCPServer) (engine : AP2.AP2PaymentMock)
    (result : gmap string pyval) (d : NavDraws) : AgentNav :=
  {| nav_agent_id := nav_agent_id nav;
     executions :=
       <["EXEC-" +:+ Py.str_take 8 (nd_exec_uuid d) :=
           {| execution_id := "EXEC-" +:+ Py.str_take 8 (nd_exec_uuid d);
              ex_plan_id := get (am_payload message) "plan_id" (PStr "UNKNOWN");
              ex_step_number := PInt number; ex_action := PStr action;
              ex_status := "completed"; ex_started_at := nd_started d;
              ex_completed_at := Some (nd_completed d);
              ex_result := Some result; ex_error := None |}]> (executions nav);
     message_history := message_history nav ++ [message];
     mcp_server := server; ap2 := engine;
     execution_context := <["step" +:+ pretty number := PDict result]> (execution_context nav) |}.

Definition after_failure (nav : AgentNav) (message : AgentMessage) (number : Z)
    (action : string) (server : MCPServer) (engine : AP2.AP2PaymentMock)
    (e : pyexn) (d : NavDraws) : AgentNav :=
  {| nav_agent_id := nav_agent_id nav;
     executions :=
       <["EXEC-" +:+ Py.str_take 8 (nd_exec_uuid d) :=
           {| execution_id := "EXEC-" +:+ Py.str_take 8 (nd_exec_uuid d);
              ex_plan_id := get (am_payload message) "plan_id" (PStr "UNKNOWN");
              ex_step_number := PInt number; ex_action := PStr action;
              ex_status := "failed"; ex_started_at := nd_started d;
              ex_completed_at := Some (nd_completed d);
              ex_result := None; ex_error := Some (exn_text e) |}]> (executions nav);
     message_history := message_history nav ++ [message];
     mcp_server := server; ap2 := engine;
     execution_context := execution_context nav |}.

(** [send_status_update] *)
Definition send_status_update (nav : AgentNav) (to_agent status : string)
    (data : gmap string pyval) (uuid now : string) : AgentNav * AgentMessage :=
  let message :=
    {| am_message_id := "MSG-" +:+ Py.str_take 8 uuid;
       am_from_agent := nav_agent_id nav; am_to_agent := to_agent;
       am_message_type := "status_update";
       am_payload := <["status" := PStr status]> (<["data" := PDict data]> ∅);
       am_timestamp := now |} in
  ({| nav_agent_id := nav_agent_id nav; executions := executions nav;
      message_history := message_history nav ++ [message];
      mcp_server := mcp_server nav; ap2 := ap2 nav;
      execution_context := execution_context nav |},
   message).

End Executor.

(** ** The planner ([agents/kai.py]) *)

Module Planner.
Import PyRun Executor.

Record PlanStep : Type := mkStep {
  step_number : Z;
  action : string;
  description : string;
  parameters : gmap string pyval;
  dependencies : list Z;
  assigned_to : string
}.

Record ExecutionPlan : Type := mkPlan {
  plan_id : string;
  goal : string;
  steps : list PlanStep;
  plan_created_at : string;
  plan_status : string
}.

Record AgentKai : Type := mkKai {
  kai_agent_id : string;
  plans : gmap string ExecutionPlan;
  kai_history : list AgentMessage
}.

Definition kai_init (agent_id : string) : AgentKai :=
  {| kai_agent_id := agent_id; plans := ∅; kai_history := [] |}.

(** [asdict(step)] *)
Definition asdict (s : PlanStep) : gmap string pyval :=
  <["step_number" := PInt (step_number s)]>
  (<["action" := PStr (action s)]>
  (<["description" := PStr (description s)]>
  (<["parameters" := PDict (parameters s)]>
  (<["dependencies" := PList (PInt <$> dependencies s)]>
  (<["assigned_to" := PStr (assigned_to s)]> ∅))))).

Section Planning.
Context `{PyText}.

(** [_plan_workspace_booking].  The amount [25.0 * duration] raises when
    the duration is no number or an integer out of the range of floats;
    the outer [None] stands for an amount that is not modelled. *)
Definition _plan_workspace_booking (context : gmap string pyval)
  : option (outcome (list PlanStep)) :=
  let duration := get context "duration_hours" (PInt 2) in
  let workspace_type := get context "type" (PStr "premium") in
  match times_25 duration with
  | None => None
  | Some (Raised e) => Some (Raised e)
  | Some (Returned amount) =>
      Some (Returned
        [ {| step_number := 1; action := "create_task";
             description := "Create booking task in system";
             parameters :=
               <["task_name" := PStr "Book premium workspace"]>
               (<["metadata" :=
                    PDict (<["duration" := duration]> (<["type" := workspace_type]> ∅))]>
                  ∅);
             dependencies := []; assigned_to := "agent_nav" |};
          {| step_number := 2; action := "find_workspace";
             description := "Search for available workspace";
             parameters :=
               <["duration_hours" := duration]> (<["type" := workspace_type]> ∅);
             dependencies := [1%Z]; assigned_to := "agent_nav" |};
          {| step_number := 3; action := "request_payment";
             description := "Process payment for booking";
             parameters :=
               <["amount" := amount]>
               (<["purpose" :=
                    PStr (py_str workspace_type +:+ " workspace for "
                          +:+ py_str duration +:+ "h")]> ∅);
             dependencies := [2%Z]; assigned_to := "agent_nav" |};
          {| step_number := 4; action := "confirm_booking";
             description := "Finalize workspace booking";
             parameters :=
               <["workspace_id" := PStr "${step2.workspace_id}"]>
               (<["payment_id" := PStr "${step3.payment_id}"]> ∅);
             dependencies := [3%Z]; assigned_to := "agent_nav" |};
          {| step_number := 5; action := "send_notification";
             description := "Send confirmation to user";
             parameters :=
               <["recipient" := PStr "user@example.com"]>
               (<["message" := PStr "Workspace booking confirmed!"]> ∅);
             dependencies := [4%Z]; assigned_to := "agent_nav" |} ])
  end.

(** [_plan_research_task] *)
Definition _plan_research_task (context : gmap string pyval)
  : option (outcome (list PlanStep)) :=
  let topic := get context "topic" (PStr "general") in
  Some (Returned
    [ {| step_number := 1; action := "create_task";
         description := "Create research task";
         parameters :=
           <["task_name" := PStr ("Research: " +:+ py_str topic)]>
           (<["metadata" := PDict context]> ∅);
         dependencies := []; assigned_to := "agent_nav" |};
      {| step_number := 2; action := "gather_information";
         description := "Collect relevant information";
         parameters :=
           <["topic" := topic]>
           (<["sources" := PList [PStr "web"; PStr "database"]]> ∅);
         dependencies := [1%Z]; assigned_to := "agent_nav" |};
      {| step_number := 3; action := "analyze_data";
         description := "Analyze gathered information";
         parameters := <["analysis_type" := PStr "summary"]> ∅;
         dependencies := [2%Z]; assigned_to := "agent_nav" |} ]).

(** [_plan_generic_task] *)
Definition _plan_generic_task (goal : string) (context : gmap string pyval)
  : option (outcome (list PlanStep)) :=
  Some (Returned
    [ {| step_number := 1; action := "create_task";
         description := "Execute: " +:+ goal;
         parameters :=
           <["task_name" := PStr goal]> (<["metadata" := PDict context]> ∅);
         dependencies := []; assigned_to := "agent_nav" |} ]).

(** The choice of planner in [_create_plan], on the lower-cased goal. *)
Definition plan_steps (goal : string) (context : gmap string pyval)
  : option (outcome (list PlanStep)) :=
  if Py.str_contains "book" (str_lower goal) && Py.str_contains "workspace" (str_lower goal)
  then _plan_workspace_booking context
  else if Py.str_contains "research" (str_lower goal)
  then _plan_research_task context
  else _plan_generic_task goal context.

(** [_create_plan] *)
Definition _create_plan (goal : string) (context : gmap string pyval) (uuid now : string)
  : option (outcome ExecutionPlan) :=
  match plan_steps goal context with
  | Some (Returned steps) =>
      Some (Returned {| plan_id := "PLAN-" +:+ Py.str_take 8 uuid; goal := goal;
                        steps := steps; plan_created_at := now;
                        plan_status := "ready" |})
  | Some (Raised e) => Some (Raised e)
  | None => None
  end.

(** [receive_goal]: [context or {}], then the plan is made and stored. *)
Definition receive_goal (kai : AgentKai) (goal : string)
    (context : option (gmap string pyval)) (uuid now : string)
  : option (AgentKai * outcome ExecutionPlan) :=
  match _create_plan goal (default ∅ context) uuid now with
  | Some (Returned plan) =>
      Some ({| kai_agent_id := kai_agent_id kai;
               plans := <[plan_id plan := plan]> (plans kai);
               kai_history := kai_history kai |},
            Returned plan)
  | Some (Raised e) => Some (kai, Raised e)
  | None => None
  end.

End Planning.

(** [_create_a2a_message] for one step of [delegate_to_nav] *)
Definition delegation_message (kai : AgentKai) (plan : ExecutionPlan) (step : PlanStep)
    (draw : string * string) : AgentMessage :=
  {| am_message_id := "MSG-" +:+ Py.str_take 8 (fst draw);
     am_from_agent := kai_agent_id kai;
     am_to_agent := "agent_nav";
     am_message_type := "task_delegation";
     am_payload :=
       <["plan_id" := PStr (plan_id plan)]>
       (<["step" := PDict (asdict step)]>
       (<["goal" := PStr (goal plan)]> ∅));
     am_timestamp := snd draw |}.

(** [delegate_to_nav]: one message per step, in the order of the plan;
    [draws k] are the UUID and the clock value of the [k]-th message. *)
Definition delegate_to_nav (kai : AgentKai) (plan : ExecutionPlan)
    (draws : nat -> string * string) : AgentKai * list AgentMessage :=
  let messages := imap (fun k step => delegation_message kai plan step (draws k)) (steps plan) in
  ({| kai_agent_id := kai_agent_id kai; plans := plans kai;
      kai_history := kai_history kai ++ messages |},
   messages).

(** A step as every planner of [AgentKai] writes it. *)
Definition well_formed_step (s : PlanStep) : Prop :=
  action s ∈ routed_actions
  /\ assigned_to s = "agent_nav"
  /\ dependencies s = (if decide (step_number s = 1%Z) then [] else [(step_number s - 1)%Z]).

End Planner.

(** ** The demonstration's execution loop ([demo_flow.py]) *)

Module Demo.
Import PyRun MCP Executor.

(** The loop of [demo_workspace_booking] over the delegated messages:
    each message is handed to the executor and its answer collected; the
    loop stops after the first answer whose [success] is not true.
    [draws k] are the values the [k]-th delivery draws.  [None] stands
    for a delivery that raises or is not modelled. *)
Fixpoint execute_all (nav : AgentNav) (messages : list AgentMessage)
    (draws : nat -> NavDraws) : option (AgentNav * list (gmap string pyval)) :=
  match messages with
  | [] => Some (nav, [])
  | message :: rest =>
      match receive_a2a_message nav message (draws 0%nat) with
      | Some (nav', Returned result) =>
          if truthy (get result "success" PNone) then
            match execute_all nav' rest (fun k => draws (S k)) with
            | Some (nav'', results) => Some (nav'', result :: results)
            | None => None
            end
          else Some (nav', [result])
      | _ => None
      end
  end.

(** The goal and the context of [demo_workspace_booking]. *)
Definition user_goal : string := "Book a premium workspace for 2 hours".

Definition demo_context : gmap string pyval :=
  <["duration_hours" := PInt 2]>
  (<["type" := PStr "premium"]>
  (<["user_email" := PStr "user@example.com"]> ∅)).

(** What [execute_action] answers to ["find_workspace"] for [z] hours of a
    workspace of type [t], where the product [25.0 * z] is exact. *)
Definition workspace_answer (z : Z) (t : string) (d : ActionDraws) : gmap string pyval :=
  <["action_name" := PStr "find_workspace"]>
  (<["success" := PBool true]>
  (<["data" :=
       PDict (<["workspace_id" := PStr ("WS-" +:+ Py.str_take 8 (ad_uuid d))]>
             (<["type" := PStr t]>
             (<["duration_hours" := PInt z]>
             (<["price_per_hour" := PFloat 25]>
             (<["total_price" := PFloat (inject_Z (25 * z))]>
             (<["location" := PStr "Downtown Tech Hub"]>
             (<["amenities" :=
                  PList [PStr "High-speed WiFi"; PStr "Standing desk";
                         PStr "Coffee bar"]]> ∅)))))))]>
  (<["timestamp" := PStr (ad_now d)]>
  (<["error" := PNone]> ∅)))).

(** Values for the draws of a run: the [k]-th delivery draws UUIDs and
    clock readings that end in [k]. *)
Definition sample_draws (k : nat) : NavDraws :=
  mkNavDraws ("exec-" +:+ pretty k) "t1" ("task-" +:+ pretty k) "t2"
    (mkActionDraws ("1f0e5c2a-" +:+ pretty k) ("9b7d44e1-" +:+ pretty k) "t3" "t4")
    ("intent-" +:+ pretty k) "t5" ("auth-" +:+ pretty k) "t6"
    ("rcp-" +:+ pretty k) ("txn-" +:+ pretty k) ("c0de1234-" +:+ pretty k) "t7" "t8".

(** Texts for the values whose rendering is a parameter. *)
Definition sample_text : PyText :=
  {| float_text := fun _ => "1.5"; list_text := fun _ => "[]"; dict_text := fun _ => "{}" |}.

Definition sample_message_draws (k : nat) : string * string :=
  ("0a1b2c3d-" +:+ pretty k, "t9").

(** A delegation of one step, as the planner writes it, outside any plan
    of its own. *)
Definition single_step_message (action : string) (parameters : gmap string pyval)
  : AgentMessage :=
  Planner.delegation_message (Planner.kai_init "agent_kai")
    (Planner.mkPlan "PLAN-TEST" "Test goal" [] "t0" "ready")
    (Planner.mkStep 1 action "Test step" parameters [] "agent_nav")
    ("5e6f7a8b-0001", "t0").

End Demo.

(** * Properties of the staged authorization engine *)

Module AP2Facts.
Import AP2.
Local Open Scope Q_scope.

Lemma py_min_spec (a b : Q) : py_min a b == Qmin a b.
Proof.
  unfold py_min. destruct (b ?= a) eqn:E.
  - apply Qeq_alt in E. rewrite Q.min_l; [reflexivity | rewrite E; apply Qle_refl].
  - apply Qlt_alt in E. rewrite Q.min_r; [reflexivity | now apply Qlt_le_weak].
  - apply Qgt_alt in E. rewrite Q.min_l; [reflexivity | now apply Qlt_le_weak].
Qed.

Lemma Qgtb_true (a b : Q) : Qgtb a b = true <-> b < a.
Proof.
  unfold Qgtb. destruct (a ?= b) eqn:E; split; intros H; try discriminate; try reflexivity.
  - apply Qeq_alt in E. rewrite E in H. exfalso. revert H. apply Qlt_irrefl.
  - apply Qlt_alt in E. exfalso. apply (Qlt_irrefl a). now apply Qlt_trans with b.
  - now apply Qgt_alt in E.
Qed.

Lemma Qgtb_false (a b : Q) : Qgtb a b = false <-> a <= b.
Proof.
  split; intros H.
  - apply Qnot_lt_le. intros L. apply Qgtb_true in L. congruence.
  - destruct (Qgtb a b) eqn:E; [| reflexivity].
    apply Qgtb_true in E. exfalso. apply (Qlt_irrefl a). now apply Qle_lt_trans with b.
Qed.

Lemma risk_formula (i : PaymentIntent) :
  _calculate_risk_score i == (1 # 10) + Qmin (amount i / 1000) (3 # 10).
Proof. unfold _calculate_risk_score. cbv zeta. now rewrite py_min_spec. Qed.

Lemma risk_upper (i : PaymentIntent) : _calculate_risk_score i <= 4 # 10.
Proof.
  rewrite risk_formula.
  pose proof (Q.le_min_r (amount i / 1000) (3 # 10)) as Hm.
  revert Hm. generalize (Qmin (amount i / 1000) (3 # 10)). intros m Hm. lra.
Qed.

Lemma risk_lower (i : PaymentIntent) : 0 <= amount i -> 1 # 10 <= _calculate_risk_score i.
Proof.
  intros H. rewrite risk_formula.
  assert (0 <= Qmin (amount i / 1000) (3 # 10)) as Hm.
  { apply Q.min_glb; [| lra]. unfold Qdiv. apply Qmult_le_0_compat; [assumption | discriminate]. }
  revert Hm. generalize (Qmin (amount i / 1000) (3 # 10)). intros m Hm. lra.
Qed.

Lemma risk_monotone (i j : PaymentIntent) :
  amount i <= amount j -> _calculate_risk_score i <= _calculate_risk_score j.
Proof.
  intros H. rewrite !risk_formula.
  assert (amount i / 1000 <= amount j / 1000) as Hd.
  { unfold Qdiv. apply Qmult_le_compat_r; [assumption | discriminate]. }
  pose proof (Q.min_le_compat_r _ _ (3 # 10) Hd) as Hm.
  revert Hm. generalize (Qmin (amount i / 1000) (3 # 10)) (Qmin (amount j / 1000) (3 # 10)).
  intros m n Hm. lra.
Qed.

Lemma risk_never_vetoes (i : PaymentIntent) : Qgtb (_calculate_risk_score i) (8 # 10) = false.
Proof. apply Qgtb_false. pose proof (risk_upper i). lra. Qed.

(** *** Ids in the store *)

Lemma pay_keys_init : pay_keys init.
Proof. intros pid i H. cbn in H. by rewrite lookup_empty in H. Qed.

Lemma pay_keys_insert_same st st' pid i j :
  pay_keys st -> payment_intents st !! pid = Some i ->
  payment_intents st' = <[pid := j]> (payment_intents st) ->
  pay_keys st'.
Proof.
  intros Hk Hi Heq p k Hp. rewrite Heq in Hp.
  destruct (decide (pid = p)) as [<- | Hne].
  - by eapply Hk.
  - rewrite lookup_insert_ne in Hp by done. by eapply Hk.
Qed.

Lemma pay_keys_exec st c : pay_keys st -> pay_keys (exec st c).
Proof.
  intros Hk. destruct c as [amt purp cur meta uuid now | pid who method uuid now
                           | pid u_rcp u_txn code now]; cbn.
  - intros p k Hp. cbn in Hp. destruct (decide ("PAY-" +:+ uuid = p)) as [<- | Hne].
    + by eexists.
    + rewrite lookup_insert_ne in Hp by done. by eapply Hk.
  - unfold authorize_payment, authorize_payment_with.
    destruct (payment_intents st !! pid) as [i |] eqn:Hi; [| done].
    cbv zeta. destruct (Qgtb _ _); cbn; by eapply pay_keys_insert_same.
  - unfold confirm_payment.
    destruct (payment_intents st !! pid) as [i |] eqn:Hi; [| done].
    case_decide; [| done]. cbn. by eapply pay_keys_insert_same.
Qed.

Lemma pay_keys_run cs : pay_keys (run cs).
Proof.
  unfold run. induction cs as [| c cs IH] using rev_ind.
  - apply pay_keys_init.
  - rewrite foldl_snoc. by apply pay_keys_exec.
Qed.

(** *** The claims on [create_payment_intent] and the risk score *)

(** C4 (as stated, refuted): [create_payment_intent] has no check on the
    amount; called with the negative amount -5 it stores a record and
    answers with status [intent_created]. *)
Lemma C4_negative_amount_is_accepted :
  payment_intents (fst (create_payment_intent init (-5) "refund" "USD" None "u1" "t0"))
    <> payment_intents init
  /\ ir_status (snd (create_payment_intent init (-5) "refund" "USD" None "u1" "t0"))
     = "intent_created".
Proof.
  split; [| reflexivity].
  intros H. apply (f_equal (fun m => is_Some (m !! "PAY-u1"))) in H.
  cbn in H. rewrite lookup_insert_eq, lookup_empty in H.
  assert (is_Some (@None PaymentIntent)) as [x Hx]; [rewrite <- H; by eexists | done].
Qed.

(** C4 (amended): for every amount, negative or not, [create_payment_intent]
    answers with a record of status [intent_created] under the id
    ["PAY-" + uuid], stores that record under this id, and leaves every
    other id of the store as it was. *)
Theorem C4_create_intent_accepts_every_amount
    (st : AP2PaymentMock) (amt : Q) (purp cur : string)
    (meta : option (gmap string pyval)) (uuid now : string) :
  ir_status (snd (create_payment_intent st amt purp cur meta uuid now)) = "intent_created"
  /\ ir_payment_id (snd (create_payment_intent st amt purp cur meta uuid now)) = "PAY-" +:+ uuid
  /\ ir_amount (snd (create_payment_intent st amt purp cur meta uuid now)) = amt
  /\ payment_intents (fst (create_payment_intent st amt purp cur meta uuid now))
       !! ("PAY-" +:+ uuid)
     = Some (mkIntent ("PAY-" +:+ uuid) amt cur purp INTENT_CREATED now (default ∅ meta))
  /\ (forall pid, pid <> "PAY-" +:+ uuid ->
        payment_intents (fst (create_payment_intent st amt purp cur meta uuid now)) !! pid
        = payment_intents st !! pid).
Proof.
  cbn. repeat split.
  - apply lookup_insert_eq.
  - intros pid Hne. by rewrite lookup_insert_ne.
Qed.

(** C6 (as stated, refuted): the score is not bounded below by 0.  An
    intent of amount -2000, which [create_payment_intent] stores, is
    authorized with the score 0.1 + (-2) = -1.9. *)
Lemma C6_negative_amount_scores_below_zero :
  exists r : Q,
    snd (authorize_payment
           (run [CreateIntent (-2000) "refund" "USD" None "u1" "t0"])
           "PAY-u1" "agent_nav" "agent_signature" "u2" "t1")
    = AuthSuccess "PAY-u1" "AUTH-u2" "t1" r "authorized" "confirm_payment"
    /\ r < 0.
Proof. eexists. split; [vm_compute; reflexivity | reflexivity]. Qed.

(** The scorer on floats, case by case. *)
Lemma float_score_finite (q : Q) :
  AP2Float._calculate_risk_score (AP2Float.Finite q)
  = AP2Float.Finite ((1 # 10) + py_min (q / 1000) (3 # 10)).
Proof.
  unfold AP2Float._calculate_risk_score, AP2Float.float_min, py_min. cbv zeta.
  cbn [AP2Float.float_div_1000 AP2Float.float_lt].
  by destruct (Qcompare (3 # 10) (q / 1000)).
Qed.

Lemma float_le_finite (x y : Q) :
  AP2Float.float_le (AP2Float.Finite x) (AP2Float.Finite y) = true <-> x <= y.
Proof.
  cbn [AP2Float.float_le]. rewrite Qle_alt.
  destruct (Qcompare x y); split; intros Hc; try done.
Qed.

Lemma score_of_amount_upper (q : Q) : (1 # 10) + py_min (q / 1000) (3 # 10) <= 4 # 10.
Proof. apply (risk_upper (mkIntent "" q "" "" INTENT_CREATED "" ∅)). Qed.

Lemma score_of_amount_monotone (x y : Q) :
  x <= y -> (1 # 10) + py_min (x / 1000) (3 # 10) <= (1 # 10) + py_min (y / 1000) (3 # 10).
Proof.
  intros Hxy.
  apply (risk_monotone (mkIntent "" x "" "" INTENT_CREATED "" ∅)
                       (mkIntent "" y "" "" INTENT_CREATED "" ∅) Hxy).
Qed.

Lemma score_of_amount_lower (q : Q) : 0 <= q -> 1 # 10 <= (1 # 10) + py_min (q / 1000) (3 # 10).
Proof. apply (risk_lower (mkIntent "" q "" "" INTENT_CREATED "" ∅)). Qed.

(** C6 (amended): the score computed by [authorize_payment] depends on the
    intent's amount only and is non-decreasing in the amount.  For every
    amount other than NaN (the infinities included) it is at most 1, and
    for every amount >= 0 it is at least 0; for a NaN amount the score is
    NaN, which is neither at most 1 nor above the threshold.  On the
    engine's records, which hold finite amounts, the score is the
    rational [0.1 + min(amount / 1000, 0.3)].  Whenever the score of the
    stored intent exceeds 0.8, [authorize_payment] (for any scoring
    method bound to [self._calculate_risk_score]) sets the record to
    [FAILED] and returns the high-risk rejection, registering no
    authorization. *)
Theorem C6_risk_score_and_veto :
  (forall i j, amount i = amount j -> _calculate_risk_score i = _calculate_risk_score j)
  /\ (forall i j, amount i <= amount j -> _calculate_risk_score i <= _calculate_risk_score j)
  /\ (forall i, _calculate_risk_score i <= 1)
  /\ (forall i, 0 <= amount i -> 0 <= _calculate_risk_score i)
  /\ (forall score st pid who method uuid now intent,
        payment_intents st !! pid = Some intent ->
        8 # 10 < score intent ->
        authorize_payment_with score st pid who method uuid now
        = (update_intent pid (set_status FAILED intent) st,
           AuthHighRisk pid "Payment blocked due to high risk score" (score intent)))
  /\ (forall i,
        AP2Float._calculate_risk_score (AP2Float.Finite (amount i))
        = AP2Float.Finite (_calculate_risk_score i))
  /\ (forall a b,
        AP2Float.float_le a b = true ->
        AP2Float.float_le (AP2Float._calculate_risk_score a)
                          (AP2Float._calculate_risk_score b) = true)
  /\ (forall a,
        a <> AP2Float.NaN ->
        AP2Float.float_le (AP2Float._calculate_risk_score a) (AP2Float.Finite 1) = true)
  /\ (forall a,
        AP2Float.float_le (AP2Float.Finite 0) a = true ->
        AP2Float.float_le (AP2Float.Finite 0) (AP2Float._calculate_risk_score a) = true)
  /\ AP2Float._calculate_risk_score AP2Float.NaN = AP2Float.NaN
  /\ AP2Float.float_le AP2Float.NaN (AP2Float.Finite 1) = false
  /\ AP2Float.float_gt AP2Float.NaN (AP2Float.Finite (8 # 10)) = false.
Proof.
  split; [| split; [| split; [| split; [| split; [| split; [| split; [| split]]]]]]].
  - intros i j H. unfold _calculate_risk_score. by rewrite H.
  - apply risk_monotone.
  - intros i. pose proof (risk_upper i). lra.
  - intros i H. pose proof (risk_lower i H). lra.
  - intros score st pid who method uuid now intent Hi Hs.
    unfold authorize_payment_with. rewrite Hi. cbv zeta.
    apply Qgtb_true in Hs. by rewrite Hs.
  - intros i. apply float_score_finite.
  - intros a b Hab.
    destruct a as [x | | |], b as [y | | |];
      try discriminate Hab; rewrite ?float_score_finite; try reflexivity.
    + apply float_le_finite. apply score_of_amount_monotone. by apply float_le_finite.
    + change (AP2Float._calculate_risk_score AP2Float.PosInf)
        with (AP2Float.Finite ((1 # 10) + (3 # 10))).
      apply float_le_finite. pose proof (score_of_amount_upper x). lra.
  - intros a Ha. destruct a as [x | | |]; [| done | done | done].
    rewrite float_score_finite. apply float_le_finite.
    pose proof (score_of_amount_upper x). lra.
  - split; [| done].
    intros a Ha. destruct a as [x | | |]; [| done | done | done].
    rewrite float_score_finite. apply float_le_finite.
    apply float_le_finite in Ha. pose proof (score_of_amount_lower x Ha). lra.
Qed.

(** The veto branch of C6 at work: with a scoring method that answers 0.9,
    authorizing a created intent fails it. *)
Lemma C6_veto_witness :
  authorize_payment_with (fun _ => 9 # 10)
    (run [CreateIntent 50 "booking" "USD" None "u1" "t0"])
    "PAY-u1" "agent_nav" "agent_signature" "u2" "t1"
  = (update_intent "PAY-u1"
       (set_status FAILED (mkIntent "PAY-u1" 50 "USD" "booking" INTENT_CREATED "t0" ∅))
       (run [CreateIntent 50 "booking" "USD" None "u1" "t0"]),
     AuthHighRisk "PAY-u1" "Payment blocked due to high risk score" (9 # 10)).
Proof.
  destruct C6_risk_score_and_veto as (_ & _ & _ & _ & H & _).
  apply (H (fun _ => 9 # 10)); reflexivity.
Defined.

(** C10: for an intent of amount >= 0 the score is
    0.1 + min(amount / 1000, 0.3), hence at most 0.4; the test
    [risk_score > 0.8] is false, and [authorize_payment] on the id of such
    an intent takes the success branch: the record becomes [AUTHORIZED],
    the authorization is registered and the success dictionary returned. *)
Theorem C10_veto_branch_unreachable
    (st : AP2PaymentMock) (pid who method uuid now : string) (intent : PaymentIntent) :
  payment_intents st !! pid = Some intent ->
  0 <= amount intent ->
  _calculate_risk_score intent == (1 # 10) + Qmin (amount intent / 1000) (3 # 10)
  /\ _calculate_risk_score intent <= 4 # 10
  /\ Qgtb (_calculate_risk_score intent) (8 # 10) = false
  /\ authorize_payment st pid who method uuid now
     = ({| payment_intents := <[pid := set_status AUTHORIZED intent]> (payment_intents st);
           authorizations :=
             <["AUTH-" +:+ uuid :=
                 mkAuthorization ("AUTH-" +:+ uuid) pid who now method
                   (_calculate_risk_score intent)]> (authorizations st);
           receipts := receipts st |},
        AuthSuccess pid ("AUTH-" +:+ uuid) now (_calculate_risk_score intent)
          "authorized" "confirm_payment")
  /\ auth_success (snd (authorize_payment st pid who method uuid now)) = true.
Proof.
  intros Hi Hamt.
  assert (authorize_payment st pid who method uuid now
     = ({| payment_intents := <[pid := set_status AUTHORIZED intent]> (payment_intents st);
           authorizations :=
             <["AUTH-" +:+ uuid :=
                 mkAuthorization ("AUTH-" +:+ uuid) pid who now method
                   (_calculate_risk_score intent)]> (authorizations st);
           receipts := receipts st |},
        AuthSuccess pid ("AUTH-" +:+ uuid) now (_calculate_risk_score intent)
          "authorized" "confirm_payment")) as Hauth.
  { unfold authorize_payment, authorize_payment_with. rewrite Hi. cbv zeta.
    by rewrite risk_never_vetoes. }
  repeat split.
  - apply risk_formula.
  - apply risk_upper.
  - apply risk_never_vetoes.
  - exact Hauth.
  - by rewrite Hauth.
Qed.

Lemma C10_veto_branch_unreachable_witness :
  auth_success
    (snd (authorize_payment (run [CreateIntent 5000 "booking" "USD" None "u1" "t0"])
            "PAY-u1" "agent_nav" "agent_signature" "u2" "t1")) = true.
Proof.
  apply (C10_veto_branch_unreachable
           (run [CreateIntent 5000 "booking" "USD" None "u1" "t0"])
           "PAY-u1" "agent_nav" "agent_signature" "u2" "t1"
           (mkIntent "PAY-u1" 5000 "USD" "booking" INTENT_CREATED "t0" ∅)).
  - reflexivity.
  - discriminate.
Defined.

(** *** The claims on [confirm_payment] and on the lifecycle *)

(** C5: on an engine reached by any sequence of calls, [confirm_payment]
    returns a receipt exactly when the id is stored with status
    [AUTHORIZED]; the receipt then has status ["completed"], carries the
    payment id, the intent's amount and currency and a transaction id
    different from the payment id, and the record ends [COMPLETED].  An
    absent id gives the not-found error, any other status the
    not-authorized error, and in both cases the engine is returned
    unchanged. *)
Theorem C5_confirm_iff_authorized
    (cs : list call) (pid u_rcp u_txn code now : string) :
  (confirm_success (snd (confirm_payment (run cs) pid u_rcp u_txn code now)) = true
   <-> exists i, payment_intents (run cs) !! pid = Some i /\ status i = AUTHORIZED)
  /\ match payment_intents (run cs) !! pid with
     | None =>
         confirm_payment (run cs) pid u_rcp u_txn code now
         = (run cs, ConfirmNotFound ("Payment intent not found: " +:+ pid))
     | Some i =>
         if decide (status i = AUTHORIZED) then
           exists r,
             snd (confirm_payment (run cs) pid u_rcp u_txn code now)
             = ConfirmReceipt r (purpose i)
             /\ rcp_status r = "completed"
             /\ rcp_payment_id r = pid
             /\ transaction_id r = "TXN-" +:+ u_txn
             /\ transaction_id r <> pid
             /\ rcp_amount r = amount i
             /\ rcp_currency r = currency i
             /\ receipts (fst (confirm_payment (run cs) pid u_rcp u_txn code now))
                  !! ("RCP-" +:+ u_rcp) = Some r
             /\ get_payment_status
                  (fst (confirm_payment (run cs) pid u_rcp u_txn code now)) pid
                = Some COMPLETED
         else
           confirm_payment (run cs) pid u_rcp u_txn code now
           = (run cs,
              ConfirmNotAuthorized pid
                ("Payment not authorized. Current status: " +:+ status_value (status i)))
     end.
Proof.
  pose proof (pay_keys_run cs) as Hk. unfold confirm_payment.
  destruct (payment_intents (run cs) !! pid) as [i |] eqn:Hi.
  - destruct (decide (status i = AUTHORIZED)) as [Ha | Hna]; cbn.
    + split; [split; [intros _; by exists i | done] |].
      eexists. split; [reflexivity |]. cbn.
      destruct (Hk pid i Hi) as [u ->].
      repeat split; try done.
      * apply lookup_insert_eq.
      * unfold get_payment_status. cbn. by rewrite lookup_insert_eq.
    + split; [| done]. split; [done |].
      intros (j & Hj & Hs). congruence.
  - cbn. split; [| done]. split; [done |]. by intros (j & Hj & _).
Qed.

(** C2 (the code departs from the claim): [authorize_payment] does not
    look at the record's status.  After create, authorize and confirm the
    record is [COMPLETED]; one more [authorize_payment] on the same id
    succeeds and moves it back to [AUTHORIZED]. *)
Theorem C2_authorize_reopens_completed_payment :
  get_payment_status (run booking) "PAY-u1" = Some COMPLETED
  /\ terminal COMPLETED = true
  /\ auth_success
       (snd (authorize_payment (run booking) "PAY-u1" "agent_nav" "agent_signature" "u5" "t3"))
     = true
  /\ get_payment_status
       (run (booking ++ [Authorize "PAY-u1" "agent_nav" "agent_signature" "u5" "t3"]))
       "PAY-u1"
     = Some AUTHORIZED.
Proof. repeat split; vm_compute; reflexivity. Qed.

(** C3 (the code departs from the claim): after the record was reopened
    by a second [authorize_payment], a second [confirm_payment] succeeds
    and the engine holds two receipts for the one payment id. *)
Theorem C3_second_receipt_for_same_payment :
  confirm_success
    (snd (confirm_payment
            (run (booking ++ [Authorize "PAY-u1" "agent_nav" "agent_signature" "u5" "t3"]))
            "PAY-u1" "u6" "u7" "C0DE0002" "t4"))
  = true
  /\ rcp_payment_id <$>
       receipts_for
         (run (booking ++ [Authorize "PAY-u1" "agent_nav" "agent_signature" "u5" "t3";
                           Confirm "PAY-u1" "u6" "u7" "C0DE0002" "t4"]))
         "PAY-u1"
     = ["PAY-u1"; "PAY-u1"]
  /\ length
       (receipts_for
          (run (booking ++ [Authorize "PAY-u1" "agent_nav" "agent_signature" "u5" "t3";
                            Confirm "PAY-u1" "u6" "u7" "C0DE0002" "t4"]))
          "PAY-u1")
     = 2%nat.
Proof. repeat split; vm_compute; reflexivity. Qed.

(** The moves one call can make on the status of a stored id: none;
    to [AUTHORIZED] by [authorize_payment], from any status; from
    [AUTHORIZED] to [COMPLETED] by [confirm_payment]; or a fresh
    [INTENT_CREATED] record when [create_payment_intent] draws the UUID of
    an id already stored. *)
Lemma status_moves (st : AP2PaymentMock) (c : call) (pid : string) (i i' : PaymentIntent) :
  payment_intents st !! pid = Some i ->
  payment_intents (exec st c) !! pid = Some i' ->
  status i' = status i
  \/ (exists who method uuid now, c = Authorize pid who method uuid now)
     /\ status i' = AUTHORIZED
  \/ (exists u_rcp u_txn code now, c = Confirm pid u_rcp u_txn code now)
     /\ status i = AUTHORIZED /\ status i' = COMPLETED
  \/ (exists amt purp cur meta uuid now,
        c = CreateIntent amt purp cur meta uuid now /\ pid = "PAY-" +:+ uuid)
     /\ status i' = INTENT_CREATED.
Proof.
  intros Hi Hi'.
  destruct c as [amt purp cur meta uuid now | p who method uuid now
                | p u_rcp u_txn code now]; cbn in Hi'.
  - destruct (decide ("PAY-" +:+ uuid = pid)) as [<- | Hne].
    + rewrite lookup_insert_eq in Hi'. injection Hi' as <-.
      right. right. right. split; [by do 6 eexists | done].
    + rewrite lookup_insert_ne in Hi' by done. left. congruence.
  - unfold authorize_payment, authorize_payment_with in Hi'.
    destruct (payment_intents st !! p) as [j |] eqn:Hj; [| left; cbn in Hi'; congruence].
    cbv zeta in Hi'. rewrite risk_never_vetoes in Hi'. cbn in Hi'.
    destruct (decide (p = pid)) as [-> | Hne].
    + rewrite lookup_insert_eq in Hi'. injection Hi' as <-.
      right. left. split; [by do 4 eexists | done].
    + rewrite lookup_insert_ne in Hi' by done. left. congruence.
  - unfold confirm_payment in Hi'.
    destruct (payment_intents st !! p) as [j |] eqn:Hj; [| left; cbn in Hi'; congruence].
    destruct (decide (status j = AUTHORIZED)) as [Ha | Hna];
      [| left; cbn in Hi'; congruence].
    cbn in Hi'. destruct (decide (p = pid)) as [-> | Hne].
    + rewrite lookup_insert_eq in Hi'. injection Hi' as <-.
      right. right. left. split; [by do 4 eexists |]. split; [congruence | done].
    + rewrite lookup_insert_ne in Hi' by done. left. congruence.
Qed.

(** What [confirm_payment] does guarantee: it never touches a record whose
    status is not [AUTHORIZED], so the move out of a finished record can
    only come from [authorize_payment]. *)
Lemma confirm_keeps_unauthorized_statuses
    (st : AP2PaymentMock) (pid p u_rcp u_txn code now : string) (i : PaymentIntent) :
  payment_intents st !! p = Some i ->
  status i <> AUTHORIZED ->
  payment_intents (fst (confirm_payment st pid u_rcp u_txn code now)) !! p = Some i.
Proof.
  intros Hp Hs. unfold confirm_payment.
  destruct (payment_intents st !! pid) as [j |] eqn:Hj; [| done].
  case_decide as Ha; [| done]. cbn.
  destruct (decide (pid = p)) as [-> | Hne]; [congruence |].
  by rewrite lookup_insert_ne.
Qed.

End AP2Facts.

(** * Properties of the verification authority and the relying party *)

Module KYCFacts.
Import KYC.

Lemma to_dict_lookup (s : VerificationState) (k : string) :
  is_Some (to_dict s !! k) <-> k ∈ state_fields.
Proof.
  unfold to_dict, state_fields.
  rewrite <- elem_of_dom, !dom_insert_L, dom_empty_L.
  rewrite !elem_of_cons, elem_of_nil. set_solver.
Qed.

Lemma to_dict_kyc_status (s : VerificationState) :
  to_dict s !! "kyc_status" = Some (PStr (KycStatus_value (kyc_status s))).
Proof. unfold to_dict. by simplify_map_eq. Qed.

Lemma to_dict_permissions (s : VerificationState) :
  to_dict s !! "permissions"
  = Some (PList ((fun p => PStr (Permission_value p)) <$> permissions s)).
Proof. unfold to_dict. by simplify_map_eq. Qed.

Lemma verified_value (s : KycStatus) :
  Py.eq_str (PStr (KycStatus_value s)) (KycStatus_value VERIFIED)
  = bool_decide (s = VERIFIED).
Proof. by destruct s. Qed.

Lemma invest_in_values (ps : list Permission) :
  existsb (fun x => match x with PStr s => String.eqb s "invest" | _ => false end)
    ((fun p => PStr (Permission_value p)) <$> ps)
  = bool_decide (INVEST ∈ ps).
Proof.
  induction ps as [| p ps IH]; [done |].
  cbn [fmap list_fmap existsb]. rewrite IH.
  assert (String.eqb (Permission_value p) "invest" = bool_decide (INVEST = p)) as ->
    by (by destruct p).
  apply Bool.eq_iff_eq_true.
  rewrite orb_true_iff, !bool_decide_eq_true, elem_of_cons. tauto.
Qed.

Lemma approves_to_dict (s : VerificationState) :
  approves (PDict (to_dict s))
  = Some (bool_decide (kyc_status s = VERIFIED) && bool_decide (INVEST ∈ permissions s)).
Proof.
  unfold approves. cbn [Py.getitem_str].
  rewrite to_dict_kyc_status, to_dict_permissions, verified_value.
  destruct (bool_decide (kyc_status s = VERIFIED)); [| done].
  cbn [Py.contains_str]. by rewrite invest_in_values.
Qed.

Lemma verify_identity_complete (data : gmap string string) :
  (forall f, f ∈ required_fields -> is_Some (data !! f)) ->
  _verify_identity (PDict (PStr <$> data)) = Some true.
Proof.
  intros Hall. unfold _verify_identity, required_fields in *.
  assert (forall f, f ∈ ["name"; "date_of_birth"; "national_id"; "address"] ->
            Py.contains_str f (PDict (PStr <$> data)) = Some true) as Hc.
  { intros f Hf. cbn. f_equal. apply bool_decide_eq_true_2.
    rewrite lookup_fmap. destruct (Hall f Hf) as [v ->]. by eexists. }
  cbn [all_in].
  rewrite !Hc; [done | set_solver..].
Qed.

Section WithHashlib.
Context `{Hashlib}.

(** An accepted submission: the outcome in full. *)
Lemma submission_accepted (st : KycAgent) (inv : string) (data : gmap string string)
    (mu mn uuid now_verified now_sent : string) :
  (forall f, f ∈ required_fields -> is_Some (data !! f)) ->
  _handle_kyc_submission st (submission_message inv data mu mn) uuid now_verified now_sent
  = Some
      ({| _identity_store :=
            <[inv := {| identity_hash := sha256_hexdigest (json_dumps (PDict (PStr <$> data)));
                        id_verified_at := now_verified |}]> (_identity_store st);
          _verification_states :=
            <[inv := mkVerificationState inv VERIFIED (Some (make_verification_id inv))
                       (Some now_verified) [INVEST; TRADE; WITHDRAW; TRANSFER] "low"
                       ["accredited_investor"; "aml_cleared"]]> (_verification_states st) |},
       {| message_id := uuid; message_type := KYC_VERIFICATION_RESPONSE;
          sender_agent := kyc_agent_id; recipient_agent := "InvestorAgent-" +:+ inv;
          timestamp := now_sent;
          payload :=
            <["verification_status" := PStr "verified"]>
            (<["verification_id" := PStr (make_verification_id inv)]>
            (<["verified_at" := PStr now_verified]> ∅)) |}).
Proof.
  intros Hall. unfold _handle_kyc_submission, submission_message.
  cbn [payload sender_agent]. simplify_map_eq.
  by rewrite (verify_identity_complete data Hall).
Qed.

(** C7: a principal who submits the same identity fields twice, all four
    required fields present, is answered "verified" with the same
    verification id both times, whatever the authority held before and
    whatever message ids and clock values the two exchanges draw; the id
    is the one derived from the principal's id, and it is the one kept in
    the principal's state after each submission. *)
Theorem C7_verification_id_is_stable
    (st : KycAgent) (inv : string) (data : gmap string string)
    (mu1 mn1 u1 v1 s1 mu2 mn2 u2 v2 s2 : string) :
  (forall f, f ∈ required_fields -> is_Some (data !! f)) ->
  exists st1 r1 st2 r2,
    _handle_kyc_submission st (submission_message inv data mu1 mn1) u1 v1 s1 = Some (st1, r1)
    /\ _handle_kyc_submission st1 (submission_message inv data mu2 mn2) u2 v2 s2 = Some (st2, r2)
    /\ payload r1 !! "verification_status" = Some (PStr "verified")
    /\ payload r2 !! "verification_status" = Some (PStr "verified")
    /\ payload r1 !! "verification_id" = Some (PStr (make_verification_id inv))
    /\ payload r2 !! "verification_id" = payload r1 !! "verification_id"
    /\ verification_id (current_state st1 inv) = Some (make_verification_id inv)
    /\ verification_id (current_state st2 inv) = Some (make_verification_id inv).
Proof.
  intros Hall. do 4 eexists.
  split; [by apply submission_accepted |].
  split; [by apply submission_accepted |].
  cbn [payload]. unfold current_state. cbn [_verification_states].
  rewrite !lookup_insert_eq. repeat split; by simplify_map_eq.
Qed.

(** The verification states after one submission, in terms of what of the
    submission is public. *)
Lemma submit_states (st : KycAgent) (s : submission) :
  _verification_states (submit st s)
  = match public_part s with
    | Some (inv, Some t) =>
        <[inv := mkVerificationState inv VERIFIED (Some (make_verification_id inv))
                   (Some t) [INVEST; TRADE; WITHDRAW; TRANSFER] "low"
                   ["accredited_investor"; "aml_cleared"]]> (_verification_states st)
    | Some (inv, None) => <[inv := blank_state inv REJECTED]> (_verification_states st)
    | None => _verification_states st
    end.
Proof.
  unfold submit, _handle_kyc_submission, public_part.
  destruct (payload (sub_message s) !! "investor_id") as [[] |]; try done.
  destruct (payload (sub_message s) !! "identity_data") as [identity_data |]; try done.
  by destruct (_verify_identity identity_data) as [[] |].
Qed.

Lemma submissions_states (subs1 subs2 : list submission) (st1 st2 : KycAgent) :
  public_part <$> subs1 = public_part <$> subs2 ->
  _verification_states st1 = _verification_states st2 ->
  _verification_states (foldl submit st1 subs1)
  = _verification_states (foldl submit st2 subs2).
Proof.
  revert subs2 st1 st2.
  induction subs1 as [| s1 subs1 IH]; intros [| s2 subs2] st1 st2 Hpub Hst;
    try discriminate; [done |].
  cbn in Hpub. injection Hpub as Hp Hrest. cbn [foldl].
  apply IH; [done |]. rewrite !submit_states, Hp. by rewrite Hst.
Qed.

Lemma state_request_reads_states_only (st1 st2 : KycAgent) (message : A2AMessage)
    (uuid now : string) :
  _verification_states st1 = _verification_states st2 ->
  _handle_verification_state_request st1 message uuid now
  = _handle_verification_state_request st2 message uuid now.
Proof. intros Hst. unfold _handle_verification_state_request. by rewrite Hst. Qed.

(** C1: after any sequence of submissions and for any principal, the
    answer to a state request carries one payload entry, the dictionary
    of the principal's [VerificationState]; its keys are the seven fields
    of that class, the key ["identity_hash"] of the private store is not
    among them, and the whole answer does not depend on the identity data
    submitted: two submission histories that agree on the principals'
    ids, on the outcome of the required-fields check and on the times of
    verification give the same answer to every state request, whatever
    identity fields (hence whatever identity hashes) they carried. *)
Theorem C1_state_response_hides_identity :
  (forall (subs : list submission) (sender inv mu mn uuid now : string),
      exists resp,
        _handle_verification_state_request (after_submissions subs)
          (state_request_message sender inv mu mn) uuid now = Some resp
        /\ dom (payload resp) = {["verification_state"]}
        /\ payload resp !! "verification_state"
           = Some (PDict (to_dict (current_state (after_submissions subs) inv)))
        /\ (forall k, is_Some (to_dict (current_state (after_submissions subs) inv) !! k)
                      <-> k ∈ state_fields)
        /\ to_dict (current_state (after_submissions subs) inv) !! "identity_hash" = None)
  /\ (forall (subs1 subs2 : list submission) (message : A2AMessage) (uuid now : string),
        public_part <$> subs1 = public_part <$> subs2 ->
        _handle_verification_state_request (after_submissions subs1) message uuid now
        = _handle_verification_state_request (after_submissions subs2) message uuid now).
Proof.
  split.
  - intros subs sender inv mu mn uuid now. eexists. split; [| split; [| split; [| split]]].
    + unfold _handle_verification_state_request, state_request_message.
      cbn [payload]. rewrite lookup_insert_eq. reflexivity.
    + cbn [payload]. rewrite dom_insert_L, dom_empty_L. set_solver.
    + cbn [payload]. by rewrite lookup_insert_eq.
    + apply to_dict_lookup.
    + apply eq_None_not_Some. rewrite to_dict_lookup. unfold state_fields.
      rewrite !elem_of_cons, elem_of_nil. intros Hk. by repeat destruct Hk as [Hk | Hk].
  - intros subs1 subs2 message uuid now Hpub.
    apply state_request_reads_states_only. unfold after_submissions.
    by apply submissions_states.
Qed.

(** C8: a relying party first enters the transaction in its ledger with
    status [pending_verification]; the request then ends [completed]
    exactly when the state the authority holds for the principal at that
    moment is [verified] with [invest] among its permissions, and
    otherwise ends [blocked] with the stated reason.  The outcome is a
    function of the authority's current state alone: the company's earlier
    ledger plays no part in it. *)
Theorem C8_investment_gated_on_current_state
    (kyc : KycAgent) (c : CompanyAgent) (inv : string) (amt : Q)
    (vid : option string) (recipient mu mn : string) (d : InvestmentDraws) :
  let opened := open_transaction c inv (PFloat amt) d in
  let vs := current_state kyc inv in
  let ok := bool_decide (kyc_status vs = VERIFIED) && bool_decide (INVEST ∈ permissions vs) in
  transactions (fst opened) !! txn_uuid d = Some (snd opened)
  /\ txn_status (snd opened) = TXN_PENDING_VERIFICATION
  /\ exists c' resp t,
       _handle_investment_request kyc c
         (investment_message inv amt vid recipient mu mn) d = Some (c', resp)
       /\ c' = fst (close_transaction (fst opened) (snd opened)
                      (if ok then TXN_COMPLETED else TXN_BLOCKED)
                      (if ok then None else Some blocked_reason))
       /\ transactions c' !! txn_uuid d = Some t
       /\ (txn_status t = TXN_COMPLETED
           <-> kyc_status vs = VERIFIED /\ INVEST ∈ permissions vs)
       /\ (txn_status t = TXN_BLOCKED /\ txn_reason t = Some blocked_reason
           <-> ~ (kyc_status vs = VERIFIED /\ INVEST ∈ permissions vs))
       /\ payload resp !! "status" = Some (PStr (if ok then "completed" else "blocked"))
       /\ payload resp !! "reason" = (if ok then None else Some (PStr blocked_reason)).
Proof.
  intros opened vs ok.
  split; [apply lookup_insert_eq |]. split; [done |].
  assert (_handle_investment_request kyc c
            (investment_message inv amt vid recipient mu mn) d
          = if ok
            then Some (fst (close_transaction (fst opened) (snd opened) TXN_COMPLETED None),
                   {| message_id := resp_uuid d; message_type := INVESTMENT_RESPONSE;
                      sender_agent := agent_id c;
                      recipient_agent := "InvestorAgent-" +:+ inv;
                      timestamp := resp_now d;
                      payload :=
                        <["transaction_id" := PStr (txn_uuid d)]>
                        (<["status" := PStr "completed"]>
                        (<["amount" := PFloat amt]> ∅)) |})
            else Some (fst (close_transaction (fst opened) (snd opened) TXN_BLOCKED
                              (Some blocked_reason)),
                   {| message_id := resp_uuid d; message_type := INVESTMENT_RESPONSE;
                      sender_agent := agent_id c;
                      recipient_agent := "InvestorAgent-" +:+ inv;
                      timestamp := resp_now d;
                      payload :=
                        <["transaction_id" := PStr (txn_uuid d)]>
                        (<["status" := PStr "blocked"]>
                        (<["reason" := PStr blocked_reason]> ∅)) |})) as Hrun.
  { unfold _handle_investment_request, investment_message.
    unfold receive_message, state_request_message, _handle_verification_state_request.
    simplify_map_eq.
    fold (current_state kyc inv). rewrite approves_to_dict.
    fold vs. fold ok. by destruct ok. }
  assert (ok = true <-> kyc_status vs = VERIFIED /\ INVEST ∈ permissions vs) as Hok.
  { unfold ok. by rewrite andb_true_iff, !bool_decide_eq_true. }
  rewrite Hrun. destruct ok; do 3 eexists;
    (split; [reflexivity |]); (split; [reflexivity |]);
    (split; [cbn; apply lookup_insert_eq |]); cbn;
    (split; [| split; [| split; [done | done]]]).
  - split; [intros _; by apply Hok | done].
  - split; [intros [Hs _]; discriminate | intros Hn; destruct Hn; by apply Hok].
  - split; [discriminate | intros Hv; apply Hok in Hv; discriminate].
  - split; [intros _ Hv; apply Hok in Hv; discriminate | done].
Qed.

End WithHashlib.

Lemma demo_identity_complete (f : string) :
  f ∈ required_fields -> is_Some (demo_identity !! f).
Proof.
  unfold required_fields. rewrite !elem_of_cons, elem_of_nil.
  intros [-> | [-> | [-> | [-> | []]]]]; by eexists.
Defined.

(** C7 at the demonstration's data: principal INV-001 submits twice. *)
Lemma C7_verification_id_is_stable_witness :
  exists st1 r1 st2 r2,
    _handle_kyc_submission (H := plain_hashlib) kyc_init
      (submission_message "INV-001" demo_identity "m1" "t0") "u1" "t1" "t2" = Some (st1, r1)
    /\ _handle_kyc_submission (H := plain_hashlib) st1
         (submission_message "INV-001" demo_identity "m2" "t3") "u2" "t4" "t5" = Some (st2, r2)
    /\ payload r1 !! "verification_status" = Some (PStr "verified")
    /\ payload r2 !! "verification_status" = Some (PStr "verified")
    /\ payload r1 !! "verification_id"
       = Some (PStr (make_verification_id (H := plain_hashlib) "INV-001"))
    /\ payload r2 !! "verification_id" = payload r1 !! "verification_id"
    /\ verification_id (current_state st1 "INV-001")
       = Some (make_verification_id (H := plain_hashlib) "INV-001")
    /\ verification_id (current_state st2 "INV-001")
       = Some (make_verification_id (H := plain_hashlib) "INV-001").
Proof.
  apply (C7_verification_id_is_stable (H := plain_hashlib) kyc_init "INV-001" demo_identity
           "m1" "t0" "u1" "t1" "t2" "m2" "t3" "u2" "t4" "t5").
  exact demo_identity_complete.
Defined.

(** C1 at work: two histories in which INV-001 is verified at the same
    time from different identity data are answered alike. *)
Lemma C1_state_response_hides_identity_witness :
  _handle_verification_state_request
    (after_submissions (H := plain_hashlib)
       [mkSubmission (submission_message "INV-001" demo_identity "m1" "t0") "u1" "t1" "t2"])
    (state_request_message "CompanyAgent-COMP-A" "INV-001" "m3" "t6") "u3" "t7"
  = _handle_verification_state_request
      (after_submissions (H := plain_hashlib)
         [mkSubmission (submission_message "INV-001" other_identity "m9" "t8") "u9" "t1" "t9"])
      (state_request_message "CompanyAgent-COMP-A" "INV-001" "m3" "t6") "u3" "t7".
Proof.
  destruct (C1_state_response_hides_identity (H := plain_hashlib)) as [_ Hsame].
  apply Hsame. vm_compute. reflexivity.
Defined.

(** What the private store keeps does follow the identity data: with a
    serializer that lets the name through, the entry of INV-001 holds a
    digest of the submitted name. *)
Lemma identity_store_keeps_identity_digest :
  identity_hash <$>
    (_identity_store
       (after_submissions
          (H := {| sha256_hexdigest := fun s => s;
                   json_dumps := fun v =>
                     match v with
                     | PDict d => match d !! "name" with Some (PStr n) => n | _ => "" end
                     | _ => ""
                     end |})
          [mkSubmission (submission_message "INV-001" demo_identity "m1" "t0") "u1" "t1" "t2"])
     !! "INV-001")
  = Some "Vansh Ranawat".
Proof. vm_compute. reflexivity. Qed.

End KYCFacts.

(** * Properties of the step-binding resolver *)

Module NavFacts.
Import Nav.

Lemma append_nil (b : string) : "" +:+ b = b.
Proof. reflexivity. Qed.

Lemma append_cons (x : ascii) (a b : string) : String x a +:+ b = String x (a +:+ b).
Proof. reflexivity. Qed.

Lemma append_assoc (a b c : string) : (a +:+ b) +:+ c = a +:+ (b +:+ c).
Proof.
  induction a as [| x a IH]; [done |].
  rewrite !append_cons. by f_equal.
Qed.

Lemma str_endswith_self (s : string) : str_endswith s s = true.
Proof. destruct s; cbn; [done |]. by rewrite Ascii.eqb_refl, String.eqb_refl. Qed.

Lemma str_endswith_append (a suffix : string) : str_endswith suffix (a +:+ suffix) = true.
Proof.
  induction a as [| x a IH].
  - rewrite append_nil. apply str_endswith_self.
  - rewrite append_cons. cbn [str_endswith]. rewrite IH. apply orb_true_r.
Qed.

Lemma str_drop_last_snoc (a : string) (c : ascii) :
  str_drop_last (a +:+ String c EmptyString) = a.
Proof.
  induction a as [| x a IH]; [done |].
  rewrite append_cons. cbn [str_drop_last]. rewrite IH.
  destruct a; [done |]. by rewrite append_cons.
Qed.

Lemma str_split_whole (s : string) : has_char dot s = false -> str_split dot s = [s].
Proof.
  induction s as [| x s IH]; [done |].
  cbn. intros Hs. apply orb_false_iff in Hs as [Hx Hs].
  by rewrite Hx, (IH Hs).
Qed.

Lemma str_split_at_dot (a b : string) :
  has_char dot a = false ->
  str_split dot (a +:+ String dot b) = a :: str_split dot b.
Proof.
  induction a as [| x a IH]; [done |].
  rewrite append_cons. cbn. intros Ha. apply orb_false_iff in Ha as [Hx Ha].
  by rewrite Hx, (IH Ha).
Qed.

Lemma prefix_opening (rest : string) : String.prefix "${" ("${" +:+ rest) = true.
Proof. destruct rest; reflexivity. Qed.

Lemma str_drop_opening (rest : string) : str_drop 2 ("${" +:+ rest) = rest.
Proof. reflexivity. Qed.

(** The reference text is taken apart into its step and its field. *)
Lemma placeholder_parts (step field : string) :
  has_char dot step = false -> has_char dot field = false ->
  String.prefix "${" (placeholder step field) = true
  /\ str_endswith "}" (placeholder step field) = true
  /\ str_split dot (str_drop_last (str_drop 2 (placeholder step field))) = [step; field].
Proof.
  intros Hs Hf. unfold placeholder. split; [| split].
  - apply prefix_opening.
  - rewrite <- !append_assoc. apply str_endswith_append.
  - rewrite str_drop_opening.
    replace (step +:+ "." +:+ field +:+ "}")
      with ((step +:+ String dot field) +:+ "}").
    + rewrite str_drop_last_snoc.
      rewrite (str_split_at_dot step field Hs). by rewrite (str_split_whole field Hf).
    + rewrite append_assoc. f_equal.
Qed.

(** The lookup made for a reference, on a context of dictionaries: it
    never raises, and finds what [bound_value] describes. *)
Lemma step_lookup (ctx : gmap string pyval) (step field : string) (value : pyval) :
  results_are_dicts ctx ->
  match ctx !! step with
  | Some step_result =>
      match Py.contains_str "data" step_result with
      | None => None
      | Some has_data =>
          match
            (if has_data
             then match Py.getitem_str step_result "data" with
                  | Some data => Py.contains_str field data
                  | None => None
                  end
             else Some false)
          with
          | None => None
          | Some true =>
              match Py.getitem_str step_result "data" with
              | Some data => Py.getitem_str data field
              | None => None
              end
          | Some false =>
              match Py.contains_str field step_result with
              | None => None
              | Some true => Py.getitem_str step_result field
              | Some false => Some value
              end
          end
      end
  | None => Some value
  end
  = Some (default value (bound_value ctx step field)).
Proof.
  intros Hwf. unfold bound_value.
  destruct (ctx !! step) as [step_result |] eqn:Hstep; [| done].
  destruct (Hwf step step_result Hstep) as (d & -> & Hdata).
  cbn [Py.contains_str Py.getitem_str].
  destruct (d !! "data") as [e |] eqn:He.
  - destruct (Hdata e eq_refl) as [envelope ->].
    rewrite bool_decide_eq_true_2 by by eexists.
    cbn [Py.contains_str Py.getitem_str].
    destruct (envelope !! field) as [v |] eqn:Hv.
    + rewrite bool_decide_eq_true_2 by by eexists. done.
    + rewrite bool_decide_eq_false_2 by (by intros [x Hx]).
      destruct (d !! field) as [w |] eqn:Hw.
      * rewrite bool_decide_eq_true_2 by by eexists. done.
      * rewrite bool_decide_eq_false_2 by (by intros [x Hx]). done.
  - rewrite bool_decide_eq_false_2 by (by intros [x Hx]).
    destruct (d !! field) as [w |] eqn:Hw.
    + rewrite bool_decide_eq_true_2 by by eexists. done.
    + rewrite bool_decide_eq_false_2 by (by intros [x Hx]). done.
Qed.

Lemma resolve_value_total (ctx : gmap string pyval) (value : pyval) :
  results_are_dicts ctx -> is_Some (resolve_value ctx value).
Proof.
  intros Hwf. unfold resolve_value.
  destruct value as [| | | | text | |]; try by eexists.
  destruct (String.prefix "${" text && str_endswith "}" text); [| by eexists].
  cbv zeta.
  destruct (str_split dot (str_drop_last (str_drop 2 text))) as [| a [| b [| c parts]]];
    try by eexists.
  rewrite (step_lookup ctx a b (PStr text) Hwf). by eexists.
Qed.

Lemma resolve_value_plain (ctx : gmap string pyval) (value : pyval) :
  plain value = true -> resolve_value ctx value = Some value.
Proof.
  unfold plain, resolve_value. destruct value as [| | | | text | |]; try done.
  intros Hp. apply negb_true_iff in Hp. by rewrite Hp.
Qed.

Lemma resolve_value_placeholder (ctx : gmap string pyval) (step field : string) :
  results_are_dicts ctx ->
  has_char dot step = false -> has_char dot field = false ->
  resolve_value ctx (PStr (placeholder step field))
  = Some (default (PStr (placeholder step field)) (bound_value ctx step field)).
Proof.
  intros Hwf Hs Hf. unfold resolve_value.
  destruct (placeholder_parts step field Hs Hf) as (Hp & He & Hsplit).
  rewrite Hp, He. cbn [andb]. cbv zeta. rewrite Hsplit.
  by apply step_lookup.
Qed.

(** The loop: on a context of dictionaries every key is kept and bound to
    the resolution of its value. *)
Lemma resolve_parameters_lookup (ctx params : gmap string pyval) :
  results_are_dicts ctx ->
  exists resolved,
    _resolve_parameters ctx params = Some resolved
    /\ forall key, resolved !! key = params !! key ≫= resolve_value ctx.
Proof.
  intros Hwf. unfold _resolve_parameters.
  apply (map_fold_weak_ind
           (fun (r : option (gmap string pyval)) (m : gmap string pyval) =>
              exists resolved, r = Some resolved
                /\ forall key, resolved !! key = m !! key ≫= resolve_value ctx)).
  - exists ∅. split; [done |]. intros key. by rewrite !lookup_empty.
  - intros key value m r Hfresh (resolved & -> & Hres).
    destruct (resolve_value_total ctx value Hwf) as [v Hv]. rewrite Hv.
    eexists. split; [reflexivity |]. intros k.
    destruct (decide (key = k)) as [<- | Hne].
    + rewrite !lookup_insert_eq. cbn. by rewrite Hv.
    + rewrite !lookup_insert_ne by done. apply Hres.
Qed.

End NavFacts.

(** * Further properties of the staged authorization engine *)

Module AP2More.
Import AP2 AP2Inv AP2Facts.
Local Open Scope Q_scope.

Lemma authorize_payment_eq (st : AP2PaymentMock) (pid who method uuid now : string) :
  authorize_payment st pid who method uuid now
  = match payment_intents st !! pid with
    | None => (st, AuthNotFound ("Payment intent not found: " +:+ pid))
    | Some intent =>
        ({| payment_intents := <[pid := set_status AUTHORIZED intent]> (payment_intents st);
            authorizations :=
              <["AUTH-" +:+ uuid :=
                  mkAuthorization ("AUTH-" +:+ uuid) pid who now method
                    (_calculate_risk_score intent)]> (authorizations st);
            receipts := receipts st |},
         AuthSuccess pid ("AUTH-" +:+ uuid) now (_calculate_risk_score intent)
           "authorized" "confirm_payment")
    end.
Proof.
  unfold authorize_payment, authorize_payment_with.
  destruct (payment_intents st !! pid) as [i |]; [| done].
  cbv zeta. by rewrite risk_never_vetoes.
Qed.

Lemma is_Some_insert_keep {A} (m : gmap string A) (k k' : string) (x : A) :
  is_Some (m !! k') -> is_Some (<[k := x]> m !! k').
Proof.
  intros Hk. destruct (decide (k = k')) as [-> | Hne].
  - rewrite lookup_insert_eq. by eexists.
  - by rewrite lookup_insert_ne.
Qed.

Lemma authorizations_ok_insert (st st' : AP2PaymentMock) (pid : string) (i : PaymentIntent) :
  authorizations_ok st ->
  authorizations st' = authorizations st ->
  payment_intents st' = <[pid := i]> (payment_intents st) ->
  authorizations_ok st'.
Proof.
  intros Ha Heq Hin aid a Haid. rewrite Heq in Haid.
  destruct (Ha aid a Haid) as (? & ?).
  split; [done |]. rewrite Hin. by apply is_Some_insert_keep.
Qed.

Lemma receipts_ok_insert (st st' : AP2PaymentMock) (pid : string) (i : PaymentIntent) :
  receipts_ok st ->
  receipts st' = receipts st ->
  payment_intents st' = <[pid := i]> (payment_intents st) ->
  receipts_ok st'.
Proof.
  intros Hr Heq Hin rid r Hrid. rewrite Heq in Hrid.
  destruct (Hr rid r Hrid) as (? & ? & ?).
  split; [done |]. split; [| done]. rewrite Hin. by apply is_Some_insert_keep.
Qed.

Lemma stores_ok_exec (st : AP2PaymentMock) (c : call) :
  intents_ok st /\ authorizations_ok st /\ receipts_ok st ->
  intents_ok (exec st c) /\ authorizations_ok (exec st c) /\ receipts_ok (exec st c).
Proof.
  intros (Hi & Ha & Hr).
  destruct c as [amt purp cur meta uuid now | pid who method uuid now
                | pid u_rcp u_txn code now]; cbn [exec].
  - cbn [create_payment_intent fst]. split; [| split].
    + apply map_Forall_insert_2; [| done]. split; [done | by left].
    + by eapply authorizations_ok_insert.
    + by eapply receipts_ok_insert.
  - rewrite authorize_payment_eq.
    destruct (payment_intents st !! pid) as [i |] eqn:Hpid; [| done].
    cbn [fst]. split; [| split].
    + apply map_Forall_insert_2; [| done].
      destruct (Hi pid i Hpid) as [? _]. split; [done | right; by left].
    + apply map_Forall_insert_2.
      * cbn. split; [done |]. rewrite lookup_insert_eq. by eexists.
      * intros aid a Haid. destruct (Ha aid a Haid) as (? & ?).
        split; [done |]. by apply is_Some_insert_keep.
    + by eapply receipts_ok_insert.
  - unfold confirm_payment.
    destruct (payment_intents st !! pid) as [i |] eqn:Hpid; [| done].
    case_decide; [| done]. cbn [fst]. split; [| split].
    + apply map_Forall_insert_2; [| done].
      destruct (Hi pid i Hpid) as [? _]. split; [done | right; by right].
    + by eapply authorizations_ok_insert.
    + apply map_Forall_insert_2.
      * cbn. split; [done |]. split; [rewrite lookup_insert_eq; by eexists | done].
      * intros rid r Hrid. destruct (Hr rid r Hrid) as (? & ? & ?).
        split; [done |]. split; [| done]. by apply is_Some_insert_keep.
Qed.

(** After any sequence of calls: every stored intent carries its own key
    as payment id and is in one of the three statuses [INTENT_CREATED],
    [AUTHORIZED], [COMPLETED]; the statuses [PENDING_AUTHORIZATION],
    [PROCESSING], [FAILED] and [CANCELLED] are never seen in the store. *)
Theorem stored_statuses_are_live (cs : list call) : intents_ok (run cs).
Proof.
  assert (intents_ok (run cs) /\ authorizations_ok (run cs) /\ receipts_ok (run cs))
    as [H _]; [| exact H].
  unfold run. induction cs as [| c cs IH] using rev_ind.
  - cbn. split; [| split]; apply map_Forall_empty.
  - rewrite foldl_snoc. by apply stores_ok_exec.
Qed.

(** After any sequence of calls: every authorization and every receipt is
    stored under its own id and refers to a payment id that is in the
    store, and a receipt's status is ["completed"]. *)
Theorem authorizations_and_receipts_refer_to_stored_payments (cs : list call) :
  authorizations_ok (run cs) /\ receipts_ok (run cs).
Proof.
  assert (intents_ok (run cs) /\ authorizations_ok (run cs) /\ receipts_ok (run cs))
    as (_ & H); [| exact H].
  unfold run. induction cs as [| c cs IH] using rev_ind.
  - cbn. split; [| split]; apply map_Forall_empty.
  - rewrite foldl_snoc. by apply stores_ok_exec.
Qed.

Lemma status_origin (st : AP2PaymentMock) (c : call) (pid : string) (i' : PaymentIntent) :
  payment_intents (exec st c) !! pid = Some i' ->
  status i' = AUTHORIZED \/ status i' = COMPLETED ->
  (exists who method uuid now, c = Authorize pid who method uuid now)
  \/ (exists i, payment_intents st !! pid = Some i
                /\ (status i = AUTHORIZED \/ status i = COMPLETED)).
Proof.
  intros Hnew Hs.
  destruct (payment_intents st !! pid) as [i |] eqn:Hold.
  - destruct (status_moves st c pid i i' Hold Hnew)
      as [Hsame | [[Hc _] | [(_ & Ha & _) | [_ Hcr]]]].
    + right. exists i. split; [done |]. by rewrite <- Hsame.
    + by left.
    + right. exists i. split; [done | by left].
    + rewrite Hcr in Hs. by destruct Hs.
  - destruct c as [amt purp cur meta uuid now | p who method uuid now
                  | p u_rcp u_txn code now]; cbn [exec] in Hnew.
    + cbn in Hnew. destruct (decide ("PAY-" +:+ uuid = pid)) as [<- | Hne].
      * rewrite lookup_insert_eq in Hnew. injection Hnew as <-. by destruct Hs.
      * rewrite lookup_insert_ne in Hnew by done. congruence.
    + rewrite authorize_payment_eq in Hnew.
      destruct (payment_intents st !! p) as [j |] eqn:Hp; [| cbn in Hnew; congruence].
      cbn in Hnew. destruct (decide (p = pid)) as [-> | Hne]; [congruence |].
      rewrite lookup_insert_ne in Hnew by done. congruence.
    + unfold confirm_payment in Hnew.
      destruct (payment_intents st !! p) as [j |] eqn:Hp; [| cbn in Hnew; congruence].
      case_decide; [| cbn in Hnew; congruence].
      cbn in Hnew. destruct (decide (p = pid)) as [-> | Hne]; [congruence |].
      rewrite lookup_insert_ne in Hnew by done. congruence.
Qed.

Lemma authorized_after_authorize (cs : list call) (pid : string) (i : PaymentIntent) :
  payment_intents (run cs) !! pid = Some i ->
  status i = AUTHORIZED \/ status i = COMPLETED ->
  exists (cs1 cs2 : list call) who method uuid now,
    cs = (cs1 ++ Authorize pid who method uuid now :: cs2)%list.
Proof.
  revert i. unfold run. induction cs as [| c cs IH] using rev_ind; intros i Hi Hs.
  - cbn in Hi. by rewrite lookup_empty in Hi.
  - rewrite foldl_snoc in Hi.
    destruct (status_origin _ c pid i Hi Hs)
      as [(who & method & uuid & now & ->) | (j & Hj & Hsj)].
    + by exists cs, [], who, method, uuid, now.
    + destruct (IH j Hj Hsj) as (cs1 & cs2 & who & method & uuid & now & ->).
      exists cs1, (cs2 ++ [c])%list, who, method, uuid, now.
      by rewrite <- app_assoc.
Qed.

Lemma receipt_origin (st : AP2PaymentMock) (c : call) (rid : string) (r : PaymentReceipt) :
  receipts (exec st c) !! rid = Some r ->
  receipts st !! rid = Some r
  \/ exists u_rcp u_txn code now i,
       c = Confirm (rcp_payment_id r) u_rcp u_txn code now
       /\ payment_intents st !! rcp_payment_id r = Some i
       /\ status i = AUTHORIZED.
Proof.
  intros Hnew.
  destruct c as [amt purp cur meta uuid now | p who method uuid now
                | p u_rcp u_txn code now]; cbn [exec] in Hnew.
  - by left.
  - rewrite authorize_payment_eq in Hnew.
    destruct (payment_intents st !! p); by left.
  - unfold confirm_payment in Hnew.
    destruct (payment_intents st !! p) as [j |] eqn:Hp; [| by left].
    case_decide as Ha; [| by left]. cbn in Hnew.
    destruct (decide ("RCP-" +:+ u_rcp = rid)) as [<- | Hne].
    + rewrite lookup_insert_eq in Hnew. injection Hnew as <-. cbn.
      right. by exists u_rcp, u_txn, code, now, j.
    + rewrite lookup_insert_ne in Hnew by done. by left.
Qed.

(** No receipt without a prior authorization: whenever the engine holds a
    receipt, the sequence of calls that led there contains an
    [authorize_payment] on the receipt's payment id followed, later, by a
    [confirm_payment] on it. *)
Theorem authorization_precedes_receipt (cs : list call) (rid : string) (r : PaymentReceipt) :
  receipts (run cs) !! rid = Some r ->
  exists (cs1 cs2 cs3 : list call) who method uuid now u_rcp u_txn code now',
    cs = (cs1 ++ Authorize (rcp_payment_id r) who method uuid now
              :: cs2 ++ Confirm (rcp_payment_id r) u_rcp u_txn code now' :: cs3)%list.
Proof.
  induction cs as [| c cs IH] using rev_ind; intros Hr.
  - cbn in Hr. by rewrite lookup_empty in Hr.
  - unfold run in Hr. rewrite foldl_snoc in Hr. fold (run cs) in Hr.
    destruct (receipt_origin _ c rid r Hr)
      as [Hold | (u_rcp & u_txn & code & now' & i & -> & Hi & Ha)].
    + destruct (IH Hold)
        as (cs1 & cs2 & cs3 & who & method & uuid & now & u_rcp & u_txn & code & now' & ->).
      exists cs1, cs2, (cs3 ++ [c])%list, who, method, uuid, now, u_rcp, u_txn, code, now'.
      rewrite <- !app_assoc. cbn. by rewrite <- !app_assoc.
    + destruct (authorized_after_authorize cs _ i Hi (or_introl Ha))
        as (cs1 & cs2 & who & method & uuid & now & ->).
      exists cs1, cs2, [], who, method, uuid, now, u_rcp, u_txn, code, now'.
      by rewrite <- app_assoc.
Qed.

Lemma authorization_precedes_receipt_witness :
  exists (cs1 cs2 cs3 : list call) who method uuid now u_rcp u_txn code now',
    booking = (cs1 ++ Authorize "PAY-u1" who method uuid now
                   :: cs2 ++ Confirm "PAY-u1" u_rcp u_txn code now' :: cs3)%list.
Proof.
  apply (authorization_precedes_receipt booking "RCP-u3"
           (mkReceipt "RCP-u3" "PAY-u1" "TXN-u4" 50 "USD" "completed" "t2" "C0DE0001")).
  vm_compute. reflexivity.
Defined.

(** [authorize_payment] and [confirm_payment] change nothing of a stored
    record but its status: the amount, currency, purpose, creation time
    and metadata given at creation stay, and the record stays stored. *)
Theorem only_the_status_changes (st : AP2PaymentMock) (c : call) (p : string)
    (i : PaymentIntent) :
  is_create c = false ->
  payment_intents st !! p = Some i ->
  exists s, payment_intents (exec st c) !! p = Some (set_status s i).
Proof.
  intros Hc Hp.
  assert (set_status (status i) i = i) as Hid by by destruct i.
  destruct c as [amt purp cur meta uuid now | pid who method uuid now
                | pid u_rcp u_txn code now]; [done | |]; cbn [exec].
  - rewrite authorize_payment_eq.
    destruct (payment_intents st !! pid) as [j |] eqn:Hj;
      [| exists (status i); by rewrite Hid].
    cbn. destruct (decide (pid = p)) as [-> | Hne].
    + exists AUTHORIZED. rewrite lookup_insert_eq. congruence.
    + exists (status i). rewrite lookup_insert_ne by done. by rewrite Hid.
  - unfold confirm_payment.
    destruct (payment_intents st !! pid) as [j |] eqn:Hj;
      [| exists (status i); by rewrite Hid].
    case_decide; [| exists (status i); by rewrite Hid].
    cbn. destruct (decide (pid = p)) as [-> | Hne].
    + exists COMPLETED. rewrite lookup_insert_eq. by simplify_eq.
    + exists (status i). rewrite lookup_insert_ne by done. by rewrite Hid.
Qed.

Lemma only_the_status_changes_witness :
  exists s,
    payment_intents
      (exec (run [CreateIntent 50 "booking" "USD" None "u1" "t0"])
            (Authorize "PAY-u1" "agent_nav" "agent_signature" "u2" "t1")) !! "PAY-u1"
    = Some (set_status s (mkIntent "PAY-u1" 50 "USD" "booking" INTENT_CREATED "t0" ∅)).
Proof.
  apply (only_the_status_changes
           (run [CreateIntent 50 "booking" "USD" None "u1" "t0"])
           (Authorize "PAY-u1" "agent_nav" "agent_signature" "u2" "t1") "PAY-u1"
           (mkIntent "PAY-u1" 50 "USD" "booking" INTENT_CREATED "t0" ∅));
    reflexivity.
Defined.

(** A confirmation cannot be repeated: right after a successful
    [confirm_payment], a second one on the same id is refused with the
    not-authorized error naming the status [completed], and changes
    nothing. *)
Theorem second_confirm_is_refused (st : AP2PaymentMock) (pid : string)
    (u_rcp u_txn code now u_rcp' u_txn' code' now' : string) :
  confirm_success (snd (confirm_payment st pid u_rcp u_txn code now)) = true ->
  confirm_payment (fst (confirm_payment st pid u_rcp u_txn code now))
    pid u_rcp' u_txn' code' now'
  = (fst (confirm_payment st pid u_rcp u_txn code now),
     ConfirmNotAuthorized pid "Payment not authorized. Current status: completed").
Proof.
  unfold confirm_payment at 1 3 4.
  destruct (payment_intents st !! pid) as [i |] eqn:Hi; [| done].
  case_decide; [| done]. intros _. cbn [fst].
  unfold confirm_payment. cbn [payment_intents]. rewrite lookup_insert_eq.
  by case_decide.
Qed.

Lemma second_confirm_is_refused_witness :
  confirm_payment (run booking) "PAY-u1" "u8" "u9" "C0DE0003" "t9"
  = (run booking,
     ConfirmNotAuthorized "PAY-u1" "Payment not authorized. Current status: completed").
Proof.
  apply (second_confirm_is_refused
           (run [CreateIntent 50 "Premium workspace booking" "USD" None "u1" "t0";
                 Authorize "PAY-u1" "agent_nav" "agent_signature" "u2" "t1"])
           "PAY-u1" "u3" "u4" "C0DE0001" "t2" "u8" "u9" "C0DE0003" "t9").
  reflexivity.
Defined.

End AP2More.

(** * Further properties of the verification authority and its users *)

Module KYCMore.
Import KYC KYCAgents KYCFacts.

Lemma all_in_dict (d : gmap string pyval) (fields : list string) :
  all_in (PDict d) fields = Some (forallb (fun f => bool_decide (is_Some (d !! f))) fields).
Proof.
  induction fields as [| f fs IH]; [done |].
  cbn [all_in Py.contains_str forallb].
  destruct (bool_decide (is_Some (d !! f))); [by rewrite IH | done].
Qed.

Lemma verify_identity_incomplete (data : gmap string string) :
  (exists f, f ∈ required_fields /\ data !! f = None) ->
  _verify_identity (PDict (PStr <$> data)) = Some false.
Proof.
  intros (f & Hf & Hnone). unfold _verify_identity. rewrite all_in_dict. f_equal.
  apply not_true_is_false. intros Hall.
  rewrite forallb_forall in Hall.
  assert (bool_decide (is_Some ((PStr <$> data) !! f)) = true) as Hb.
  { apply Hall. by apply list_elem_of_In. }
  apply bool_decide_eq_true_1 in Hb. rewrite lookup_fmap, Hnone in Hb.
  by destruct Hb.
Qed.

Section WithHashlib.
Context `{Hashlib}.

(** A submission that lacks a required field: the outcome in full. *)
Lemma submission_rejected (st : KycAgent) (inv : string)
    (data : gmap string string) (mu mn uuid now_verified now_sent : string) :
  (exists f, f ∈ required_fields /\ data !! f = None) ->
  _handle_kyc_submission st (submission_message inv data mu mn) uuid now_verified now_sent
  = Some
      ({| _identity_store := _identity_store st;
          _verification_states :=
            <[inv := mkVerificationState inv REJECTED None None [] "medium" []]>
              (_verification_states st) |},
       {| message_id := uuid; message_type := KYC_VERIFICATION_RESPONSE;
          sender_agent := kyc_agent_id; recipient_agent := "InvestorAgent-" +:+ inv;
          timestamp := now_sent;
          payload :=
            <["verification_status" := PStr "rejected"]>
            (<["reason" := PStr "Identity verification failed"]> ∅) |}).
Proof.
  intros Hmiss. unfold _handle_kyc_submission, submission_message.
  simplify_map_eq. by rewrite (verify_identity_incomplete data Hmiss).
Qed.

(** One submission touches one principal. *)
Lemma submit_frame (st : KycAgent) (s : submission) (inv : string) :
  submitter s <> Some inv ->
  current_state (submit st s) inv = current_state st inv
  /\ _identity_store (submit st s) !! inv = _identity_store st !! inv.
Proof.
  unfold submitter, submit, _handle_kyc_submission, current_state.
  destruct (payload (sub_message s) !! "investor_id") as [[] |]; try done.
  intros Hne.
  destruct (payload (sub_message s) !! "identity_data") as [identity_data |]; [| done].
  destruct (_verify_identity identity_data) as [[] |]; [| | done]; cbn.
  - rewrite !lookup_insert_ne by congruence. done.
  - rewrite !lookup_insert_ne by congruence. done.
Qed.

(** Submissions of other principals change nothing for a principal: after
    any number of submissions none of which names [inv] (accepted,
    rejected or raising), the state reported for [inv] and the identity
    entry kept for [inv] are what they were; on a fresh authority this is
    the default state [not_verified] without id or permissions, and no
    identity entry. *)
Theorem other_principals_submissions_change_nothing (st : KycAgent)
    (subs : list submission) (inv : string) :
  Forall (fun s => submitter s <> Some inv) subs ->
  current_state (foldl submit st subs) inv = current_state st inv
  /\ _identity_store (foldl submit st subs) !! inv = _identity_store st !! inv
  /\ current_state (after_submissions subs) inv
     = mkVerificationState inv NOT_VERIFIED None None [] "medium" []
  /\ _identity_store (after_submissions subs) !! inv = None.
Proof.
  intros Hall.
  assert (forall st0,
            current_state (foldl submit st0 subs) inv = current_state st0 inv
            /\ _identity_store (foldl submit st0 subs) !! inv = _identity_store st0 !! inv)
    as Hframe.
  { intros st0. induction subs as [| s subs IH] using rev_ind; [done |].
    apply Forall_app in Hall as [Hsubs Hs]. apply Forall_inv in Hs.
    rewrite foldl_snoc.
    destruct (submit_frame (foldl submit st0 subs) s inv Hs) as [-> ->].
    by apply IH. }
  destruct (Hframe st) as [Hs Hi]. destruct (Hframe kyc_init) as [Hs0 Hi0].
  split; [exact Hs |]. split; [exact Hi |].
  unfold after_submissions. by rewrite Hs0, Hi0.
Qed.

Lemma stored_state_ok_submit (st : KycAgent) (s : submission) :
  map_Forall (stored_state_ok st) (_verification_states st) ->
  map_Forall (stored_state_ok (submit st s)) (_verification_states (submit st s)).
Proof.
  intros Hst. unfold submit, _handle_kyc_submission.
  destruct (payload (sub_message s) !! "investor_id") as [[| | | | inv | |] |]; try done.
  destruct (payload (sub_message s) !! "identity_data") as [identity_data |]; [| done].
  destruct (_verify_identity identity_data) as [[] |]; [| | done]; cbn;
    intros k v Hk; destruct (decide (inv = k)) as [<- | Hne].
  - rewrite lookup_insert_eq in Hk. injection Hk as <-.
    split; [done |]. split; [done |]. left. cbn.
    repeat split. do 2 eexists. split; [done |]. by rewrite lookup_insert_eq.
  - rewrite lookup_insert_ne in Hk by done.
    destruct (Hst k v Hk) as (Hid & Hrisk & Hcases).
    split; [done |]. split; [done |].
    destruct Hcases as [(Hv & Hvid & Hperm & t & h & Ht & Hstore) | Hrej]; [| by right].
    left. repeat split; try done. exists t, h. split; [done |].
    cbn. by rewrite lookup_insert_ne.
  - rewrite lookup_insert_eq in Hk. injection Hk as <-.
    split; [done |]. split; [done |]. by right.
  - rewrite lookup_insert_ne in Hk by done. by apply Hst.
Qed.

(** Every state the authority ever stores is of one of two shapes.
    Verified: the id derived from the principal's id, the four granted
    permissions, risk level "low", a verification time, and an entry of
    the identity store made at that same time.  Rejected: no id, no time,
    no permissions, risk level "medium".  The statuses [NOT_VERIFIED] and
    [PENDING] are never stored. *)
Theorem stored_states_are_well_formed (subs : list submission) :
  map_Forall (stored_state_ok (after_submissions subs))
             (_verification_states (after_submissions subs)).
Proof.
  unfold after_submissions. induction subs as [| s subs IH] using rev_ind.
  - apply map_Forall_empty.
  - rewrite foldl_snoc. by apply stored_state_ok_submit.
Qed.

(** The outcome of an investment request, in full. *)
Lemma investment_outcome (kyc : KycAgent) (c : CompanyAgent) (inv : string) (amt : Q)
    (vid : option string) (recipient mu mn : string) (d : InvestmentDraws) :
  _handle_investment_request kyc c (investment_message inv amt vid recipient mu mn) d
  = Some
      (if bool_decide (kyc_status (current_state kyc inv) = VERIFIED)
          && bool_decide (INVEST ∈ permissions (current_state kyc inv))
       then
         (fst (close_transaction (fst (open_transaction c inv (PFloat amt) d))
                 (snd (open_transaction c inv (PFloat amt) d)) TXN_COMPLETED None),
          {| message_id := resp_uuid d; message_type := INVESTMENT_RESPONSE;
             sender_agent := agent_id c; recipient_agent := "InvestorAgent-" +:+ inv;
             timestamp := resp_now d;
             payload :=
               <["transaction_id" := PStr (txn_uuid d)]>
               (<["status" := PStr "completed"]> (<["amount" := PFloat amt]> ∅)) |})
       else
         (fst (close_transaction (fst (open_transaction c inv (PFloat amt) d))
                 (snd (open_transaction c inv (PFloat amt) d)) TXN_BLOCKED
                 (Some blocked_reason)),
          {| message_id := resp_uuid d; message_type := INVESTMENT_RESPONSE;
             sender_agent := agent_id c; recipient_agent := "InvestorAgent-" +:+ inv;
             timestamp := resp_now d;
             payload :=
               <["transaction_id" := PStr (txn_uuid d)]>
               (<["status" := PStr "blocked"]>
               (<["reason" := PStr blocked_reason]> ∅)) |})).
Proof.
  unfold _handle_investment_request, investment_message.
  unfold receive_message, state_request_message, _handle_verification_state_request.
  simplify_map_eq.
  fold (current_state kyc inv). rewrite approves_to_dict.
  by destruct (bool_decide (kyc_status (current_state kyc inv) = VERIFIED)
               && bool_decide (INVEST ∈ permissions (current_state kyc inv))).
Qed.

Lemma request_served (investor : InvestorState) (kyc : KycAgent) (c : CompanyAgent)
    (amt : Q) (uuid now : string) (d : InvestmentDraws) :
  kyc_status (current_state kyc (inv_investor_id investor)) = VERIFIED ->
  INVEST ∈ permissions (current_state kyc (inv_investor_id investor)) ->
  served (request_investment investor kyc c amt uuid now d) d.
Proof.
  intros Hv Hp. unfold served, request_investment, company_receive_message.
  cbn [investment_message message_type]. rewrite investment_outcome.
  rewrite !bool_decide_eq_true_2 by done. cbn [andb].
  do 2 eexists. split; [reflexivity |]. split; [by simplify_map_eq |].
  cbn. by rewrite lookup_insert_eq.
Qed.

Lemma request_refused (investor : InvestorState) (kyc : KycAgent) (c : CompanyAgent)
    (amt : Q) (uuid now : string) (d : InvestmentDraws) :
  kyc_status (current_state kyc (inv_investor_id investor)) <> VERIFIED ->
  refused (request_investment investor kyc c amt uuid now d) d.
Proof.
  intros Hv. unfold refused, request_investment, company_receive_message.
  cbn [investment_message message_type]. rewrite investment_outcome.
  rewrite (bool_decide_eq_false_2 _ Hv). cbn [andb].
  do 2 eexists. split; [reflexivity |]. split; [by simplify_map_eq |].
  split; [by simplify_map_eq |]. cbn. by rewrite lookup_insert_eq.
Qed.

(** One verification serves every relying party.  An investor unknown to
    the authority is refused; once [submit_kyc] has gone through with all
    four required fields, the investor holds status [VERIFIED] and the
    authority's verification id, and every later request, of any amount,
    at any company sharing the authority, is served without another
    submission. *)
Theorem one_verification_serves_every_company (investor : InvestorState) (kyc : KycAgent)
    (data : gmap string string) (sd : SubmitDraws) :
  _verification_states kyc !! inv_investor_id investor = None ->
  (forall f, f ∈ required_fields -> is_Some (data !! f)) ->
  (forall c amt uuid now d, refused (request_investment investor kyc c amt uuid now d) d)
  /\ exists investor' kyc' resp,
       submit_kyc investor kyc data sd = Some (investor', kyc', resp)
       /\ inv_investor_id investor' = inv_investor_id investor
       /\ inv_kyc_status investor' = VERIFIED
       /\ inv_verification_id investor'
          = Some (make_verification_id (inv_investor_id investor))
       /\ forall c amt uuid now d,
            served (request_investment investor' kyc' c amt uuid now d) d.
Proof.
  intros Hnew Hall. split.
  - intros c amt uuid now d. apply request_refused.
    unfold current_state. by rewrite Hnew.
  - unfold submit_kyc. unfold receive_message. cbn [submission_message message_type].
    fold (submission_message (inv_investor_id investor) data (sd_msg_uuid sd) (sd_msg_now sd)).
    rewrite (submission_accepted kyc _ data _ _ _ _ _ Hall).
    cbn [payload]. simplify_map_eq.
    do 3 eexists. split; [reflexivity |]. split; [done |]. split; [done |].
    split; [done |].
    intros c amt uuid now d. apply request_served; cbn [inv_investor_id];
      unfold current_state; cbn [_verification_states]; rewrite lookup_insert_eq; cbn.
    + done.
    + set_solver.
Qed.

(** A failed resubmission revokes.  Whatever the authority held for the
    investor, after a [submit_kyc] that lacks a required field the answer
    is "rejected", the authority's state for the investor is [REJECTED]
    with no id and no permissions, its identity store is untouched, and
    every later request at any company is refused; the investor object
    has status [REJECTED] but still holds the verification id it had
    before. *)
Theorem failed_resubmission_revokes (investor : InvestorState) (kyc : KycAgent)
    (data : gmap string string) (sd : SubmitDraws) :
  (exists f, f ∈ required_fields /\ data !! f = None) ->
  exists investor' kyc' resp,
    submit_kyc investor kyc data sd = Some (investor', kyc', resp)
    /\ inv_kyc_status investor' = REJECTED
    /\ inv_verification_id investor' = inv_verification_id investor
    /\ payload resp !! "verification_status" = Some (PStr "rejected")
    /\ current_state kyc' (inv_investor_id investor)
       = mkVerificationState (inv_investor_id investor) REJECTED None None [] "medium" []
    /\ _identity_store kyc' = _identity_store kyc
    /\ forall c amt uuid now d,
         refused (request_investment investor' kyc' c amt uuid now d) d.
Proof.
  intros Hmiss. unfold submit_kyc. unfold receive_message.
  cbn [submission_message message_type].
  fold (submission_message (inv_investor_id investor) data (sd_msg_uuid sd) (sd_msg_now sd)).
  rewrite (submission_rejected kyc _ data _ _ _ _ _ Hmiss).
  cbn [payload]. simplify_map_eq.
  do 3 eexists. split; [reflexivity |]. split; [done |]. split; [done |].
  split; [by simplify_map_eq |].
  split; [unfold current_state; cbn; by rewrite lookup_insert_eq |]. split; [done |].
  intros c amt uuid now d. apply request_refused. cbn [inv_investor_id].
  unfold current_state. cbn [_verification_states]. by rewrite lookup_insert_eq.
Qed.

(** A request adds one transaction to the company's ledger and closes
    it: the ledger after the request is the ledger before with one entry
    under the drawn transaction id, whose status is [completed] (no
    reason) or [blocked] (with the reason), never [pending_verification];
    the response names that id and that status. *)
Theorem request_adds_one_closed_transaction (kyc : KycAgent) (c c' : CompanyAgent)
    (message resp : A2AMessage) (d : InvestmentDraws) :
  _handle_investment_request kyc c message d = Some (c', resp) ->
  exists t,
    transactions c' = <[txn_uuid d := t]> (transactions c)
    /\ company_id c' = company_id c
    /\ transaction_id t = txn_uuid d
    /\ txn_company_id t = company_id c
    /\ (txn_status t = TXN_COMPLETED /\ txn_reason t = None
        \/ txn_status t = TXN_BLOCKED /\ txn_reason t = Some blocked_reason)
    /\ payload resp !! "transaction_id" = Some (PStr (txn_uuid d))
    /\ payload resp !! "status" = Some (PStr (TransactionStatus_value (txn_status t))).
Proof.
  unfold _handle_investment_request.
  destruct (payload message !! "investor_id") as [[| | | | inv | |] |]; try done.
  destruct (payload message !! "amount") as [amt |]; [| done].
  destruct (is_number amt); [| done]. cbv zeta.
  destruct (receive_message _ _ _ _ _) as [[kyc' state_response] |]; [| done].
  destruct (payload state_response !! "verification_state") as [dict |]; [| done].
  destruct (approves dict) as [[] |]; [| | done]; intros [= <- <-];
    eexists; (split; [cbn; apply insert_insert_eq |]);
    cbn; repeat split; try done; try (by left); try (by right); by simplify_map_eq.
Qed.

Lemma ascii_upper_idempotent (c : ascii) : Py.ascii_upper (Py.ascii_upper c) = Py.ascii_upper c.
Proof. destruct c as [[] [] [] [] [] [] [] []]; reflexivity. Qed.

Lemma str_upper_idempotent (s : string) : Py.str_upper (Py.str_upper s) = Py.str_upper s.
Proof.
  induction s as [| c s IH]; [done |].
  cbn [Py.str_upper]. by rewrite ascii_upper_idempotent, IH.
Qed.

Lemma str_upper_length (s : string) : String.length (Py.str_upper s) = String.length s.
Proof. induction s as [| c s IH]; [done |]. cbn. by rewrite IH. Qed.

Lemma str_take_length (n : nat) (s : string) :
  String.length (Py.str_take n s) = Nat.min n (String.length s).
Proof.
  revert s. induction n as [| n IH]; intros [| c s]; try done.
  cbn. by rewrite IH.
Qed.

(** A verification id is ["KYC-"] followed by the first twelve characters
    of the digest of the principal's id (all of it, if shorter), with no
    lower-case letter left in them; with a digest of twelve characters or
    more the id is sixteen characters long. *)
Theorem verification_id_format (inv : string) :
  exists body,
    make_verification_id inv = "KYC-" +:+ body
    /\ String.length body = Nat.min 12 (String.length (sha256_hexdigest inv))
    /\ Py.str_upper body = body
    /\ String.length (make_verification_id inv)
       = (4 + Nat.min 12 (String.length (sha256_hexdigest inv)))%nat.
Proof.
  exists (Py.str_upper (Py.str_take 12 (sha256_hexdigest inv))).
  split; [done |]. split; [by rewrite str_upper_length, str_take_length |].
  split; [apply str_upper_idempotent |].
  unfold make_verification_id.
  change ("KYC-" +:+ ?b) with (String "K" (String "Y" (String "C" (String "-" b)))).
  cbn [String.length]. by rewrite str_upper_length, str_take_length.
Qed.

End WithHashlib.

Lemma other_principals_submissions_change_nothing_witness :
  current_state
    (after_submissions (H := plain_hashlib)
       [mkSubmission (submission_message "INV-001" demo_identity "m1" "t0") "u1" "t1" "t2"])
    "INV-002"
  = mkVerificationState "INV-002" NOT_VERIFIED None None [] "medium" [].
Proof.
  destruct (other_principals_submissions_change_nothing (H := plain_hashlib) kyc_init
              [mkSubmission (submission_message "INV-001" demo_identity "m1" "t0")
                 "u1" "t1" "t2"]
              "INV-002") as (_ & _ & Hstate & _); [| exact Hstate].
  constructor; [vm_compute; discriminate | constructor].
Defined.

Lemma one_verification_serves_every_company_witness :
  exists investor' kyc' resp,
    submit_kyc (H := plain_hashlib) (investor_init "INV-001" "Vansh Ranawat") kyc_init
      demo_identity (mkSubmitDraws "m1" "t0" "u1" "t1" "t2")
    = Some (investor', kyc', resp)
    /\ inv_kyc_status investor' = VERIFIED.
Proof.
  destruct (one_verification_serves_every_company (H := plain_hashlib)
              (investor_init "INV-001" "Vansh Ranawat") kyc_init demo_identity
              (mkSubmitDraws "m1" "t0" "u1" "t1" "t2"))
    as [_ (investor' & kyc' & resp & Hrun & _ & Hstatus & _)].
  - reflexivity.
  - exact demo_identity_complete.
  - by exists investor', kyc', resp.
Defined.

Lemma failed_resubmission_revokes_witness :
  exists investor' kyc' resp,
    submit_kyc (H := plain_hashlib) (investor_init "INV-001" "Vansh Ranawat") kyc_init
      (delete "address" demo_identity) (mkSubmitDraws "m1" "t0" "u1" "t1" "t2")
    = Some (investor', kyc', resp)
    /\ inv_kyc_status investor' = REJECTED.
Proof.
  destruct (failed_resubmission_revokes (H := plain_hashlib)
              (investor_init "INV-001" "Vansh Ranawat") kyc_init
              (delete "address" demo_identity) (mkSubmitDraws "m1" "t0" "u1" "t1" "t2"))
    as (investor' & kyc' & resp & Hrun & Hstatus & _).
  - exists "address". split; [| reflexivity].
    unfold required_fields. rewrite !elem_of_cons. tauto.
  - by exists investor', kyc', resp.
Defined.

Lemma request_adds_one_closed_transaction_witness :
  exists t,
    <["x1" := mkTransaction "x1" "INV-001" "COMP-A" (PFloat 50000) TXN_BLOCKED
                (Some blocked_reason) "t1"]> ∅
    = <["x1" := t]> (∅ : gmap string TransactionState)
    /\ (txn_status t = TXN_COMPLETED /\ txn_reason t = None
        \/ txn_status t = TXN_BLOCKED /\ txn_reason t = Some blocked_reason).
Proof.
  destruct (request_adds_one_closed_transaction (H := plain_hashlib) kyc_init
              (mkCompanyAgent "COMP-A" "TechVentures Inc." ∅)
              (mkCompanyAgent "COMP-A" "TechVentures Inc."
                 (<["x1" := mkTransaction "x1" "INV-001" "COMP-A" (PFloat 50000) TXN_BLOCKED
                              (Some blocked_reason) "t1"]> ∅))
              (investment_message "INV-001" 50000 None "CompanyAgent-COMP-A" "m1" "t0")
              (mkMessage "x4" INVESTMENT_RESPONSE "CompanyAgent-COMP-A" "InvestorAgent-INV-001"
                 "t4"
                 (<["transaction_id" := PStr "x1"]>
                  (<["status" := PStr "blocked"]>
                  (<["reason" := PStr blocked_reason]> ∅))))
              (mkDraws "x1" "t1" "x2" "t2" "x3" "t3" "x4" "t4"))
    as (t & Hledger & _ & _ & _ & Hst & _).
  - vm_compute. reflexivity.
  - exists t. split; [exact Hledger | exact Hst].
Defined.

End KYCMore.

(** * Further properties of the step-binding resolver *)

Module NavMore.
Import Nav NavFacts.

Lemma prefix_cons (a b : ascii) (s1 s2 : string) :
  String.prefix (String a s1) (String b s2)
  = if ascii_dec a b then String.prefix s1 s2 else false.
Proof. reflexivity. Qed.

Lemma prefix_opening_inv (text : string) :
  String.prefix "${" text = true -> exists rest, text = "${" +:+ rest.
Proof.
  destruct text as [| c1 [| c2 rest]]; try discriminate.
  - rewrite prefix_cons. by destruct (ascii_dec "$" c1).
  - rewrite !prefix_cons. destruct (ascii_dec "$" c1) as [<- |]; [| discriminate].
    destruct (ascii_dec "{" c2) as [<- |]; [| discriminate].
    intros _. by exists rest.
Qed.

Lemma str_endswith_inv (c : ascii) (s : string) :
  str_endswith (String c EmptyString) s = true ->
  exists body, s = body +:+ String c EmptyString.
Proof.
  induction s as [| x s IH]; [discriminate |].
  cbn [str_endswith]. intros Hs. apply orb_true_iff in Hs as [Heq | Hrest].
  - apply String.eqb_eq in Heq as ->. by exists "".
  - destruct (IH Hrest) as [body ->]. by exists (String x body).
Qed.

Lemma str_split_nonempty (s : string) : str_split dot s <> [].
Proof.
  destruct s as [| c s]; [done |]. cbn.
  destruct (Ascii.eqb c dot); [done |]. by destruct (str_split dot s).
Qed.

Lemma str_split_single_inv (s b : string) :
  str_split dot s = [b] -> s = b /\ has_char dot s = false.
Proof.
  revert b. induction s as [| c s IH]; intros b.
  - cbn. by intros [= <-].
  - cbn. destruct (Ascii.eqb c dot) eqn:Hc.
    + intros [= _ Hs]. by destruct (str_split_nonempty s).
    + destruct (str_split dot s) as [| p ps] eqn:Hs; [by destruct (str_split_nonempty s) |].
      intros [= <- ->]. destruct (IH p eq_refl) as [-> Hfree]. by rewrite Hfree.
Qed.

Lemma str_split_pair_inv (s a b : string) :
  str_split dot s = [a; b] ->
  s = a +:+ String dot b /\ has_char dot a = false /\ has_char dot b = false.
Proof.
  revert a. induction s as [| c s IH]; intros a; [discriminate |].
  cbn. destruct (Ascii.eqb c dot) eqn:Hc.
  - intros [= <- Hs]. apply Ascii.eqb_eq in Hc as ->.
    destruct (str_split_single_inv s b Hs) as [-> Hfree]. done.
  - destruct (str_split dot s) as [| p ps] eqn:Hs; [discriminate |].
    intros [= <- ->]. destruct (IH p eq_refl) as (-> & Hp & Hb).
    split; [done |]. split; [| done]. cbn. by rewrite Hc, Hp.
Qed.

(** What the resolver takes for a reference is a reference. *)
Lemma reference_inv (text a b : string) :
  String.prefix "${" text = true ->
  str_endswith "}" text = true ->
  str_split dot (str_drop_last (str_drop 2 text)) = [a; b] ->
  text = placeholder a b /\ has_char dot a = false /\ has_char dot b = false.
Proof.
  intros Hp He Hs. destruct (prefix_opening_inv text Hp) as [rest ->].
  assert (str_endswith "}" rest = true) as Hrest.
  { change ("${" +:+ rest) with (String "$" (String "{" rest)) in He.
    cbn [str_endswith] in He.
    apply orb_true_iff in He as [He | He]; [by destruct rest |].
    apply orb_true_iff in He as [He | He]; [| done].
    destruct rest; cbn in He; discriminate. }
  destruct (str_endswith_inv _ rest Hrest) as [body ->].
  rewrite str_drop_opening, str_drop_last_snoc in Hs.
  destruct (str_split_pair_inv body a b Hs) as (-> & Ha & Hb).
  split; [| done]. unfold placeholder. f_equal. by rewrite append_assoc.
Qed.

Lemma resolve_value_unbound (ctx : gmap string pyval) (value : pyval) :
  (forall step field, value = PStr (placeholder step field) ->
                      has_char dot step = false -> has_char dot field = false ->
                      ctx !! step = None) ->
  resolve_value ctx value = Some value.
Proof.
  intros Hfree. unfold resolve_value.
  destruct value as [| | | | text | |]; try done.
  destruct (String.prefix "${" text) eqn:Hp; [| done].
  destruct (str_endswith "}" text) eqn:He; [| done]. cbn [andb]. cbv zeta.
  destruct (str_split dot (str_drop_last (str_drop 2 text)))
    as [| a [| b [| c parts]]] eqn:Hs; try done.
  destruct (reference_inv text a b Hp He Hs) as (-> & Ha & Hb).
  by rewrite (Hfree a b eq_refl Ha Hb).
Qed.

(** The resolver consults the context only for a reference to a step
    that the context holds.  When no parameter is such a reference, the
    parameters come back exactly as given, whatever else the context
    holds (ill-shaped results included) and whatever the parameters are
    (texts like "${nodot}" or "${a.b.c}", nested dictionaries, numbers). *)
Theorem unbound_references_pass_through (ctx params : gmap string pyval) :
  (forall key step field,
      params !! key = Some (PStr (placeholder step field)) ->
      has_char dot step = false -> has_char dot field = false ->
      ctx !! step = None) ->
  _resolve_parameters ctx params = Some params.
Proof.
  unfold _resolve_parameters. revert params.
  apply (map_fold_weak_ind
           (fun (r : option (gmap string pyval)) (m : gmap string pyval) =>
              (forall key step field,
                  m !! key = Some (PStr (placeholder step field)) ->
                  has_char dot step = false -> has_char dot field = false ->
                  ctx !! step = None) ->
              r = Some m)).
  - done.
  - intros key value m r Hfresh IH Hall.
    rewrite IH.
    + rewrite (resolve_value_unbound ctx value); [done |].
      intros step field -> Hs Hf. apply (Hall key step field); [| done | done].
      by rewrite lookup_insert_eq.
    + intros k step field Hk Hs Hf. apply (Hall k step field); [| done | done].
      rewrite lookup_insert_ne; [done |]. intros ->. congruence.
Qed.

(** With nothing executed yet the resolver changes nothing. *)
Lemma unbound_references_pass_through_witness :
  _resolve_parameters ∅ ws_parameters = Some ws_parameters.
Proof.
  apply (unbound_references_pass_through ∅ ws_parameters).
  intros key step field _ _ _. apply lookup_empty.
Defined.

(** The loop, value by value: when every value resolves, the result is
    the map of the resolved values. *)
Lemma resolve_parameters_pointwise (ctx params expected : gmap string pyval) :
  (forall key, expected !! key = params !! key ≫= resolve_value ctx) ->
  (forall key value, params !! key = Some value -> is_Some (resolve_value ctx value)) ->
  _resolve_parameters ctx params = Some expected.
Proof.
  intros Hexp Htotal.
  assert (exists resolved,
            _resolve_parameters ctx params = Some resolved
            /\ forall key, resolved !! key = params !! key ≫= resolve_value ctx)
    as (resolved & -> & Hres).
  { unfold _resolve_parameters. revert Htotal. clear Hexp. revert params.
    apply (map_fold_weak_ind
             (fun (r : option (gmap string pyval)) (m : gmap string pyval) =>
                (forall key value, m !! key = Some value ->
                                   is_Some (resolve_value ctx value)) ->
                exists resolved, r = Some resolved
                  /\ forall key, resolved !! key = m !! key ≫= resolve_value ctx)).
    - intros _. exists ∅. split; [done |]. intros key. by rewrite !lookup_empty.
    - intros key value m r Hfresh IH Htotal.
      destruct IH as (resolved & -> & Hres).
      { intros k v Hk. apply (Htotal k v). rewrite lookup_insert_ne; [done |].
        intros ->. congruence. }
      destruct (Htotal key value) as [v Hv]; [apply lookup_insert_eq |]. rewrite Hv.
      eexists. split; [reflexivity |]. intros k.
      destruct (decide (key = k)) as [<- | Hne].
      + rewrite !lookup_insert_eq. cbn. by rewrite Hv.
      + rewrite !lookup_insert_ne by done. apply Hres. }
  f_equal. apply map_eq. intros key. by rewrite Hres, Hexp.
Qed.

(** Values that are not of the reference shape resolve to themselves in
    every context. *)
Lemma resolve_parameters_plain (ctx params : gmap string pyval) :
  map_Forall (fun _ value => plain value = true) params ->
  _resolve_parameters ctx params = Some params.
Proof.
  intros Hplain. apply resolve_parameters_pointwise.
  - intros key. destruct (params !! key) as [value |] eqn:Hk; [| done].
    cbn. symmetry. apply resolve_value_plain. by apply (Hplain key).
  - intros key value Hk. rewrite resolve_value_plain; [by eexists |].
    by apply (Hplain key).
Qed.

(** A reference to a step whose stored result is a dictionary with a
    dictionary (or no) data envelope. *)
Lemma resolve_value_bound (ctx : gmap string pyval) (step field : string)
    (result : gmap string pyval) :
  has_char dot step = false -> has_char dot field = false ->
  ctx !! step = Some (PDict result) ->
  (forall e, result !! "data" = Some e -> exists envelope, e = PDict envelope) ->
  resolve_value ctx (PStr (placeholder step field))
  = Some (default (PStr (placeholder step field)) (bound_value ctx step field)).
Proof.
  intros Hs Hf Hstep Hdata. unfold resolve_value.
  destruct (placeholder_parts step field Hs Hf) as (Hp & He & Hsplit).
  rewrite Hp, He. cbn [andb]. cbv zeta. rewrite Hsplit.
  unfold bound_value. rewrite Hstep.
  cbn [Py.contains_str Py.getitem_str].
  destruct (result !! "data") as [e |] eqn:Henv.
  - destruct (Hdata e eq_refl) as [envelope ->].
    rewrite bool_decide_eq_true_2 by by eexists.
    cbn [Py.contains_str Py.getitem_str].
    destruct (envelope !! field) as [v |] eqn:Hv.
    + rewrite bool_decide_eq_true_2 by by eexists. done.
    + rewrite bool_decide_eq_false_2 by (by intros [x Hx]).
      destruct (result !! field) as [w |] eqn:Hw.
      * rewrite bool_decide_eq_true_2 by by eexists. done.
      * rewrite bool_decide_eq_false_2 by (by intros [x Hx]). done.
  - rewrite bool_decide_eq_false_2 by (by intros [x Hx]).
    destruct (result !! field) as [w |] eqn:Hw.
    + rewrite bool_decide_eq_true_2 by by eexists. done.
    + rewrite bool_decide_eq_false_2 by (by intros [x Hx]). done.
Qed.

End NavMore.

(** * Properties of the tool server *)

Module MCPFacts.
Import PyRun MCP.

(** A task just created is reported as pending, under the id returned to
    the caller, with the name given, the creation time as both creation
    and update time and no result; the reports on all other ids are what
    they were. *)
Theorem created_task_is_reported_pending (st : MCPServer) (name metadata : pyval)
    (uuid now : string) :
  snd (create_task st name metadata uuid now) !! "task_id" = Some (PStr uuid)
  /\ snd (create_task st name metadata uuid now) !! "success" = Some (PBool true)
  /\ get_task_status (fst (create_task st name metadata uuid now)) uuid
     = Some (<["task_id" := PStr uuid]>
            (<["task_name" := name]>
            (<["status" := PStr "pending"]>
            (<["created_at" := PStr now]>
            (<["updated_at" := PStr now]>
            (<["result" := PNone]> ∅))))))
  /\ forall id, id <> uuid ->
       get_task_status (fst (create_task st name metadata uuid now)) id
       = get_task_status st id.
Proof.
  split; [done |]. split; [done |]. split.
  - unfold get_task_status, create_task. cbn [fst tasks].
    by rewrite lookup_insert_eq.
  - intros id Hne. unfold get_task_status, create_task. cbn [fst tasks].
    by rewrite lookup_insert_ne.
Qed.

(** Updating a task: an unknown id is ignored altogether.  For a known
    id the report shows the new status and the update time, keeps name
    and creation time, and shows the new result only when that result is
    true as a condition (an empty dictionary or [None] leaves the earlier
    result in place); other tasks are not touched. *)
Theorem update_task_status_effect (st : MCPServer) (id : string) (status : TaskStatus)
    (result : pyval) (now : string) :
  match tasks st !! id with
  | None => update_task_status st id status result now = st
  | Some task =>
      get_task_status (update_task_status st id status result now) id
      = Some (<["task_id" := PStr (task_id task)]>
             (<["task_name" := task_name task]>
             (<["status" := PStr (TaskStatus_value status)]>
             (<["created_at" := PStr (task_created_at task)]>
             (<["updated_at" := PStr now]>
             (<["result" := if truthy result then result else task_result task]> ∅))))))
  end
  /\ forall id', id' <> id ->
       get_task_status (update_task_status st id status result now) id'
       = get_task_status st id'.
Proof.
  unfold update_task_status, get_task_status.
  destruct (tasks st !! id) as [task |] eqn:Htask; (split; [| intros id' Hne]).
  - cbn [tasks]. by rewrite lookup_insert_eq.
  - cbn [tasks]. by rewrite lookup_insert_ne.
  - done.
  - done.
Qed.

(** In the range where integers and their products with 25 are floats,
    the conversion and the product are exact. *)
Lemma round53_exact (n : Z) : (Z.abs n < 2 ^ 53)%Z -> round53 n = n.
Proof.
  intros Hn. unfold round53. cbv zeta.
  by rewrite (proj2 (Z.ltb_lt _ _) Hn).
Qed.

Lemma below_float_overflow (n : Z) :
  (Z.abs n < 2 ^ 53)%Z -> (float_overflow <=? Z.abs n)%Z = false.
Proof.
  intros Hn. apply Z.leb_gt. eapply Z.lt_trans; [exact Hn |]. reflexivity.
Qed.

Lemma times_25_exact (z : Z) :
  (Z.abs (25 * z) < 2 ^ 53)%Z ->
  times_25 (PInt z) = Some (Returned (PFloat (inject_Z (25 * z)))).
Proof.
  intros Hz.
  assert (Z.abs z < 2 ^ 53)%Z as Hz' by lia.
  unfold times_25. cbv zeta.
  rewrite (round53_exact z Hz'), (below_float_overflow z Hz').
  by rewrite (round53_exact _ Hz), (below_float_overflow _ Hz).
Qed.

(** An integer of [2^1024] or more in absolute value is out of the range
    of floats. *)
Lemma round53_large (n : Z) : (2 ^ 1024 <= Z.abs n)%Z -> (2 ^ 1024 <= Z.abs (round53 n))%Z.
Proof.
  intros Hn. unfold round53. cbv zeta.
  destruct (Z.abs n <? 2 ^ 53)%Z eqn:Hsmall.
  { apply Z.ltb_lt in Hsmall. exfalso.
    assert (2 ^ 53 < 2 ^ 1024)%Z by reflexivity. lia. }
  set (a := Z.abs n) in *.
  assert (0 < a)%Z as Hpos by (assert (0 < 2 ^ 1024)%Z by reflexivity; lia).
  assert (1024 <= Z.log2 a)%Z as Hlog.
  { change 1024%Z with (Z.log2 (2 ^ 1024)). by apply Z.log2_le_mono. }
  set (e := (Z.log2 a - 52)%Z).
  assert (0 <= e)%Z as He by (unfold e; lia).
  pose proof (Z.log2_spec a Hpos) as [Hlow _].
  assert (2 ^ 52 <= Z.shiftr a e)%Z as Hq.
  { rewrite Z.shiftr_div_pow2 by done.
    apply Z.div_le_lower_bound; [by apply Z.pow_pos_nonneg |].
    rewrite <- Z.pow_add_r by lia.
    replace (e + 52)%Z with (Z.log2 a) by (unfold e; lia). done. }
  set (q := Z.shiftr a e) in *.
  assert (forall q', (q <= q')%Z -> (2 ^ 1024 <= Z.abs (Z.sgn n * Z.shiftl q' e))%Z) as Hany.
  { intros q' Hq'.
    assert (2 ^ 1024 <= Z.shiftl q' e)%Z as Hbig.
    { rewrite Z.shiftl_mul_pow2 by done.
      assert (0 < 2 ^ e)%Z as Hpow by (by apply Z.pow_pos_nonneg).
      apply Z.le_trans with (2 ^ 52 * 2 ^ e)%Z; [| nia].
      rewrite <- Z.pow_add_r by lia.
      apply Z.pow_le_mono_r; [done |]. unfold e. lia. }
    assert (0 < 2 ^ 1024)%Z by reflexivity.
    destruct (Z.sgn_spec n) as [[Hs ->] | [[Hs ->] | [Hs ->]]]; unfold a in *; lia. }
  match goal with
  | |- context [Z.shiftl (if ?c then _ else _) e] => destruct c
  end; apply Hany; lia.
Qed.

Lemma times_25_overflow (z : Z) :
  (2 ^ 1024 <= Z.abs z)%Z ->
  times_25 (PInt z) = Some (Raised (OverflowError "int too large to convert to float")).
Proof.
  intros Hz. unfold times_25. cbv zeta.
  change float_overflow with (2 ^ 1024)%Z.
  by rewrite (proj2 (Z.leb_le _ _) (round53_large z Hz)).
Qed.

(** [find_workspace] prices by the hour.  With an integer duration [z]
    (1 when none is given) whose product with 25 is below [2^53], so that
    the float product is exact, the answer is a success whose data quote
    25 per hour and [25 * z] in total under a fresh ["WS-"] id.  An
    exception of the handler does not leave [execute_action]: an integer
    of [2^1024] or more, and a duration that cannot be multiplied (a
    text, [None], a list, a dictionary), give the failure dictionary
    carrying the exception's text. *)
Theorem find_workspace_prices_by_the_hour (parameters : gmap string pyval) (d : ActionDraws) :
  match get parameters "duration_hours" (PInt 1) with
  | PInt z =>
      ((Z.abs (25 * z) < 2 ^ 53)%Z ->
       exists answer data,
         execute_action "find_workspace" parameters d = Some answer
         /\ answer !! "success" = Some (PBool true)
         /\ answer !! "error" = Some PNone
         /\ answer !! "data" = Some (PDict data)
         /\ data !! "workspace_id" = Some (PStr ("WS-" +:+ Py.str_take 8 (ad_uuid d)))
         /\ data !! "duration_hours" = Some (PInt z)
         /\ data !! "price_per_hour" = Some (PFloat 25)
         /\ data !! "total_price" = Some (PFloat (inject_Z (25 * z)))
         /\ data !! "type" = Some (get parameters "type" (PStr "premium")))
      /\ ((2 ^ 1024 <= Z.abs z)%Z ->
          execute_action "find_workspace" parameters d
          = Some (action_failure "find_workspace"
                    "int too large to convert to float" (ad_now d)))
  | PStr _ | PList _ =>
      execute_action "find_workspace" parameters d
      = Some (action_failure "find_workspace"
                "can't multiply sequence by non-int of type 'float'" (ad_now d))
  | PNone =>
      execute_action "find_workspace" parameters d
      = Some (action_failure "find_workspace"
                "unsupported operand type(s) for *: 'float' and 'NoneType'" (ad_now d))
  | PDict _ =>
      execute_action "find_workspace" parameters d
      = Some (action_failure "find_workspace"
                "unsupported operand type(s) for *: 'float' and 'dict'" (ad_now d))
  | PBool _ | PFloat _ =>
      exists answer,
        execute_action "find_workspace" parameters d = Some answer
        /\ answer !! "success" = Some (PBool true)
  end.
Proof.
  unfold execute_action.
  change (action_handler "find_workspace") with (Some _find_workspace).
  unfold _find_workspace. cbv zeta.
  destruct (get parameters "duration_hours" (PInt 1)) as [| b | z | q | s | l | dd];
    try (cbn [times_25 exn_text]; done);
    try (cbn [times_25]; eexists; split; [reflexivity | done]).
  split.
  - intros Hz. rewrite (times_25_exact z Hz).
    do 2 eexists. split; [reflexivity |].
    split; [done |]. split; [done |]. split; [by simplify_map_eq |].
    repeat split; by simplify_map_eq.
  - intros Hz. by rewrite (times_25_overflow z Hz).
Qed.

Lemma find_workspace_prices_by_the_hour_witness :
  exists answer data,
    execute_action "find_workspace"
      (<["duration_hours" := PInt 2]> (<["type" := PStr "premium"]> ∅))
      (mkActionDraws "1f0e5c2a-77aa" "9b7d44e1-03cc" "t3" "t4")
    = Some answer
    /\ answer !! "data" = Some (PDict data)
    /\ data !! "total_price" = Some (PFloat 50).
Proof.
  destruct (find_workspace_prices_by_the_hour
              (<["duration_hours" := PInt 2]> (<["type" := PStr "premium"]> ∅))
              (mkActionDraws "1f0e5c2a-77aa" "9b7d44e1-03cc" "t3" "t4")) as [Hexact _].
  destruct (Hexact eq_refl) as (answer & data & Hrun & _ & _ & Hdata & _ & _ & _ & Htotal & _).
  exists answer, data. split; [exact Hrun |]. split; [exact Hdata | exact Htotal].
Defined.

End MCPFacts.

(** * Properties of the executor *)

Module ExecutorFacts.
Import PyRun MCP Executor.

Lemma payment_flow_amount (engine : AP2.AP2PaymentMock) (agent_id : string)
    (parameters : gmap string pyval) (d : NavDraws) (q : Q) (purp : string) :
  get parameters "amount" (PFloat 0) = PFloat q ->
  get parameters "purpose" (PStr "Payment") = PStr purp ->
  _handle_payment_flow engine agent_id parameters d
  = Some (paid_engine engine agent_id q purp parameters d,
          Returned (receipt_dict (paid_receipt q d) purp)).
Proof.
  intros Ha Hp. unfold _handle_payment_flow. rewrite Ha, Hp. cbv zeta.
  cbn [AP2.create_payment_intent fst snd AP2.ir_payment_id].
  rewrite AP2More.authorize_payment_eq.
  cbn [AP2.update_intent AP2.payment_intents]. rewrite lookup_insert_eq.
  cbn [fst snd AP2.auth_success].
  unfold AP2.confirm_payment. cbn [AP2.payment_intents]. rewrite lookup_insert_eq.
  cbn [AP2.set_status AP2.status]. rewrite decide_True by done.
  done.
Qed.

(** A payment step with a float amount cannot fail.  With a float amount
    (0.0 when none is given) and a text purpose ("Payment" when none is
    given) the flow goes through all three stages and returns the
    receipt: status "completed", the amount and purpose asked for, the
    id of the intent it created.  The engine then holds that intent as
    [COMPLETED] with the step's parameters as metadata, together with
    the authorization by the executor and the receipt.  With an amount
    that is no number and that [:.2f] cannot format (a text, [None], a
    list, a dictionary) the flow raises before it touches the engine. *)
Theorem payment_flow_completes (engine : AP2.AP2PaymentMock) (agent_id : string)
    (parameters : gmap string pyval) (d : NavDraws) :
  (forall q purp,
      get parameters "amount" (PFloat 0) = PFloat q ->
      get parameters "purpose" (PStr "Payment") = PStr purp ->
      exists engine' receipt,
        _handle_payment_flow engine agent_id parameters d
        = Some (engine', Returned receipt)
        /\ receipt !! "success" = Some (PBool true)
        /\ receipt !! "status" = Some (PStr "completed")
        /\ receipt !! "amount" = Some (PFloat q)
        /\ receipt !! "purpose" = Some (PStr purp)
        /\ receipt !! "payment_id" = Some (PStr ("PAY-" +:+ nd_intent_uuid d))
        /\ AP2.payment_intents engine' !! ("PAY-" +:+ nd_intent_uuid d)
           = Some (AP2.mkIntent ("PAY-" +:+ nd_intent_uuid d) q "USD" purp AP2.COMPLETED
                     (nd_intent_now d) parameters)
        /\ AP2.authorized_by <$> AP2.authorizations engine' !! ("AUTH-" +:+ nd_auth_uuid d)
           = Some agent_id
        /\ AP2.rcp_payment_id <$> AP2.receipts engine' !! ("RCP-" +:+ nd_rcp_uuid d)
           = Some ("PAY-" +:+ nd_intent_uuid d))
  /\ (forall amount,
        get parameters "amount" (PFloat 0) = amount ->
        match amount with
        | PStr _ | PNone | PList _ | PDict _ => True
        | PBool _ | PInt _ | PFloat _ => False
        end ->
        _handle_payment_flow engine agent_id parameters d
        = Some (engine, Raised (format_2f_error amount))).
Proof.
  split.
  - intros q purp Ha Hp.
    rewrite (payment_flow_amount engine agent_id parameters d q purp Ha Hp).
    do 2 eexists. split; [reflexivity |].
    unfold receipt_dict, paid_receipt, paid_engine. cbn.
    repeat split; try (by simplify_map_eq).
  - intros amount Ha Hno. unfold _handle_payment_flow. rewrite Ha.
    by destruct amount.
Qed.

Lemma payment_flow_completes_witness :
  exists engine' receipt,
    _handle_payment_flow AP2.init "agent_nav"
      (<["amount" := PFloat 50]> (<["purpose" := PStr "premium workspace for 2h"]> ∅))
      (Demo.sample_draws 2)
    = Some (engine', Returned receipt)
    /\ receipt !! "status" = Some (PStr "completed")
    /\ receipt !! "amount" = Some (PFloat 50)
    /\ AP2.status <$> AP2.payment_intents engine' !! "PAY-intent-2" = Some AP2.COMPLETED.
Proof.
  destruct (payment_flow_completes AP2.init "agent_nav"
              (<["amount" := PFloat 50]> (<["purpose" := PStr "premium workspace for 2h"]> ∅))
              (Demo.sample_draws 2)) as [Hflow _].
  destruct (Hflow 50%Q "premium workspace for 2h" eq_refl eq_refl)
    as (engine' & receipt & Hrun & _ & Hstatus & Hamount & _ & _ & Hintent & _).
  exists engine', receipt. split; [exact Hrun |]. split; [exact Hstatus |].
  split; [exact Hamount |]. exact (f_equal (fmap AP2.status) Hintent).
Defined.

Lemma truthy_dict (m : gmap string pyval) (k : string) (v : pyval) :
  m !! k = Some v -> truthy (PDict m) = true.
Proof.
  intros Hk. cbn. apply negb_true_iff, Nat.eqb_neq. intros Hsize.
  apply map_size_empty_iff in Hsize. subst. by rewrite lookup_empty in Hk.
Qed.

(** A delegation whose parameters resolve and whose action is routed:
    the answer and the navigator afterwards, in full. *)
Lemma delegation_step (nav : AgentNav) (message : AgentMessage) (step : gmap string pyval)
    (number : Z) (action : string) (parameters resolved : gmap string pyval)
    (server : MCPServer) (engine : AP2.AP2PaymentMock)
    (o : outcome (gmap string pyval)) (d : NavDraws) :
  carries_step message step number action parameters ->
  Nav._resolve_parameters (execution_context nav) parameters = Some resolved ->
  route nav (PStr action) resolved d = Some (server, engine, o) ->
  receive_a2a_message nav message d
  = Some
      match o with
      | Returned result =>
          (after_success nav message number action server engine result d,
           Returned (delegation_success ("EXEC-" +:+ Py.str_take 8 (nd_exec_uuid d))
                       (PInt number) (PStr action) result))
      | Raised e =>
          (after_failure nav message number action server engine e d,
           Returned (delegation_failure ("EXEC-" +:+ Py.str_take 8 (nd_exec_uuid d))
                       (PInt number) (PStr action) (exn_text e)))
      end.
Proof.
  intros (Htype & Hstep & Hnum & Hact & Hpar) Hres Hroute.
  unfold receive_a2a_message. rewrite Htype. cbn [String.eqb Ascii.eqb Bool.eqb].
  change ("task_delegation" =? "task_delegation")%string with true. cbv iota.
  assert (get (am_payload message) "step" PNone = PDict step) as Hget
    by (unfold get; by rewrite Hstep).
  unfold _handle_task_delegation. cbv zeta. cbn [am_payload]. rewrite !Hget.
  rewrite (truthy_dict step _ _ Hnum). cbn [negb].
  rewrite Hnum, Hact.
  unfold _execute_action. rewrite Hact, Hpar. cbn [execution_context].
  rewrite Hres.
  change (route _ (PStr action) resolved d) with (route nav (PStr action) resolved d).
  rewrite Hroute. cbn [format].
  destruct o as [result | e]; unfold after_success, after_failure; cbn;
    by rewrite insert_insert_eq.
Qed.

Lemma delegation_success_is_true (eid : string) (number action : pyval)
    (result : gmap string pyval) :
  truthy (get (delegation_success eid number action result) "success" PNone) = true.
Proof. reflexivity. Qed.

(** The three kinds of step that are carried out. *)
Lemma create_task_step (nav : AgentNav) (message : AgentMessage) (step : gmap string pyval)
    (number : Z) (parameters resolved : gmap string pyval) (d : NavDraws) :
  carries_step message step number "create_task" parameters ->
  Nav._resolve_parameters (execution_context nav) parameters = Some resolved ->
  receive_a2a_message nav message d
  = Some (after_success nav message number "create_task"
            (fst (_call_mcp_create_task (mcp_server nav) resolved d)) (ap2 nav)
            (snd (_call_mcp_create_task (mcp_server nav) resolved d)) d,
          Returned (delegation_success ("EXEC-" +:+ Py.str_take 8 (nd_exec_uuid d))
                      (PInt number) (PStr "create_task")
                      (snd (_call_mcp_create_task (mcp_server nav) resolved d)))).
Proof.
  intros Hstep Hres.
  by rewrite (delegation_step nav message step number "create_task" parameters resolved
                (fst (_call_mcp_create_task (mcp_server nav) resolved d)) (ap2 nav)
                (Returned (snd (_call_mcp_create_task (mcp_server nav) resolved d)))
                d Hstep Hres).
Qed.

Lemma generic_action_step (nav : AgentNav) (message : AgentMessage)
    (step : gmap string pyval) (number : Z) (action : string)
    (parameters resolved result : gmap string pyval) (d : NavDraws) :
  carries_step message step number action parameters ->
  Nav._resolve_parameters (execution_context nav) parameters = Some resolved ->
  bool_decide (action ∈ generic_actions) = true ->
  execute_action action resolved (nd_action d) = Some result ->
  receive_a2a_message nav message d
  = Some (after_success nav message number action (mcp_server nav) (ap2 nav) result d,
          Returned (delegation_success ("EXEC-" +:+ Py.str_take 8 (nd_exec_uuid d))
                      (PInt number) (PStr action) result)).
Proof.
  intros Hstep Hres Hin Hrun.
  rewrite (delegation_step nav message step number action parameters resolved
             (mcp_server nav) (ap2 nav) (Returned result) d Hstep Hres);
    [done |].
  apply bool_decide_eq_true_1 in Hin. unfold generic_actions in Hin.
  rewrite !elem_of_cons, elem_of_nil in Hin.
  destruct Hin as [-> | [-> | [-> | [-> | [-> | []]]]]];
    unfold route; cbn [String.eqb Ascii.eqb Bool.eqb];
    by rewrite Hrun.
Qed.

Lemma payment_step (nav : AgentNav) (message : AgentMessage) (step : gmap string pyval)
    (number : Z) (parameters resolved : gmap string pyval) (q : Q) (purp : string)
    (d : NavDraws) :
  carries_step message step number "request_payment" parameters ->
  Nav._resolve_parameters (execution_context nav) parameters = Some resolved ->
  get resolved "amount" (PFloat 0) = PFloat q ->
  get resolved "purpose" (PStr "Payment") = PStr purp ->
  receive_a2a_message nav message d
  = Some (after_success nav message number "request_payment" (mcp_server nav)
            (paid_engine (ap2 nav) (nav_agent_id nav) q purp resolved d)
            (receipt_dict (paid_receipt q d) purp) d,
          Returned (delegation_success ("EXEC-" +:+ Py.str_take 8 (nd_exec_uuid d))
                      (PInt number) (PStr "request_payment")
                      (receipt_dict (paid_receipt q d) purp))).
Proof.
  intros Hstep Hres Ha Hp.
  rewrite (delegation_step nav message step number "request_payment" parameters resolved
             (mcp_server nav)
             (paid_engine (ap2 nav) (nav_agent_id nav) q purp resolved d)
             (Returned (receipt_dict (paid_receipt q d) purp)) d Hstep Hres);
    [done |].
  unfold route. cbn [String.eqb Ascii.eqb Bool.eqb].
  change ("request_payment" =? "create_task")%string with false.
  change ("request_payment" =? "request_payment")%string with true. cbv iota.
  by rewrite (payment_flow_amount _ _ _ _ q purp Ha Hp).
Qed.

Lemma not_routed (a : string) :
  a ∉ routed_actions ->
  String.eqb a "create_task" = false
  /\ String.eqb a "request_payment" = false
  /\ bool_decide (a ∈ generic_actions) = false.
Proof.
  unfold routed_actions. intros Hnot.
  split; [apply String.eqb_neq; intros ->; apply Hnot; set_solver |].
  split; [apply String.eqb_neq; intros ->; apply Hnot; set_solver |].
  apply bool_decide_eq_false_2. intros Hin. apply Hnot.
  apply elem_of_cons. right. apply elem_of_cons. by right.
Qed.

(** An action the executor does not know fails the step and nothing
    else: the answer is a failure naming the action, the execution is
    recorded as "failed" with the same text, and the context, the tool
    server and the payment engine are left as they were. *)
Theorem unknown_action_fails_the_step (nav : AgentNav) (message : AgentMessage)
    (step : gmap string pyval) (number : Z) (action : string)
    (parameters resolved : gmap string pyval) (d : NavDraws) :
  carries_step message step number action parameters ->
  Nav._resolve_parameters (execution_context nav) parameters = Some resolved ->
  action ∉ routed_actions ->
  exists nav' answer execution,
    receive_a2a_message nav message d = Some (nav', Returned answer)
    /\ answer !! "success" = Some (PBool false)
    /\ answer !! "error" = Some (PStr ("Unknown action: " +:+ action))
    /\ executions nav' !! ("EXEC-" +:+ Py.str_take 8 (nd_exec_uuid d)) = Some execution
    /\ ex_status execution = "failed"
    /\ ex_error execution = Some ("Unknown action: " +:+ action)
    /\ execution_context nav' = execution_context nav
    /\ mcp_server nav' = mcp_server nav
    /\ ap2 nav' = ap2 nav.
Proof.
  intros Hstep Hres Hnot. destruct (not_routed action Hnot) as (H1 & H2 & H3).
  rewrite (delegation_step nav message step number action parameters resolved
             (mcp_server nav) (ap2 nav)
             (Raised (ValueError ("Unknown action: " +:+ action))) d Hstep Hres).
  - do 3 eexists. split; [reflexivity |].
    split; [by simplify_map_eq |]. split; [by simplify_map_eq |].
    split; [cbn; apply lookup_insert_eq |]. done.
  - unfold route. by rewrite H1, H2, H3.
Qed.

Lemma unknown_action_fails_the_step_witness :
  exists nav' answer execution,
    receive_a2a_message (nav_init "agent_nav") (Demo.single_step_message "fly" ∅)
      (Demo.sample_draws 0)
    = Some (nav', Returned answer)
    /\ answer !! "success" = Some (PBool false)
    /\ answer !! "error" = Some (PStr "Unknown action: fly")
    /\ executions nav' !! "EXEC-exec-0" = Some execution
    /\ ex_status execution = "failed"
    /\ ex_error execution = Some "Unknown action: fly"
    /\ execution_context nav' = ∅
    /\ mcp_server nav' = mcp_init
    /\ ap2 nav' = AP2.init.
Proof.
  apply (unknown_action_fails_the_step (nav_init "agent_nav")
           (Demo.single_step_message "fly" ∅)
           (Planner.asdict (Planner.mkStep 1 "fly" "Test step" ∅ [] "agent_nav"))
           1 "fly" ∅ ∅ (Demo.sample_draws 0)).
  - vm_compute. repeat split; reflexivity.
  - vm_compute. reflexivity.
  - apply (bool_decide_unpack _). vm_compute. exact I.
Defined.

(** The executor reports success for actions the tool server does not
    have.  For "gather_information" and "analyze_data" the step is
    answered with success, recorded as "completed" and its result stored
    in the context, although that result is the tool server's failure
    dictionary "Unknown action". *)
Theorem unhandled_actions_are_reported_as_success (nav : AgentNav)
    (message : AgentMessage) (step : gmap string pyval) (number : Z) (action : string)
    (parameters resolved : gmap string pyval) (d : NavDraws) :
  carries_step message step number action parameters ->
  Nav._resolve_parameters (execution_context nav) parameters = Some resolved ->
  action = "gather_information" \/ action = "analyze_data" ->
  exists nav' answer execution,
    receive_a2a_message nav message d = Some (nav', Returned answer)
    /\ answer !! "success" = Some (PBool true)
    /\ answer !! "result"
       = Some (PDict (action_failure action ("Unknown action: " +:+ action)
                        (ad_now (nd_action d))))
    /\ executions nav' !! ("EXEC-" +:+ Py.str_take 8 (nd_exec_uuid d)) = Some execution
    /\ ex_status execution = "completed"
    /\ execution_context nav' !! ("step" +:+ pretty number)
       = Some (PDict (action_failure action ("Unknown action: " +:+ action)
                        (ad_now (nd_action d)))).
Proof.
  intros Hstep Hres Hact.
  rewrite (delegation_step nav message step number action parameters resolved
             (mcp_server nav) (ap2 nav)
             (Returned (action_failure action ("Unknown action: " +:+ action)
                          (ad_now (nd_action d)))) d Hstep Hres).
  - do 3 eexists. split; [reflexivity |].
    split; [by simplify_map_eq |]. split; [by simplify_map_eq |].
    split; [cbn; apply lookup_insert_eq |]. split; [done |].
    cbn. apply lookup_insert_eq.
  - destruct Hact as [-> | ->]; reflexivity.
Qed.

Lemma unhandled_actions_are_reported_as_success_witness :
  exists nav' answer execution,
    receive_a2a_message (nav_init "agent_nav")
      (Demo.single_step_message "analyze_data" (<["analysis_type" := PStr "summary"]> ∅))
      (Demo.sample_draws 0)
    = Some (nav', Returned answer)
    /\ answer !! "success" = Some (PBool true)
    /\ answer !! "result"
       = Some (PDict (action_failure "analyze_data" "Unknown action: analyze_data" "t4"))
    /\ executions nav' !! "EXEC-exec-0" = Some execution
    /\ ex_status execution = "completed"
    /\ execution_context nav' !! "step1"
       = Some (PDict (action_failure "analyze_data" "Unknown action: analyze_data" "t4")).
Proof.
  apply (unhandled_actions_are_reported_as_success (nav_init "agent_nav")
           (Demo.single_step_message "analyze_data"
              (<["analysis_type" := PStr "summary"]> ∅))
           (Planner.asdict
              (Planner.mkStep 1 "analyze_data" "Test step"
                 (<["analysis_type" := PStr "summary"]> ∅) [] "agent_nav"))
           1 "analyze_data" (<["analysis_type" := PStr "summary"]> ∅)
           (<["analysis_type" := PStr "summary"]> ∅) (Demo.sample_draws 0)).
  - vm_compute. repeat split; reflexivity.
  - vm_compute. reflexivity.
  - by right.
Defined.

Lemma receive_logs_the_message (nav nav' : AgentNav) (message : AgentMessage)
    (d : NavDraws) (o : outcome (gmap string pyval)) :
  receive_a2a_message nav message d = Some (nav', o) ->
  message_history nav' = (message_history nav ++ [message])%list.
Proof.
  unfold receive_a2a_message.
  destruct (String.eqb (am_message_type message) "task_delegation");
    [| by intros [= <- <-]].
  unfold _handle_task_delegation. cbv zeta. cbn [am_payload].
  destruct (truthy (get (am_payload message) "step" PNone)); cbn [negb];
    [| by intros [= <- <-]].
  destruct (get (am_payload message) "step" PNone) as [| | | | | | step];
    try (by intros [= <- <-]).
  destruct (step !! "step_number") as [step_number |]; [| by intros [= <- <-]].
  destruct (step !! "action") as [action |]; [| by intros [= <- <-]].
  destruct (_execute_action _ step d) as [[[server engine] [result | e]] |]; [| | done];
    (destruct (format step_number) as [number |]; [| done]); by intros [= <- <-].
Qed.

(** What an answer of the executor says about its state.  Every
    message is logged.  An answer with [success = True] means exactly one
    new binding in the context, from the step's key to the result the
    answer carries; an answer with [success = False] or without a
    [success] entry (a message that is no delegation, or carries no step)
    means the context is unchanged, and in the latter case so are the
    execution records, the tool server and the payment engine.  When the
    method raises, which it does with a [KeyError] for a step dictionary
    without number or action and with a [TypeError] for a step that is
    true as a condition but no dictionary, nothing but the log has
    changed. *)
Theorem context_grows_only_on_success (nav nav' : AgentNav) (message : AgentMessage)
    (d : NavDraws) (o : outcome (gmap string pyval)) :
  receive_a2a_message nav message d = Some (nav', o) ->
  message_history nav' = (message_history nav ++ [message])%list
  /\ nav_agent_id nav' = nav_agent_id nav
  /\ match o with
     | Raised e =>
         match get (am_payload message) "step" PNone with
         | PDict _ => e = KeyError "step_number" \/ e = KeyError "action"
         | _ => exists msg, e = TypeError msg
         end
         /\ executions nav' = executions nav
         /\ execution_context nav' = execution_context nav
         /\ mcp_server nav' = mcp_server nav /\ ap2 nav' = ap2 nav
     | Returned answer =>
         match answer !! "success" with
         | Some (PBool true) =>
             exists number result,
               answer !! "result" = Some (PDict result)
               /\ execution_context nav'
                  = <["step" +:+ number := PDict result]> (execution_context nav)
         | Some _ =>
             is_Some (answer !! "error")
             /\ execution_context nav' = execution_context nav
         | None =>
             is_Some (answer !! "error")
             /\ executions nav' = executions nav
             /\ execution_context nav' = execution_context nav
             /\ mcp_server nav' = mcp_server nav /\ ap2 nav' = ap2 nav
         end
     end.
Proof.
  unfold receive_a2a_message.
  destruct (String.eqb (am_message_type message) "task_delegation").
  - unfold _handle_task_delegation. cbv zeta. cbn [am_payload].
    destruct (truthy (get (am_payload message) "step" PNone)); cbn [negb].
    + destruct (get (am_payload message) "step" PNone) as [| b | z | q | text | l | step];
        try (intros [= <- <-]; cbn; repeat split; by eexists).
      destruct (step !! "step_number") as [step_number |];
        [| intros [= <- <-]; cbn; by repeat split; try (by left)].
      destruct (step !! "action") as [action |];
        [| intros [= <- <-]; cbn; by repeat split; try (by right)].
      destruct (_execute_action _ step d) as [[[server engine] [result | e]] |];
        [| | done];
        (destruct (format step_number) as [number |]; [| done]);
        intros [= <- <-]; cbn [message_history nav_agent_id execution_context];
        (split; [done |]); (split; [done |]).
      * unfold delegation_success. simplify_map_eq. by exists number, result.
      * unfold delegation_failure. simplify_map_eq. split; [by eexists | done].
    + intros [= <- <-]. cbn. simplify_map_eq. repeat split; try done; by eexists.
  - intros [= <- <-]. cbn. simplify_map_eq. repeat split; try done; by eexists.
Qed.

Lemma context_grows_only_on_success_witness :
  exists number result,
    delegation_success "EXEC-exec-0" (PInt 1) (PStr "find_workspace")
      (Demo.workspace_answer 2 "premium" (nd_action (Demo.sample_draws 0)))
    !! "result" = Some (PDict result)
    /\ execution_context
         (after_success (nav_init "agent_nav")
            (Demo.single_step_message "find_workspace" (<["duration_hours" := PInt 2]> ∅))
            1 "find_workspace" mcp_init AP2.init
            (Demo.workspace_answer 2 "premium" (nd_action (Demo.sample_draws 0)))
            (Demo.sample_draws 0))
       = <["step" +:+ number := PDict result]> (execution_context (nav_init "agent_nav")).
Proof.
  destruct (context_grows_only_on_success (nav_init "agent_nav")
              (after_success (nav_init "agent_nav")
                 (Demo.single_step_message "find_workspace"
                    (<["duration_hours" := PInt 2]> ∅))
                 1 "find_workspace" mcp_init AP2.init
                 (Demo.workspace_answer 2 "premium" (nd_action (Demo.sample_draws 0)))
                 (Demo.sample_draws 0))
              (Demo.single_step_message "find_workspace" (<["duration_hours" := PInt 2]> ∅))
              (Demo.sample_draws 0)
              (Returned
                 (delegation_success "EXEC-exec-0" (PInt 1) (PStr "find_workspace")
                    (Demo.workspace_answer 2 "premium" (nd_action (Demo.sample_draws 0))))))
    as (_ & _ & Hcontext).
  - vm_compute. reflexivity.
  - exact Hcontext.
Defined.

End ExecutorFacts.

(** * The resolver on the contexts of the executor *)

Module ResolverFacts.
Import PyRun MCP Executor Nav NavFacts.

(** What the executor stores as a step result: the answer of
    [create_task] and the payment receipt carry no ["data"] entry, and
    the ["data"] entry of an answer of [execute_action] is the dictionary
    the handler returned. *)
Lemma payment_result_has_no_data (engine engine' : AP2.AP2PaymentMock) (agent_id : string)
    (parameters result : gmap string pyval) (d : NavDraws) :
  _handle_payment_flow engine agent_id parameters d = Some (engine', Returned result) ->
  result !! "data" = None.
Proof.
  unfold _handle_payment_flow. cbv zeta.
  destruct (get parameters "amount" (PFloat 0)) as [| b | z | q | s | l | dd]; try done.
  destruct (get parameters "purpose" (PStr "Payment")) as [| | | | purp | |]; try done.
  destruct (AP2.auth_success _); [| done].
  destruct (snd (AP2.confirm_payment _ _ _ _ _ _)) as [e | pid e | r purp']; try done.
  by intros [= _ <-].
Qed.

Lemma action_result_data (action : string) (parameters result : gmap string pyval)
    (d : ActionDraws) (e : pyval) :
  execute_action action parameters d = Some result ->
  result !! "data" = Some e -> exists envelope, e = PDict envelope.
Proof.
  unfold execute_action.
  destruct (action_handler action) as [handler |]; [| by intros [= <-]].
  destruct (handler parameters d) as [[data | exn] |]; [| by intros [= <-] | done].
  intros [= <-] He. exists data.
  rewrite lookup_insert_ne in He by done. rewrite lookup_insert_ne in He by done.
  rewrite lookup_insert_eq in He. by injection He as <-.
Qed.

Lemma route_result_data (nav : AgentNav) (action : pyval) (resolved result : gmap string pyval)
    (d : NavDraws) (server : MCPServer) (engine : AP2.AP2PaymentMock) (e : pyval) :
  route nav action resolved d = Some (server, engine, Returned result) ->
  result !! "data" = Some e -> exists envelope, e = PDict envelope.
Proof.
  unfold route. destruct action as [| | | | a | |]; try done.
  destruct (String.eqb a "create_task").
  { intros [= _ _ <-] He. by simplify_map_eq. }
  destruct (String.eqb a "request_payment").
  { destruct (_handle_payment_flow _ _ resolved d) as [[engine' o] |] eqn:Hflow; [| done].
    intros [= _ _ ->]. by rewrite (payment_result_has_no_data _ _ _ _ _ _ Hflow). }
  destruct (bool_decide (a ∈ generic_actions)); [| done].
  destruct (execute_action a resolved (nd_action d)) as [r |] eqn:Hrun; [| done].
  intros [= _ _ <-]. by apply (action_result_data a resolved r (nd_action d)).
Qed.

Lemma results_are_dicts_insert (ctx : gmap string pyval) (key : string)
    (result : gmap string pyval) :
  results_are_dicts ctx ->
  (forall e, result !! "data" = Some e -> exists envelope, e = PDict envelope) ->
  results_are_dicts (<[key := PDict result]> ctx).
Proof.
  intros Hctx Hresult step r Hstep.
  destruct (decide (key = step)) as [<- | Hne].
  - rewrite lookup_insert_eq in Hstep. injection Hstep as <-. by exists result.
  - rewrite lookup_insert_ne in Hstep by done. by apply (Hctx step).
Qed.

(** A delivery keeps the context one of step results. *)
Lemma receive_keeps_results (nav nav' : AgentNav) (message : AgentMessage) (d : NavDraws)
    (o : outcome (gmap string pyval)) :
  receive_a2a_message nav message d = Some (nav', o) ->
  results_are_dicts (execution_context nav) ->
  results_are_dicts (execution_context nav').
Proof.
  unfold receive_a2a_message.
  destruct (String.eqb (am_message_type message) "task_delegation");
    [| by intros [= <- <-]].
  unfold _handle_task_delegation. cbv zeta. cbn [am_payload].
  destruct (truthy (get (am_payload message) "step" PNone)); cbn [negb];
    [| by intros [= <- <-]].
  destruct (get (am_payload message) "step" PNone) as [| | | | | | step];
    try (by intros [= <- <-]).
  destruct (step !! "step_number") as [step_number |]; [| by intros [= <- <-]].
  destruct (step !! "action") as [action |] eqn:Haction; [| by intros [= <- <-]].
  destruct (_execute_action _ step d) as [[[server engine] [result | e]] |] eqn:Hrun;
    [| | done];
    (destruct (format step_number) as [number |]; [| done]); intros [= <- <-];
    cbn [execution_context]; [| done].
  intros Hctx. apply results_are_dicts_insert; [done |].
  intros e. revert Hrun. unfold _execute_action. rewrite Haction.
  destruct (step !! "parameters") as [[| | | | | | parameters] |]; try done.
  cbn [execution_context].
  destruct (Nav._resolve_parameters (execution_context nav) parameters) as [resolved |];
    [| done].
  apply route_result_data.
Qed.

Lemma deliveries_keep_results (messages : list (AgentMessage * NavDraws))
    (nav nav' : AgentNav) :
  deliveries nav messages = Some nav' ->
  results_are_dicts (execution_context nav) ->
  results_are_dicts (execution_context nav').
Proof.
  revert nav. induction messages as [| [message d] rest IH]; intros nav.
  - by intros [= <-].
  - cbn [deliveries].
    destruct (receive_a2a_message nav message d) as [[nav1 o] |] eqn:Hreceive; [| done].
    intros Hrest Hctx. apply (IH nav1 Hrest).
    by apply (receive_keeps_results nav nav1 message d o).
Qed.

(** C9: the resolver on the contexts the executor builds.

    First part, for every context of step results (each stored result a
    dictionary whose data envelope, when present, is a dictionary): the
    resolver returns a dictionary with the keys of [parameters].  A
    value that is no reference [${step.field}] with exactly one dot
    between the braces comes back as it is: numbers, containers, texts
    without the braces, and texts like ["${nodot}"] or ["${a.b.c}"].  A
    reference is kept when the context has no entry for the step, or
    when neither the step's data envelope nor the step's result holds
    the field; it is replaced by the data envelope's field when the
    envelope holds it, and otherwise by the result's own field.

    Second part: the context of an executor that started with an empty
    one is such a context after any sequence of deliveries, so the first
    part applies to every resolution the executor performs.

    Last, the two examples: on the context where step 1 produced the
    data [workspace_id = "WS-9"], the parameter ["${step1.workspace_id}"]
    resolves to ["WS-9"], and ["${step5.x}"] comes back as it is. *)
Theorem C9_resolver_binds_step_results :
  (forall ctx params : gmap string pyval,
      results_are_dicts ctx ->
      exists resolved,
        _resolve_parameters ctx params = Some resolved
        /\ dom resolved = dom params
        /\ forall key value, params !! key = Some value ->
             (plain value = true -> resolved !! key = Some value)
             /\ ((forall step field,
                     has_char dot step = false -> has_char dot field = false ->
                     value <> PStr (placeholder step field)) ->
                 resolved !! key = Some value)
             /\ forall step field,
                  has_char dot step = false -> has_char dot field = false ->
                  value = PStr (placeholder step field) ->
                  (ctx !! step = None -> resolved !! key = Some value)
                  /\ (forall result envelope v,
                        ctx !! step = Some (PDict result) ->
                        result !! "data" = Some (PDict envelope) ->
                        envelope !! field = Some v ->
                        resolved !! key = Some v)
                  /\ (forall result v,
                        ctx !! step = Some (PDict result) ->
                        (forall envelope, result !! "data" = Some (PDict envelope) ->
                                          envelope !! field = None) ->
                        result !! field = Some v ->
                        resolved !! key = Some v)
                  /\ (forall result,
                        ctx !! step = Some (PDict result) ->
                        (forall envelope, result !! "data" = Some (PDict envelope) ->
                                          envelope !! field = None) ->
                        result !! field = None ->
                        resolved !! key = Some value))
  /\ (forall (nav0 nav : AgentNav) (messages : list (AgentMessage * NavDraws)),
        execution_context nav0 = ∅ ->
        deliveries nav0 messages = Some nav ->
        results_are_dicts (execution_context nav))
  /\ _resolve_parameters ws_context ws_parameters
     = Some {[ "workspace_id" := PStr "WS-9" ]}
  /\ _resolve_parameters ws_context dangling_parameters = Some dangling_parameters.
Proof.
  split; [| split; [| split; vm_compute; reflexivity]].
  - intros ctx params Hwf.
    destruct (resolve_parameters_lookup ctx params Hwf) as (resolved & Hrun & Hres).
    exists resolved. split; [done |]. split.
    + apply set_eq. intros k. rewrite !elem_of_dom, Hres.
      destruct (params !! k) as [v |]; cbn.
      * split; [by eexists | intros _; by apply resolve_value_total].
      * done.
    + intros key value Hkey. rewrite Hres, Hkey. cbn. split; [| split].
      * apply resolve_value_plain.
      * intros Hnot. apply NavMore.resolve_value_unbound.
        intros step field -> Hs Hf. by destruct (Hnot step field Hs Hf).
      * intros step field Hs Hf ->.
        rewrite (resolve_value_placeholder ctx step field Hwf Hs Hf).
        unfold bound_value. repeat split.
        -- by intros ->.
        -- intros result envelope v -> -> ->. done.
        -- intros result v Hstep Henv Hv. rewrite Hstep.
           destruct (result !! "data") as [e |] eqn:He; [| by rewrite Hv].
           destruct e; try (by rewrite Hv). rewrite (Henv _ eq_refl). by rewrite Hv.
        -- intros result Hstep Henv Hv. rewrite Hstep.
           destruct (result !! "data") as [e |] eqn:He; [| by rewrite Hv].
           destruct e; try (by rewrite Hv). rewrite (Henv _ eq_refl). by rewrite Hv.
  - intros nav0 nav messages Hempty Hrun.
    apply (deliveries_keep_results messages nav0 nav Hrun).
    rewrite Hempty. intros step result Hstep. by rewrite lookup_empty in Hstep.
Qed.

(** Outside such contexts the lookup can raise: a stored result whose
    ["data"] entry is [None] makes [field in step_result["data"]] a
    [TypeError]. *)
Lemma resolve_value_raises_on_null_envelope :
  resolve_value {[ "step1" := PDict {[ "data" := PNone ]} ]} (PStr "${step1.x}") = None.
Proof. vm_compute. reflexivity. Qed.

(** The general part of C9 at the design's own example. *)
Lemma C9_resolver_witness :
  exists resolved,
    _resolve_parameters ws_context ws_parameters = Some resolved
    /\ resolved !! "workspace_id" = Some (PStr "WS-9").
Proof.
  destruct C9_resolver_binds_step_results as [Hgen _].
  destruct (Hgen ws_context ws_parameters) as (resolved & Hrun & _ & Hkeys).
  - intros step result Hstep. unfold ws_context in Hstep.
    apply lookup_singleton_Some in Hstep as [_ <-].
    eexists. split; [reflexivity |].
    intros e He. apply lookup_singleton_Some in He as [_ <-]. by eexists.
  - exists resolved. split; [exact Hrun |].
    destruct (Hkeys "workspace_id" (PStr "${step1.workspace_id}") eq_refl)
      as (_ & _ & Href).
    destruct (Href "step1" "workspace_id" eq_refl eq_refl eq_refl) as (_ & Henv & _).
    by apply (Henv {[ "data" := PDict {[ "workspace_id" := PStr "WS-9" ]} ]}
                   {[ "workspace_id" := PStr "WS-9" ]}).
Defined.

End ResolverFacts.

(** * Properties of the planner *)

Module PlannerFacts.
Import PyRun Executor Planner.

Lemma routed_actions_elem (a : string) :
  bool_decide (a ∈ routed_actions) = true -> a ∈ routed_actions.
Proof. apply bool_decide_eq_true_1. Qed.

(** The product [25.0 * duration] is left out of the model only for an
    integer beyond the range where it is exact. *)
Lemma times_25_unmodelled (v : pyval) :
  times_25 v = None -> exists z, v = PInt z /\ (2 ^ 53 <= Z.abs (25 * z))%Z.
Proof.
  destruct v as [| b | z | q | s | l | d]; try done.
  intros Hnone. exists z. split; [done |].
  destruct (Z.le_gt_cases (2 ^ 53) (Z.abs (25 * z))) as [Hle | Hlt]; [done |].
  by rewrite (MCPFacts.times_25_exact z Hlt) in Hnone.
Qed.

Lemma times_25_raises (v : pyval) (e : pyexn) :
  times_25 v = Some (Raised e) -> exists msg, e = TypeError msg \/ e = OverflowError msg.
Proof.
  destruct v as [| b | z | q | s | l | d]; cbn [times_25];
    try (intros [= <-]; eexists; by left); try done.
  destruct (float_overflow <=? Z.abs (round53 z))%Z.
  - intros [= <-]. eexists. by right.
  - by destruct (float_overflow <=? Z.abs (round53 (25 * round53 z)))%Z.
Qed.

Section WithText.
Context `{PyText}.

(** Whatever the goal and the context, a plan that the planner returns
    has at least one step; its steps are numbered 1, 2, 3, ... in order;
    every step is assigned to the executor, names an action the executor
    routes, and depends on the step just before it (the first on none).
    The planner raises only in the booking plan, with the [TypeError] or
    [OverflowError] of [25.0 * duration]; and the one case the model
    leaves out is a booking whose duration is an integer with
    [|25 * duration| >= 2^53]. *)
Theorem plans_are_well_formed (goal : string) (context : gmap string pyval) :
  match plan_steps goal context with
  | Some (Returned steps) =>
      steps <> []
      /\ step_number <$> steps = (fun k => Z.of_nat (S k)) <$> seq 0 (length steps)
      /\ Forall well_formed_step steps
  | Some (Raised e) =>
      (Py.str_contains "book" (str_lower goal)
       && Py.str_contains "workspace" (str_lower goal) = true)
      /\ exists msg, e = TypeError msg \/ e = OverflowError msg
  | None =>
      (Py.str_contains "book" (str_lower goal)
       && Py.str_contains "workspace" (str_lower goal) = true)
      /\ exists z, get context "duration_hours" (PInt 2) = PInt z
                   /\ (2 ^ 53 <= Z.abs (25 * z))%Z
  end.
Proof.
  unfold plan_steps.
  destruct (Py.str_contains "book" (str_lower goal)
            && Py.str_contains "workspace" (str_lower goal)).
  - unfold _plan_workspace_booking. cbv zeta.
    destruct (times_25 (get context "duration_hours" (PInt 2))) as [[amount | e] |] eqn:Hproduct.
    + split; [done |]. split; [done |].
      repeat constructor; by apply routed_actions_elem.
    + split; [done |]. by apply (times_25_raises _ _ Hproduct).
    + split; [done |]. by apply times_25_unmodelled.
  - destruct (Py.str_contains "research" (str_lower goal)).
    + unfold _plan_research_task. cbv zeta. split; [done |]. split; [done |].
      repeat constructor; by apply routed_actions_elem.
    + unfold _plan_generic_task. split; [done |]. split; [done |].
      repeat constructor; by apply routed_actions_elem.
Qed.

End WithText.

Lemma plans_are_well_formed_witness :
  exists steps,
    plan_steps (H := Demo.sample_text) Demo.user_goal Demo.demo_context
    = Some (Returned steps)
    /\ step_number <$> steps = [1; 2; 3; 4; 5]%Z
    /\ Forall well_formed_step steps.
Proof.
  eexists. split; [reflexivity |].
  destruct (plans_are_well_formed (H := Demo.sample_text) Demo.user_goal Demo.demo_context)
    as (_ & Hnumbers & Hshape).
  split; [exact Hnumbers | exact Hshape].
Defined.

(** What the planner sends is what the executor reads.  Delegating a
    plan produces one message per step, in the order of the plan, and
    appends exactly these to the planner's history; the message of a
    step is a task delegation from the planner to "agent_nav" whose
    payload carries the plan's id and the step, with the number, action
    and parameters that the executor looks up. *)
Theorem delegation_mirrors_the_plan (kai : AgentKai) (plan : ExecutionPlan)
    (draws : nat -> string * string) :
  length (snd (delegate_to_nav kai plan draws)) = length (steps plan)
  /\ kai_history (fst (delegate_to_nav kai plan draws))
     = (kai_history kai ++ snd (delegate_to_nav kai plan draws))%list
  /\ plans (fst (delegate_to_nav kai plan draws)) = plans kai
  /\ forall k step, steps plan !! k = Some step ->
       exists message,
         snd (delegate_to_nav kai plan draws) !! k = Some message
         /\ carries_step message (asdict step) (step_number step) (action step)
              (parameters step)
         /\ am_from_agent message = kai_agent_id kai
         /\ am_to_agent message = "agent_nav"
         /\ am_payload message !! "plan_id" = Some (PStr (plan_id plan))
         /\ am_message_id message = "MSG-" +:+ Py.str_take 8 (fst (draws k)).
Proof.
  unfold delegate_to_nav. cbn [fst snd kai_history plans].
  split; [apply length_imap |]. split; [done |]. split; [done |].
  intros k step Hk. eexists. split.
  - rewrite list_lookup_imap, Hk. reflexivity.
  - unfold carries_step, delegation_message, asdict. cbn.
    repeat split; by simplify_map_eq.
Qed.

End PlannerFacts.

(** * Properties of the execution loop and of the whole pipeline *)

Module DemoFacts.
Import PyRun MCP Executor Planner Demo ExecutorFacts.

(** The loop is fail-fast.  Whenever it returns, the executor has logged
    exactly the messages that were delivered, one per collected answer
    and in order; every answer but the last is a success; and if fewer
    answers than messages were collected, the last answer is a failure
    and no later message was delivered. *)
Theorem execution_stops_at_first_failure (nav nav' : AgentNav)
    (messages : list AgentMessage) (draws : nat -> NavDraws)
    (results : list (gmap string pyval)) :
  execute_all nav messages draws = Some (nav', results) ->
  message_history nav'
  = (message_history nav ++ take (length results) messages)%list
  /\ (length results <= length messages)%nat
  /\ (forall k r, results !! k = Some r -> (S k < length results)%nat ->
                  truthy (get r "success" PNone) = true)
  /\ ((length results < length messages)%nat ->
      exists r, last results = Some r /\ truthy (get r "success" PNone) = false).
Proof.
  revert nav draws results.
  induction messages as [| message rest IH]; intros nav draws results.
  - cbn. intros [= <- <-]. cbn. rewrite app_nil_r.
    split; [done |]. split; [lia |]. split; [| lia].
    intros k r Hk. by rewrite lookup_nil in Hk.
  - cbn [execute_all].
    destruct (receive_a2a_message nav message (draws 0%nat))
      as [[nav1 [result | e]] |] eqn:Hrecv; [| done | done].
    pose proof (receive_logs_the_message _ _ _ _ _ Hrecv) as Hlog.
    destruct (truthy (get result "success" PNone)) eqn:Hok.
    + destruct (execute_all nav1 rest (fun k => draws (S k)))
        as [[nav2 results'] |] eqn:Hrest; [| done].
      intros [= <- <-].
      destruct (IH nav1 _ results' Hrest) as (Hhist & Hlen & Hall & Hlast).
      split; [| split; [| split]].
      * rewrite Hhist, Hlog. cbn. by rewrite <- app_assoc.
      * cbn. lia.
      * intros [| k] r Hk Hlt; cbn in Hk, Hlt.
        -- by injection Hk as <-.
        -- apply (Hall k r Hk). lia.
      * cbn. intros Hlt. destruct Hlast as (r & Hr & Hfail); [lia |].
        exists r. split; [| done].
        destruct results' as [| r0 results'']; [done |]. exact Hr.
    + intros [= <- <-]. split; [| split; [| split]].
      * rewrite Hlog. done.
      * cbn. lia.
      * intros [| k] r Hk Hlt; cbn in Hlt; lia.
      * intros _. by exists result.
Qed.

Lemma execution_stops_at_first_failure_witness :
  exists r,
    last [<["error" := PStr "Unknown message type: status_update"]> (∅ : gmap string pyval)]
    = Some r
    /\ truthy (get r "success" PNone) = false.
Proof.
  apply (execution_stops_at_first_failure (nav_init "agent_nav")
           (mkNav "agent_nav" ∅
              [mkAgentMessage "MSG-1" "agent_nav" "agent_kai" "status_update" ∅ "t0"]
              mcp_init AP2.init ∅)
           [mkAgentMessage "MSG-1" "agent_nav" "agent_kai" "status_update" ∅ "t0";
            single_step_message "find_workspace" ∅]
           sample_draws
           [<["error" := PStr "Unknown message type: status_update"]> ∅]).
  - vm_compute. reflexivity.
  - cbn. lia.
Defined.

Lemma pretty_1 : pretty 1%Z = "1".
Proof. vm_compute. reflexivity. Qed.
Lemma pretty_2 : pretty 2%Z = "2".
Proof. vm_compute. reflexivity. Qed.
Lemma pretty_3 : pretty 3%Z = "3".
Proof. vm_compute. reflexivity. Qed.
Lemma pretty_4 : pretty 4%Z = "4".
Proof. vm_compute. reflexivity. Qed.
Lemma pretty_5 : pretty 5%Z = "5".
Proof. vm_compute. reflexivity. Qed.

Lemma not_closing_after_h (a : string) : Nav.str_endswith "}" (a +:+ "h") = false.
Proof.
  induction a as [| c a IH]; [done |].
  rewrite NavFacts.append_cons. cbn [Nav.str_endswith]. rewrite IH, orb_false_r.
  assert (String.eqb (a +:+ "h") "" = false) as Hne by (by destruct a).
  cbn [String.eqb]. rewrite Hne. by destruct (Ascii.eqb c "}").
Qed.

Lemma purpose_is_plain (t dt : string) :
  Nav.plain (PStr (t +:+ " workspace for " +:+ dt +:+ "h")) = true.
Proof.
  cbn [Nav.plain].
  replace (t +:+ " workspace for " +:+ dt +:+ "h")
    with ((t +:+ " workspace for " +:+ dt) +:+ "h")
    by (by rewrite !NavFacts.append_assoc).
  by rewrite not_closing_after_h, andb_false_r.
Qed.

Lemma find_workspace_answer (z : Z) (t : string) (d : ActionDraws) :
  (Z.abs (25 * z) < 2 ^ 53)%Z ->
  execute_action "find_workspace" (<["duration_hours" := PInt z]> (<["type" := PStr t]> ∅)) d
  = Some (workspace_answer z t d).
Proof.
  intros Hz. unfold execute_action.
  change (action_handler "find_workspace") with (Some _find_workspace). cbv iota beta.
  unfold _find_workspace. cbv zeta.
  assert (get (<["duration_hours" := PInt z]> (<["type" := PStr t]> ∅)) "duration_hours" (PInt 1)
          = PInt z) as -> by (unfold get; by simplify_map_eq).
  assert (get (<["duration_hours" := PInt z]> (<["type" := PStr t]> ∅)) "type" (PStr "premium")
          = PStr t) as -> by (unfold get; by simplify_map_eq).
  by rewrite (MCPFacts.times_25_exact z Hz).
Qed.

Lemma confirm_booking_answer (w p : pyval) (d : ActionDraws) :
  execute_action "confirm_booking" (<["workspace_id" := w]> (<["payment_id" := p]> ∅)) d
  = Some (<["action_name" := PStr "confirm_booking"]>
    (<["success" := PBool true]>
    (<["data" :=
         PDict (<["booking_id" := PStr ("BK-" +:+ Py.str_take 8 (ad_uuid d))]>
               (<["workspace_id" := w]>
               (<["payment_id" := p]>
               (<["status" := PStr "confirmed"]>
               (<["confirmation_code" := PStr (Py.str_upper (Py.str_take 6 (ad_uuid2 d)))]>
               (<["check_in_time" := PStr "2025-12-22T18:00:00Z"]> ∅))))))]>
    (<["timestamp" := PStr (ad_now d)]>
    (<["error" := PNone]> ∅))))).
Proof.
  unfold execute_action.
  change (action_handler "confirm_booking") with (Some _confirm_booking). cbv iota beta.
  unfold _confirm_booking.
  assert (get (<["workspace_id" := w]> (<["payment_id" := p]> ∅)) "workspace_id" PNone = w)
    as -> by (unfold get; by simplify_map_eq).
  assert (get (<["workspace_id" := w]> (<["payment_id" := p]> ∅)) "payment_id" PNone = p)
    as -> by (unfold get; by simplify_map_eq).
  reflexivity.
Qed.

Lemma booking_steps_run (nav : AgentNav) (m1 m2 m3 m4 m5 : AgentMessage)
    (s1 s2 s3 s4 s5 : gmap string pyval) (z : Z) (t purp : string)
    (draws : nat -> NavDraws) :
  carries_step m1 s1 1 "create_task"
    (<["task_name" := PStr "Book premium workspace"]>
     (<["metadata" := PDict (<["duration" := PInt z]> (<["type" := PStr t]> ∅))]> ∅)) ->
  carries_step m2 s2 2 "find_workspace"
    (<["duration_hours" := PInt z]> (<["type" := PStr t]> ∅)) ->
  carries_step m3 s3 3 "request_payment"
    (<["amount" := PFloat (inject_Z (25 * z))]> (<["purpose" := PStr purp]> ∅)) ->
  carries_step m4 s4 4 "confirm_booking"
    (<["workspace_id" := PStr "${step2.workspace_id}"]>
     (<["payment_id" := PStr "${step3.payment_id}"]> ∅)) ->
  carries_step m5 s5 5 "send_notification"
    (<["recipient" := PStr "user@example.com"]>
     (<["message" := PStr "Workspace booking confirmed!"]> ∅)) ->
  (Z.abs (25 * z) < 2 ^ 53)%Z ->
  Nav.plain (PStr t) = true ->
  Nav.plain (PStr purp) = true ->
  exists nav' r1 r2 r3 r4 r5 found receipt confirmed booking,
    execute_all nav [m1; m2; m3; m4; m5] draws = Some (nav', [r1; r2; r3; r4; r5])
    /\ Forall (fun r => r !! "success" = Some (PBool true)) [r1; r2; r3; r4; r5]
    /\ r2 !! "result" = Some (PDict found)
    /\ found !! "data"
       = Some (PDict (<["workspace_id" :=
                          PStr ("WS-" +:+ Py.str_take 8 (ad_uuid (nd_action (draws 1%nat))))]>
                     (<["type" := PStr t]>
                     (<["duration_hours" := PInt z]>
                     (<["price_per_hour" := PFloat 25]>
                     (<["total_price" := PFloat (inject_Z (25 * z))]>
                     (<["location" := PStr "Downtown Tech Hub"]>
                     (<["amenities" :=
                          PList [PStr "High-speed WiFi"; PStr "Standing desk";
                                 PStr "Coffee bar"]]> ∅))))))))
    /\ r3 !! "result" = Some (PDict receipt)
    /\ receipt !! "amount" = Some (PFloat (inject_Z (25 * z)))
    /\ receipt !! "status" = Some (PStr "completed")
    /\ receipt !! "payment_id" = Some (PStr ("PAY-" +:+ nd_intent_uuid (draws 2%nat)))
    /\ r4 !! "result" = Some (PDict confirmed)
    /\ confirmed !! "data" = Some (PDict booking)
    /\ booking !! "workspace_id"
       = Some (PStr ("WS-" +:+ Py.str_take 8 (ad_uuid (nd_action (draws 1%nat)))))
    /\ booking !! "payment_id" = Some (PStr ("PAY-" +:+ nd_intent_uuid (draws 2%nat)))
    /\ booking !! "status" = Some (PStr "confirmed")
    /\ AP2.payment_intents (ap2 nav') !! ("PAY-" +:+ nd_intent_uuid (draws 2%nat))
       = Some (AP2.mkIntent ("PAY-" +:+ nd_intent_uuid (draws 2%nat)) (inject_Z (25 * z))
                 "USD" purp AP2.COMPLETED (nd_intent_now (draws 2%nat))
                 (<["amount" := PFloat (inject_Z (25 * z))]> (<["purpose" := PStr purp]> ∅)))
    /\ message_history nav' = (message_history nav ++ [m1; m2; m3; m4; m5])%list.
Proof.
  intros Hc1 Hc2 Hc3 Hc4 Hc5 Hz Ht Hpurp.
  assert (forall ctx,
            Nav._resolve_parameters ctx
              (<["task_name" := PStr "Book premium workspace"]>
               (<["metadata" := PDict (<["duration" := PInt z]> (<["type" := PStr t]> ∅))]> ∅))
            = Some (<["task_name" := PStr "Book premium workspace"]>
               (<["metadata" := PDict (<["duration" := PInt z]> (<["type" := PStr t]> ∅))]> ∅)))
    as Hres1.
  { intros ctx. apply NavMore.resolve_parameters_plain.
    apply map_Forall_insert_2; [reflexivity |].
    apply map_Forall_insert_2; [reflexivity |]. apply map_Forall_empty. }
  assert (forall ctx,
            Nav._resolve_parameters ctx
              (<["duration_hours" := PInt z]> (<["type" := PStr t]> ∅))
            = Some (<["duration_hours" := PInt z]> (<["type" := PStr t]> ∅))) as Hres2.
  { intros ctx. apply NavMore.resolve_parameters_plain.
    apply map_Forall_insert_2; [reflexivity |].
    apply map_Forall_insert_2; [exact Ht |]. apply map_Forall_empty. }
  assert (forall ctx,
            Nav._resolve_parameters ctx
              (<["amount" := PFloat (inject_Z (25 * z))]> (<["purpose" := PStr purp]> ∅))
            = Some (<["amount" := PFloat (inject_Z (25 * z))]> (<["purpose" := PStr purp]> ∅)))
    as Hres3.
  { intros ctx. apply NavMore.resolve_parameters_plain.
    apply map_Forall_insert_2; [reflexivity |].
    apply map_Forall_insert_2; [exact Hpurp |]. apply map_Forall_empty. }
  assert (forall ctx,
            Nav._resolve_parameters ctx
              (<["recipient" := PStr "user@example.com"]>
               (<["message" := PStr "Workspace booking confirmed!"]> ∅))
            = Some (<["recipient" := PStr "user@example.com"]>
               (<["message" := PStr "Workspace booking confirmed!"]> ∅))) as Hres5.
  { intros ctx. apply NavMore.resolve_parameters_plain.
    apply map_Forall_insert_2; [reflexivity |].
    apply map_Forall_insert_2; [reflexivity |]. apply map_Forall_empty. }
  cbn [execute_all].
  (* step 1 *)
  rewrite (create_task_step nav m1 s1 1 _ _ (draws 0%nat) Hc1 (Hres1 _)).
  rewrite delegation_success_is_true.
  set (nav1 := after_success nav m1 _ _ _ _ _ _).
  rewrite (generic_action_step nav1 m2 s2 2 "find_workspace" _ _ _ (draws 1%nat) Hc2
             (Hres2 _) eq_refl (find_workspace_answer z t _ Hz)).
  rewrite delegation_success_is_true.
  set (nav2 := after_success nav1 m2 _ _ _ _ _ _).
  assert (get (<["amount" := PFloat (inject_Z (25 * z))]> (<["purpose" := PStr purp]> ∅))
            "amount" (PFloat 0) = PFloat (inject_Z (25 * z))) as Hamount
    by (unfold get; by simplify_map_eq).
  assert (get (<["amount" := PFloat (inject_Z (25 * z))]> (<["purpose" := PStr purp]> ∅))
            "purpose" (PStr "Payment") = PStr purp) as Hpurpose
    by (unfold get; by simplify_map_eq).
  rewrite (payment_step nav2 m3 s3 3 _ _ (inject_Z (25 * z)) purp (draws 2%nat) Hc3
             (Hres3 _) Hamount Hpurpose).
  rewrite delegation_success_is_true.
  set (nav3 := after_success nav2 m3 _ _ _ _ _ _).
  assert (Nav._resolve_parameters (execution_context nav3)
            (<["workspace_id" := PStr "${step2.workspace_id}"]>
             (<["payment_id" := PStr "${step3.payment_id}"]> ∅))
          = Some (<["workspace_id" :=
                      PStr ("WS-" +:+ Py.str_take 8 (ad_uuid (nd_action (draws 1%nat))))]>
                  (<["payment_id" := PStr ("PAY-" +:+ nd_intent_uuid (draws 2%nat))]> ∅)))
    as Hres4.
  { assert (execution_context nav3 !! "step2"
            = Some (PDict (workspace_answer z t (nd_action (draws 1%nat))))) as Hstep2.
    { unfold nav3, nav2, after_success. cbn [execution_context].
      rewrite pretty_3, pretty_2.
      rewrite lookup_insert_ne by done. apply lookup_insert_eq. }
    assert (execution_context nav3 !! "step3"
            = Some (PDict (receipt_dict (paid_receipt (inject_Z (25 * z)) (draws 2%nat)) purp)))
      as Hstep3.
    { unfold nav3, after_success. cbn [execution_context].
      rewrite pretty_3. apply lookup_insert_eq. }
    assert (Nav.resolve_value (execution_context nav3)
              (PStr (Nav.placeholder "step2" "workspace_id"))
            = Some (PStr ("WS-" +:+ Py.str_take 8 (ad_uuid (nd_action (draws 1%nat))))))
      as Hv2.
    { rewrite (NavMore.resolve_value_bound _ "step2" "workspace_id" _ eq_refl eq_refl Hstep2).
      - unfold Nav.bound_value. rewrite Hstep2. reflexivity.
      - unfold workspace_answer. intros e He. simplify_map_eq. by eexists. }
    assert (Nav.resolve_value (execution_context nav3)
              (PStr (Nav.placeholder "step3" "payment_id"))
            = Some (PStr ("PAY-" +:+ nd_intent_uuid (draws 2%nat)))) as Hv3.
    { rewrite (NavMore.resolve_value_bound _ "step3" "payment_id" _ eq_refl eq_refl Hstep3).
      - unfold Nav.bound_value. rewrite Hstep3. reflexivity.
      - unfold receipt_dict. intros e He. simplify_map_eq. }
    apply NavMore.resolve_parameters_pointwise.
    - intros key.
      destruct (decide (key = "workspace_id")) as [-> | Hk1].
      { rewrite !lookup_insert_eq. cbn [mbind option_bind]. symmetry. exact Hv2. }
      destruct (decide (key = "payment_id")) as [-> | Hk2].
      { rewrite !(lookup_insert_ne _ "workspace_id") by done.
        rewrite !lookup_insert_eq. cbn [mbind option_bind]. symmetry. exact Hv3. }
      rewrite !lookup_insert_ne by done. by rewrite !lookup_empty.
    - intros key value Hk.
      destruct (decide (key = "workspace_id")) as [-> | Hk1].
      { rewrite lookup_insert_eq in Hk. injection Hk as <-. eexists. exact Hv2. }
      rewrite lookup_insert_ne in Hk by done.
      destruct (decide (key = "payment_id")) as [-> | Hk2].
      { rewrite lookup_insert_eq in Hk. injection Hk as <-. eexists. exact Hv3. }
      rewrite lookup_insert_ne in Hk by done. by rewrite lookup_empty in Hk. }
  rewrite (generic_action_step nav3 m4 s4 4 "confirm_booking" _ _ _ (draws 3%nat) Hc4
             Hres4 eq_refl (confirm_booking_answer _ _ _)).
  rewrite delegation_success_is_true.
  set (nav4 := after_success nav3 m4 _ _ _ _ _ _).
  rewrite (generic_action_step nav4 m5 s5 5 "send_notification" _ _ _ (draws 4%nat) Hc5
             (Hres5 _) eq_refl eq_refl).
  rewrite delegation_success_is_true.
  set (nav5 := after_success nav4 m5 _ _ _ _ _ _).
  exists nav5.
  match goal with
  | |- context [Some (nav5, [?a1; ?a2; ?a3; delegation_success ?e ?n ?c ?answer; ?a5])] =>
      exists a1, a2, a3, (delegation_success e n c answer), a5;
      exists (workspace_answer z t (nd_action (draws 1%nat)));
      exists (receipt_dict (paid_receipt (inject_Z (25 * z)) (draws 2%nat)) purp);
      exists answer
  end.
  eexists.
  split; [reflexivity |].
  split; [by repeat constructor |].
  split; [reflexivity |].
  split; [reflexivity |].
  split; [reflexivity |].
  split; [reflexivity |].
  split; [reflexivity |].
  split; [reflexivity |].
  split; [reflexivity |].
  split; [reflexivity |].
  split; [reflexivity |].
  split; [reflexivity |].
  split; [reflexivity |].
  split.
  - unfold nav5, nav4, nav3, after_success. cbn [ap2]. unfold paid_engine.
    cbn [AP2.payment_intents]. rewrite lookup_insert_eq. reflexivity.
  - unfold nav5, nav4, nav3, nav2, nav1, after_success. cbn [message_history].
    by rewrite <- !app_assoc.
Qed.

Lemma delegation_message_carries (kai : AgentKai) (plan : ExecutionPlan) (step : PlanStep)
    (draw : string * string) :
  carries_step (delegation_message kai plan step draw) (asdict step) (step_number step)
    (action step) (parameters step).
Proof.
  unfold carries_step, delegation_message, asdict. cbn.
  repeat split; by simplify_map_eq.
Qed.

Section WithText.
Context `{PyText}.

(** The booking pipeline, from the goal to the receipt.  For a goal that
    mentions "book" and "workspace", an integer number of hours [z] with
    [|25 * z| < 2^53], so that the float product [25.0 * z] is exact, and
    a workspace type that is a text and not itself of the reference
    shape, the planner returns a plan whose five delegated messages the
    executor all carries out, from any state of the executor: the
    workspace found in step 2 is priced at 25 per hour, the payment of
    step 3 is for exactly that total and ends [COMPLETED] in the engine,
    and the booking confirmed in step 4 names the workspace id of step 2
    and the payment id of step 3, which the resolver put in place of the
    two references. *)
Theorem booking_plan_runs_end_to_end (kai : AgentKai) (nav : AgentNav) (goal : string)
    (context : gmap string pyval) (z : Z) (t uuid now : string)
    (kdraws : nat -> string * string) (draws : nat -> NavDraws) :
  Py.str_contains "book" (str_lower goal) = true ->
  Py.str_contains "workspace" (str_lower goal) = true ->
  get context "duration_hours" (PInt 2) = PInt z ->
  get context "type" (PStr "premium") = PStr t ->
  (Z.abs (25 * z) < 2 ^ 53)%Z ->
  Nav.plain (PStr t) = true ->
  exists kai' plan nav' r1 r2 r3 r4 r5 found receipt confirmed booking,
    receive_goal kai goal (Some context) uuid now = Some (kai', Returned plan)
    /\ execute_all nav (snd (delegate_to_nav kai' plan kdraws)) draws
       = Some (nav', [r1; r2; r3; r4; r5])
    /\ Forall (fun r => r !! "success" = Some (PBool true)) [r1; r2; r3; r4; r5]
    /\ r2 !! "result" = Some (PDict found)
    /\ found !! "data"
       = Some (PDict (<["workspace_id" :=
                          PStr ("WS-" +:+ Py.str_take 8 (ad_uuid (nd_action (draws 1%nat))))]>
                     (<["type" := PStr t]>
                     (<["duration_hours" := PInt z]>
                     (<["price_per_hour" := PFloat 25]>
                     (<["total_price" := PFloat (inject_Z (25 * z))]>
                     (<["location" := PStr "Downtown Tech Hub"]>
                     (<["amenities" :=
                          PList [PStr "High-speed WiFi"; PStr "Standing desk";
                                 PStr "Coffee bar"]]> ∅))))))))
    /\ r3 !! "result" = Some (PDict receipt)
    /\ receipt !! "amount" = Some (PFloat (inject_Z (25 * z)))
    /\ receipt !! "status" = Some (PStr "completed")
    /\ receipt !! "payment_id" = Some (PStr ("PAY-" +:+ nd_intent_uuid (draws 2%nat)))
    /\ r4 !! "result" = Some (PDict confirmed)
    /\ confirmed !! "data" = Some (PDict booking)
    /\ booking !! "workspace_id"
       = Some (PStr ("WS-" +:+ Py.str_take 8 (ad_uuid (nd_action (draws 1%nat)))))
    /\ booking !! "payment_id" = Some (PStr ("PAY-" +:+ nd_intent_uuid (draws 2%nat)))
    /\ booking !! "status" = Some (PStr "confirmed")
    /\ AP2.payment_intents (ap2 nav') !! ("PAY-" +:+ nd_intent_uuid (draws 2%nat))
       = Some (AP2.mkIntent ("PAY-" +:+ nd_intent_uuid (draws 2%nat)) (inject_Z (25 * z))
                 "USD" (t +:+ " workspace for " +:+ pretty z +:+ "h") AP2.COMPLETED
                 (nd_intent_now (draws 2%nat))
                 (<["amount" := PFloat (inject_Z (25 * z))]>
                  (<["purpose" := PStr (t +:+ " workspace for " +:+ pretty z +:+ "h")]> ∅)))
    /\ message_history nav'
       = (message_history nav ++ snd (delegate_to_nav kai' plan kdraws))%list.
Proof.
  intros Hbook Hws Hdur Htype Hz Ht.
  unfold receive_goal, _create_plan, plan_steps. cbn [from_option id].
  rewrite Hbook, Hws. cbn [andb]. unfold _plan_workspace_booking. cbv zeta.
  rewrite Hdur, Htype, (MCPFacts.times_25_exact z Hz). cbn [py_str].
  match goal with
  | |- context [Some (?k, Returned ?p)] => set (kai' := k); set (plan := p)
  end.
  exists kai', plan.
  pose (st1 := mkStep 1 "create_task" "Create booking task in system"
                 (<["task_name" := PStr "Book premium workspace"]>
                  (<["metadata" :=
                       PDict (<["duration" := PInt z]> (<["type" := PStr t]> ∅))]> ∅))
                 [] "agent_nav").
  pose (st2 := mkStep 2 "find_workspace" "Search for available workspace"
                 (<["duration_hours" := PInt z]> (<["type" := PStr t]> ∅))
                 [1%Z] "agent_nav").
  pose (st3 := mkStep 3 "request_payment" "Process payment for booking"
                 (<["amount" := PFloat (inject_Z (25 * z))]>
                  (<["purpose" :=
                       PStr (t +:+ " workspace for " +:+ pretty z +:+ "h")]> ∅))
                 [2%Z] "agent_nav").
  pose (st4 := mkStep 4 "confirm_booking" "Finalize workspace booking"
                 (<["workspace_id" := PStr "${step2.workspace_id}"]>
                  (<["payment_id" := PStr "${step3.payment_id}"]> ∅))
                 [3%Z] "agent_nav").
  pose (st5 := mkStep 5 "send_notification" "Send confirmation to user"
                 (<["recipient" := PStr "user@example.com"]>
                  (<["message" := PStr "Workspace booking confirmed!"]> ∅))
                 [4%Z] "agent_nav").
  assert (snd (delegate_to_nav kai' plan kdraws)
          = [delegation_message kai' plan st1 (kdraws 0%nat);
             delegation_message kai' plan st2 (kdraws 1%nat);
             delegation_message kai' plan st3 (kdraws 2%nat);
             delegation_message kai' plan st4 (kdraws 3%nat);
             delegation_message kai' plan st5 (kdraws 4%nat)]) as Hmessages by reflexivity.
  rewrite Hmessages. clearbody plan kai'.
  destruct (booking_steps_run nav _ _ _ _ _ _ _ _ _ _ z t
              (t +:+ " workspace for " +:+ pretty z +:+ "h") draws
              (delegation_message_carries kai' plan st1 (kdraws 0%nat))
              (delegation_message_carries kai' plan st2 (kdraws 1%nat))
              (delegation_message_carries kai' plan st3 (kdraws 2%nat))
              (delegation_message_carries kai' plan st4 (kdraws 3%nat))
              (delegation_message_carries kai' plan st5 (kdraws 4%nat))
              Hz Ht (purpose_is_plain t (pretty z)))
    as (nav' & r1 & r2 & r3 & r4 & r5 & found & receipt & confirmed & booking & Hrun & Hrest).
  exists nav', r1, r2, r3, r4, r5, found, receipt, confirmed, booking.
  split; [reflexivity |]. split; [exact Hrun |]. exact Hrest.
Qed.

End WithText.

Lemma booking_plan_runs_end_to_end_witness :
  exists kai' plan nav' answers,
    receive_goal (H := sample_text) (kai_init "agent_kai") user_goal (Some demo_context)
      "4c2f9a10-77aa" "t0"
    = Some (kai', Returned plan)
    /\ execute_all (nav_init "agent_nav")
         (snd (delegate_to_nav kai' plan sample_message_draws))
         sample_draws
       = Some (nav', answers)
    /\ length answers = 5%nat.
Proof.
  destruct (booking_plan_runs_end_to_end (H := sample_text)
              (kai_init "agent_kai") (nav_init "agent_nav")
              user_goal demo_context 2 "premium" "4c2f9a10-77aa" "t0"
              sample_message_draws sample_draws
              eq_refl eq_refl eq_refl eq_refl eq_refl eq_refl)
    as (kai' & plan & nav' & r1 & r2 & r3 & r4 & r5 & _ & _ & _ & _ & Hgoal & Hrun & _).
  exists kai', plan, nav', [r1; r2; r3; r4; r5]. split; [exact Hgoal |]. split; [exact Hrun |].
  reflexivity.
Defined.

End DemoFacts.
